(** * Credora: credential issuance and verification state machine

    A shallow embedding of the three on-chain contracts of the repository
    (CredentialRegistry, CredentialNFT, VerificationContract) and of the
    off-chain onboarding workflow of BlockchainController, together with
    the properties the specification states about them.

    Conventions of the embedding:
    - an [address] and a [uint256] are integers ([Z]); [address(0)] is [0];
      checked arithmetic of Solidity 0.8 is written out (an overflowing
      [++] panics with code 0x11), unchecked arithmetic wraps modulo 2^256;
    - a Solidity [mapping] is a finite map ([gmap]) read with the zero
      value of its value type as default;
    - a call either returns ([Ok]) or reverts ([Revert] with the reason
      string of the failing [require], [Panic] for a failed arithmetic
      check); a reverted call leaves every contract state as it was, which
      [commit] expresses;
    - [msg.sender] and [block.timestamp] are explicit arguments
      ([sender], [now_]);
    - events are not part of the contract state and are left out. *)

From stdpp Require Import base gmap strings list.
From Stdlib Require Import ZArith Lia.

Local Open Scope string_scope.
Local Open Scope Z_scope.

(** ** Call results *)

Inductive result (A : Type) : Type :=
| Ok (a : A)
| Revert (reason : string)
| Panic (code : Z).
Arguments Ok {A} a.
Arguments Revert {A} reason.
Arguments Panic {A} code.

#[global] Instance result_ret : MRet result := @Ok.
#[global] Instance result_bind : MBind result := λ A B f m,
  match m with
  | Ok a => f a
  | Revert r => Revert r
  | Panic c => Panic c
  end.

Definition require (cond : bool) (reason : string) : result unit :=
  if cond then Ok tt else Revert reason.

Definition is_ok {A} (r : result A) : bool :=
  match r with Ok _ => true | _ => false end.

(** The state after a transaction: the new state when the call returned,
    the old one when it reverted. *)
Definition commit {S} (r : result S) (old : S) : S :=
  match r with Ok s => s | _ => old end.

Definition MAX_UINT256 : Z := 2 ^ 256 - 1.

(** [x++] on a [uint256] under Solidity 0.8. *)
Definition checked_inc (x : Z) : result Z :=
  if x <? MAX_UINT256 then Ok (x + 1) else Panic 17.

(** [unchecked { x += 1 }]. *)
Definition unchecked_inc (x : Z) : Z := (x + 1) mod 2 ^ 256.

(** [unchecked { x -= 1 }]. *)
Definition unchecked_dec (x : Z) : Z := (x - 1) mod 2 ^ 256.

(** [bytes(s).length > 0] *)
Definition nonempty (s : string) : bool := negb (String.eqb s "").

Abbreviation address := Z (only parsing).

(** ** CredentialRegistry *)

Module Registry.

Record Institution : Type := mkInstitution {
  name : string;
  website : string;
  email : string;
  walletAddress : address;
  verified : bool;
  registrationDate : Z;
  credentialsIssued : Z;
  documentHash : string
}.

(** The value a mapping returns for a key never written. *)
Definition zeroInstitution : Institution :=
  mkInstitution "" "" "" 0 false 0 0 "".

Record State : Type := mkState {
  owner : address;
  institutions : gmap Z Institution;
  authorizedIssuers : gmap Z bool;
  issuerList : list Z;
  admins : gmap Z bool
}.

Definition institutionAt (st : State) (a : address) : Institution :=
  default zeroInstitution (institutions st !! a).

Definition adminAt (st : State) (a : address) : bool :=
  default false (admins st !! a).

Definition set_institution (st : State) (a : address) (i : Institution) : State :=
  mkState (owner st) (<[a := i]> (institutions st)) (authorizedIssuers st)
          (issuerList st) (admins st).

Definition set_authorized (st : State) (a : address) (b : bool) : State :=
  mkState (owner st) (institutions st) (<[a := b]> (authorizedIssuers st))
          (issuerList st) (admins st).

Definition set_issuerList (st : State) (l : list Z) : State :=
  mkState (owner st) (institutions st) (authorizedIssuers st) l (admins st).

Definition set_admin (st : State) (a : address) (b : bool) : State :=
  mkState (owner st) (institutions st) (authorizedIssuers st)
          (issuerList st) (<[a := b]> (admins st)).

Definition set_owner (st : State) (a : address) : State :=
  mkState a (institutions st) (authorizedIssuers st) (issuerList st) (admins st).

Definition with_verified (i : Institution) (b : bool) : Institution :=
  mkInstitution (name i) (website i) (email i) (walletAddress i) b
                (registrationDate i) (credentialsIssued i) (documentHash i).

Definition with_credentialsIssued (i : Institution) (n : Z) : Institution :=
  mkInstitution (name i) (website i) (email i) (walletAddress i) (verified i)
                (registrationDate i) n (documentHash i).

Definition with_info (i : Institution) (n w e : string) : Institution :=
  mkInstitution n w e (walletAddress i) (verified i)
                (registrationDate i) (credentialsIssued i) (documentHash i).

Definition with_documentHash (i : Institution) (d : string) : Institution :=
  mkInstitution (name i) (website i) (email i) (walletAddress i) (verified i)
                (registrationDate i) (credentialsIssued i) d.

(** [constructor()]: Ownable makes the deployer the owner, the
    constructor body makes it an admin. *)
Definition constructor (deployer : address) : State :=
  mkState deployer ∅ ∅ [] {[ deployer := true ]}.

(** [isAuthorizedIssuer(issuer)] *)
Definition isAuthorizedIssuer (st : State) (issuer : address) : bool :=
  default false (authorizedIssuers st !! issuer).

(** [isAdmin(account)] *)
Definition isAdmin (st : State) (account : address) : bool :=
  adminAt st account || (account =? owner st).

(** [modifier onlyAdmin] *)
Definition onlyAdmin (sender : address) (st : State) : result unit :=
  require (adminAt st sender || (sender =? owner st)) "Not authorized admin".

(** [modifier onlyOwner] of Ownable. *)
Definition onlyOwner (sender : address) (st : State) : result unit :=
  require (owner st =? sender) "Ownable: caller is not the owner".

Definition addAdmin (sender admin : address) (st : State) : result State :=
  onlyOwner sender st ;;
  Ok (set_admin st admin true).

Definition removeAdmin (sender admin : address) (st : State) : result State :=
  onlyOwner sender st ;;
  Ok (set_admin st admin false).

(** Ownable's [transferOwnership] and [renounceOwnership], inherited. *)
Definition transferOwnership (sender newOwner : address) (st : State) : result State :=
  onlyOwner sender st ;;
  require (negb (newOwner =? 0)) "Ownable: new owner is the zero address" ;;
  Ok (set_owner st newOwner).

Definition renounceOwnership (sender : address) (st : State) : result State :=
  onlyOwner sender st ;;
  Ok (set_owner st 0).

Definition registerInstitution (sender : address) (now_ : Z)
    (institutionAddress : address) (name_ website_ email_ documentHash_ : string)
    (st : State) : result State :=
  onlyAdmin sender st ;;
  require (negb (institutionAddress =? 0)) "Invalid address" ;;
  require (nonempty name_) "Name cannot be empty" ;;
  require (negb (nonempty (name (institutionAt st institutionAddress))))
          "Institution already registered" ;;
  Ok (set_institution st institutionAddress
        (mkInstitution name_ website_ email_ institutionAddress false now_ 0
                       documentHash_)).

Definition verifyInstitution (sender : address) (institutionAddress : address)
    (st : State) : result State :=
  onlyAdmin sender st ;;
  require (nonempty (name (institutionAt st institutionAddress)))
          "Institution not registered" ;;
  require (negb (verified (institutionAt st institutionAddress)))
          "Already verified" ;;
  let st1 := set_institution st institutionAddress
               (with_verified (institutionAt st institutionAddress) true) in
  let st2 := set_authorized st1 institutionAddress true in
  Ok (set_issuerList st2 (issuerList st2 ++ [institutionAddress])).

(** The removal loop of [revokeInstitution]: the first entry equal to the
    address gets the last entry's value, the list is popped, and the loop
    breaks. *)
Fixpoint firstIndex (a : address) (l : list Z) (i : nat) : option nat :=
  match l with
  | [] => None
  | x :: rest => if x =? a then Some i else firstIndex a rest (S i)
  end.

Definition swapPop (a : address) (l : list Z) : list Z :=
  match firstIndex a l 0 with
  | Some i => removelast (<[i := List.last l 0]> l)
  | None => l
  end.

Definition revokeInstitution (sender : address) (institutionAddress : address)
    (st : State) : result State :=
  onlyAdmin sender st ;;
  require (isAuthorizedIssuer st institutionAddress) "Institution not authorized" ;;
  let st1 := set_authorized st institutionAddress false in
  let st2 := set_institution st1 institutionAddress
               (with_verified (institutionAt st1 institutionAddress) false) in
  Ok (set_issuerList st2 (swapPop institutionAddress (issuerList st2))).

(** [incrementCredentialCount(issuer)]: [external], no modifier; the
    [require] reads the argument, not [msg.sender]. *)
Definition incrementCredentialCount (sender : address) (issuer : address)
    (st : State) : result State :=
  require (isAuthorizedIssuer st issuer) "Not authorized issuer" ;;
  n ← checked_inc (credentialsIssued (institutionAt st issuer)) ;
  Ok (set_institution st issuer
        (with_credentialsIssued (institutionAt st issuer) n)).

Definition updateInstitutionInfo (sender : address) (institutionAddress : address)
    (name_ website_ email_ : string) (st : State) : result State :=
  onlyAdmin sender st ;;
  require (nonempty (name (institutionAt st institutionAddress)))
          "Institution not registered" ;;
  Ok (set_institution st institutionAddress
        (with_info (institutionAt st institutionAddress) name_ website_ email_)).

Definition updateInstitutionDocuments (sender : address)
    (institutionAddress : address) (documentHash_ : string) (st : State)
    : result State :=
  onlyAdmin sender st ;;
  require (nonempty (name (institutionAt st institutionAddress)))
          "Institution not registered" ;;
  Ok (set_institution st institutionAddress
        (with_documentHash (institutionAt st institutionAddress) documentHash_)).

Definition getInstitution (st : State) (a : address) : Institution :=
  institutionAt st a.

Definition getAllIssuers (st : State) : list Z := issuerList st.

Definition getVerifiedInstitutionsCount (st : State) : Z :=
  Z.of_nat (length (issuerList st)).

(** *** Transactions sent to the registry *)

Inductive Call : Type :=
| RegisterInstitution (a : address) (name_ website_ email_ documentHash_ : string)
| VerifyInstitution (a : address)
| RevokeInstitution (a : address)
| UpdateInstitutionInfo (a : address) (name_ website_ email_ : string)
| UpdateInstitutionDocuments (a : address) (documentHash_ : string)
| AddAdmin (a : address)
| RemoveAdmin (a : address)
| IncrementCredentialCount (issuer : address)
| TransferOwnership (newOwner : address)
| RenounceOwnership.

Record Tx : Type := mkTx {
  sender : address;
  timestamp : Z;
  call : Call
}.

Definition exec (tx : Tx) (st : State) : result State :=
  match call tx with
  | RegisterInstitution a n w e d =>
      registerInstitution (sender tx) (timestamp tx) a n w e d st
  | VerifyInstitution a => verifyInstitution (sender tx) a st
  | RevokeInstitution a => revokeInstitution (sender tx) a st
  | UpdateInstitutionInfo a n w e => updateInstitutionInfo (sender tx) a n w e st
  | UpdateInstitutionDocuments a d => updateInstitutionDocuments (sender tx) a d st
  | AddAdmin a => addAdmin (sender tx) a st
  | RemoveAdmin a => removeAdmin (sender tx) a st
  | IncrementCredentialCount i => incrementCredentialCount (sender tx) i st
  | TransferOwnership o => transferOwnership (sender tx) o st
  | RenounceOwnership => renounceOwnership (sender tx) st
  end.

Definition step (st : State) (tx : Tx) : State := commit (exec tx st) st.

Definition run (txs : list Tx) (st : State) : State := fold_left step txs st.

(** Every transaction of a trace paired with whether it returned. *)
Fixpoint outcomes (txs : list Tx) (st : State) : list (Tx * bool) :=
  match txs with
  | [] => []
  | tx :: rest => (tx, is_ok (exec tx st)) :: outcomes rest (step st tx)
  end.

(** States the deployed registry can be in. *)
Definition reachable (st : State) : Prop :=
  ∃ deployer txs, st = run txs (constructor deployer).

(** What one transaction does to the authorization of [a]. *)
Definition authAfter (tx : Tx) (a : address) (before : bool) : bool :=
  match call tx with
  | VerifyInstitution b => if decide (b = a) then true else before
  | RevokeInstitution b => if decide (b = a) then false else before
  | _ => before
  end.

(** No successful [revokeInstitution(a)] in a history. *)
Definition noRevoke (a : address) (h : list (Tx * bool)) : Prop :=
  ∀ tx, (tx, true) ∈ h → call tx ≠ RevokeInstitution a.

(** A successful [verifyInstitution(a)] with no successful
    [revokeInstitution(a)] after it. *)
Definition verifiedSince (a : address) (h : list (Tx * bool)) : Prop :=
  ∃ h1 tx h2, h = (h1 ++ (tx, true) :: h2)%list
              ∧ call tx = VerifyInstitution a ∧ noRevoke a h2.

End Registry.

(** ** ERC721 with URI storage

    CredentialNFT inherits OpenZeppelin's ERC721 and ERC721URIStorage
    (release 4.x: the contract uses [Counters] and [_exists]). The part of
    that base contract the ledger relies on is written out here: the
    owner, balance and approval mappings, [_exists], [_mint], the transfer
    functions and [_setTokenURI]. There is no public burn. *)

Module ERC721.

Record State : Type := mkState {
  owners : gmap Z Z;
  balances : gmap Z Z;
  tokenApprovals : gmap Z Z;
  operatorApprovals : gmap (Z * Z) bool;
  tokenURIs : gmap Z string
}.

Definition empty : State := mkState ∅ ∅ ∅ ∅ ∅.

Definition _ownerOf (st : State) (tokenId : Z) : address :=
  default 0 (owners st !! tokenId).

Definition _exists (st : State) (tokenId : Z) : bool :=
  negb (_ownerOf st tokenId =? 0).

Definition balanceAt (st : State) (a : address) : Z :=
  default 0 (balances st !! a).

Definition ownerOf (st : State) (tokenId : Z) : result address :=
  require (negb (_ownerOf st tokenId =? 0)) "ERC721: invalid token ID" ;;
  Ok (_ownerOf st tokenId).

Definition isApprovedForAll (st : State) (owner_ operator : address) : bool :=
  default false (operatorApprovals st !! (owner_, operator)).

Definition getApproved (st : State) (tokenId : Z) : result address :=
  require (_exists st tokenId) "ERC721: invalid token ID" ;;
  Ok (default 0 (tokenApprovals st !! tokenId)).

Definition _isApprovedOrOwner (st : State) (spender : address) (tokenId : Z)
    : result bool :=
  owner_ ← ownerOf st tokenId ;
  approved ← getApproved st tokenId ;
  Ok ((spender =? owner_) || isApprovedForAll st owner_ spender
      || (approved =? spender)).

Definition _mint (to : address) (tokenId : Z) (st : State) : result State :=
  require (negb (to =? 0)) "ERC721: mint to the zero address" ;;
  require (negb (_exists st tokenId)) "ERC721: token already minted" ;;
  Ok (mkState (<[tokenId := to]> (owners st))
              (<[to := unchecked_inc (balanceAt st to)]> (balances st))
              (tokenApprovals st) (operatorApprovals st) (tokenURIs st)).

Definition _setTokenURI (tokenId : Z) (uri : string) (st : State) : result State :=
  require (_exists st tokenId) "ERC721URIStorage: URI set of nonexistent token" ;;
  Ok (mkState (owners st) (balances st) (tokenApprovals st)
              (operatorApprovals st) (<[tokenId := uri]> (tokenURIs st))).

Definition approve (sender to : address) (tokenId : Z) (st : State) : result State :=
  owner_ ← ownerOf st tokenId ;
  require (negb (to =? owner_)) "ERC721: approval to current owner" ;;
  require ((sender =? owner_) || isApprovedForAll st owner_ sender)
          "ERC721: approve caller is not token owner or approved for all" ;;
  Ok (mkState (owners st) (balances st) (<[tokenId := to]> (tokenApprovals st))
              (operatorApprovals st) (tokenURIs st)).

Definition setApprovalForAll (sender operator : address) (approved : bool)
    (st : State) : result State :=
  require (negb (sender =? operator)) "ERC721: approve to caller" ;;
  Ok (mkState (owners st) (balances st) (tokenApprovals st)
              (<[(sender, operator) := approved]> (operatorApprovals st))
              (tokenURIs st)).

Definition _transfer (from to : address) (tokenId : Z) (st : State) : result State :=
  owner_ ← ownerOf st tokenId ;
  require (owner_ =? from) "ERC721: transfer from incorrect owner" ;;
  require (negb (to =? 0)) "ERC721: transfer to the zero address" ;;
  let bal1 := <[from := unchecked_dec (balanceAt st from)]> (balances st) in
  let bal2 := <[to := unchecked_inc (default 0 (bal1 !! to))]> bal1 in
  Ok (mkState (<[tokenId := to]> (owners st)) bal2
              (delete tokenId (tokenApprovals st))
              (operatorApprovals st) (tokenURIs st)).

Definition transferFrom (sender from to : address) (tokenId : Z) (st : State)
    : result State :=
  ok ← _isApprovedOrOwner st sender tokenId ;
  require ok "ERC721: caller is not token owner or approved" ;;
  _transfer from to tokenId st.

(** [safeTransferFrom]: as [transferFrom], then the receiver hook must
    accept; [accepted] is the answer of [_checkOnERC721Received]. *)
Definition safeTransferFrom (sender from to : address) (tokenId : Z)
    (accepted : bool) (st : State) : result State :=
  ok ← _isApprovedOrOwner st sender tokenId ;
  require ok "ERC721: caller is not token owner or approved" ;;
  st' ← _transfer from to tokenId st ;
  require accepted "ERC721: transfer to non ERC721Receiver implementer" ;;
  Ok st'.

End ERC721.

(** ** CredentialNFT: the credential ledger *)

Module Ledger.

Record Credential : Type := mkCredential {
  issuer : address;
  recipient : address;
  credentialType : string;
  institutionName : string;
  issueDate : Z;
  expiryDate : Z;
  ipfsHash : string;
  revoked : bool
}.

Definition zeroCredential : Credential :=
  mkCredential 0 0 "" "" 0 0 "" false.

Record State : Type := mkState {
  owner : address;
  self : address;              (* address(this) *)
  registry : address;          (* the CredentialRegistry reference *)
  tokenIdCounter : Z;
  credentials : gmap Z Credential;
  userCredentials : gmap Z (list Z);
  erc721 : ERC721.State
}.

Definition credentialAt (st : State) (tokenId : Z) : Credential :=
  default zeroCredential (credentials st !! tokenId).

Definition userCredentialsAt (st : State) (user : address) : list Z :=
  default [] (userCredentials st !! user).

Definition _exists (st : State) (tokenId : Z) : bool :=
  ERC721._exists (erc721 st) tokenId.

Definition set_erc721 (st : State) (e : ERC721.State) : State :=
  mkState (owner st) (self st) (registry st) (tokenIdCounter st)
          (credentials st) (userCredentials st) e.

Definition set_counter (st : State) (n : Z) : State :=
  mkState (owner st) (self st) (registry st) n
          (credentials st) (userCredentials st) (erc721 st).

Definition set_credential (st : State) (tokenId : Z) (c : Credential) : State :=
  mkState (owner st) (self st) (registry st) (tokenIdCounter st)
          (<[tokenId := c]> (credentials st)) (userCredentials st) (erc721 st).

Definition push_userCredential (st : State) (user : address) (tokenId : Z) : State :=
  mkState (owner st) (self st) (registry st) (tokenIdCounter st)
          (credentials st)
          (<[user := (userCredentialsAt st user ++ [tokenId])%list]> (userCredentials st))
          (erc721 st).

Definition set_registry (st : State) (r : address) : State :=
  mkState (owner st) (self st) r (tokenIdCounter st)
          (credentials st) (userCredentials st) (erc721 st).

Definition set_owner (st : State) (o : address) : State :=
  mkState o (self st) (registry st) (tokenIdCounter st)
          (credentials st) (userCredentials st) (erc721 st).

Definition with_revoked (c : Credential) (b : bool) : Credential :=
  mkCredential (issuer c) (recipient c) (credentialType c) (institutionName c)
               (issueDate c) (expiryDate c) (ipfsHash c) b.

(** [constructor(_registryAddress)] deployed at [this_] by [deployer]. *)
Definition constructor (deployer this_ registryAddress : address) : State :=
  mkState deployer this_ registryAddress 0 ∅ ∅ ERC721.empty.

(** [modifier onlyAuthorizedIssuer]: asks the registry about [msg.sender]. *)
Definition onlyAuthorizedIssuer (sender : address) (reg : Registry.State)
    : result unit :=
  require (Registry.isAuthorizedIssuer reg sender) "Not authorized issuer".

(** [issueCredential]. [reg] is the state of the registry contract the
    ledger points to; the call changes it through
    [incrementCredentialCount], whose caller is the ledger itself. *)
Definition issueCredential (sender : address) (now_ : Z)
    (recipient_ : address) (credentialType_ institutionName_ : string)
    (expiryDate_ : Z) (ipfsHash_ tokenMetadataURI : string)
    (reg : Registry.State) (st : State)
    : result (Registry.State * State * Z) :=
  onlyAuthorizedIssuer sender reg ;;
  let tokenId := tokenIdCounter st in
  let st1 := set_counter st (unchecked_inc (tokenIdCounter st)) in
  let st2 := set_credential st1 tokenId
               (mkCredential sender recipient_ credentialType_ institutionName_
                             now_ expiryDate_ ipfsHash_ false) in
  let st3 := push_userCredential st2 recipient_ tokenId in
  e1 ← ERC721._mint recipient_ tokenId (erc721 st3) ;
  e2 ← ERC721._setTokenURI tokenId tokenMetadataURI e1 ;
  reg' ← Registry.incrementCredentialCount (self st) sender reg ;
  Ok (reg', set_erc721 st3 e2, tokenId).

(** The loop of [batchIssueCredentials] over the indices [idxs]; an
    index out of an array's range panics (code 0x32). *)
Fixpoint issueLoop (idxs : list nat) (sender : address) (now_ : Z)
    (recipients : list Z) (credentialTypes : list string)
    (institutionName_ : string) (expiryDate_ : Z)
    (ipfsHashes tokenURIs : list string)
    (w : Registry.State * State) : result (Registry.State * State) :=
  match idxs with
  | [] => Ok w
  | i :: rest =>
      match recipients !! i, credentialTypes !! i, ipfsHashes !! i, tokenURIs !! i with
      | Some r, Some t, Some h, Some u =>
          x ← issueCredential sender now_ r t institutionName_ expiryDate_ h u
                              (fst w) (snd w) ;
          issueLoop rest sender now_ recipients credentialTypes institutionName_
                    expiryDate_ ipfsHashes tokenURIs (fst (fst x), snd (fst x))
      | _, _, _, _ => Panic 50
      end
  end.

Definition batchIssueCredentials (sender : address) (now_ : Z)
    (recipients : list Z) (credentialTypes : list string)
    (institutionName_ : string) (expiryDate_ : Z)
    (ipfsHashes tokenURIs : list string)
    (reg : Registry.State) (st : State) : result (Registry.State * State) :=
  onlyAuthorizedIssuer sender reg ;;
  require (length recipients =? length credentialTypes)%nat "Array length mismatch" ;;
  require (length recipients =? length ipfsHashes)%nat "Array length mismatch" ;;
  require (length recipients =? length tokenURIs)%nat "Array length mismatch" ;;
  issueLoop (seq 0 (length recipients)) sender now_ recipients credentialTypes
            institutionName_ expiryDate_ ipfsHashes tokenURIs (reg, st).

Definition revokeCredential (sender : address) (tokenId : Z) (st : State)
    : result State :=
  require (_exists st tokenId) "Credential does not exist" ;;
  require (issuer (credentialAt st tokenId) =? sender) "Only issuer can revoke" ;;
  require (negb (revoked (credentialAt st tokenId))) "Already revoked" ;;
  Ok (set_credential st tokenId (with_revoked (credentialAt st tokenId) true)).

(** The tuple [verifyCredential] returns. *)
Record Verdict : Type := mkVerdict {
  v_isValid : bool;
  v_issuer : address;
  v_recipient : address;
  v_credentialType : string;
  v_institutionName : string;
  v_issueDate : Z;
  v_expired : bool;
  v_revoked : bool
}.

Definition hasExpired (now_ : Z) (cred : Credential) : bool :=
  negb (expiryDate cred =? 0) && (now_ >? expiryDate cred).

Definition verifyCredential (now_ : Z) (tokenId : Z) (st : State) : result Verdict :=
  require (_exists st tokenId) "Credential does not exist" ;;
  let cred := credentialAt st tokenId in
  Ok (mkVerdict (negb (revoked cred) && negb (hasExpired now_ cred))
                (issuer cred) (recipient cred) (credentialType cred)
                (institutionName cred) (issueDate cred)
                (hasExpired now_ cred) (revoked cred)).

Definition getUserCredentials (st : State) (user : address) : list Z :=
  userCredentialsAt st user.

Definition getCredential (tokenId : Z) (st : State) : result Credential :=
  require (_exists st tokenId) "Credential does not exist" ;;
  Ok (credentialAt st tokenId).

Definition getTotalCredentials (st : State) : Z := tokenIdCounter st.

Definition onlyOwner (sender : address) (st : State) : result unit :=
  require (owner st =? sender) "Ownable: caller is not the owner".

Definition updateRegistry (sender registryAddress : address) (st : State)
    : result State :=
  onlyOwner sender st ;;
  Ok (set_registry st registryAddress).

Definition transferOwnership (sender newOwner : address) (st : State) : result State :=
  onlyOwner sender st ;;
  require (negb (newOwner =? 0)) "Ownable: new owner is the zero address" ;;
  Ok (set_owner st newOwner).

Definition renounceOwnership (sender : address) (st : State) : result State :=
  onlyOwner sender st ;;
  Ok (set_owner st 0).

(** *** Transactions sent to the ledger *)

Inductive Call : Type :=
| IssueCredential (recipient_ : address) (credentialType_ institutionName_ : string)
                  (expiryDate_ : Z) (ipfsHash_ tokenMetadataURI : string)
| BatchIssueCredentials (recipients : list Z) (credentialTypes : list string)
                        (institutionName_ : string) (expiryDate_ : Z)
                        (ipfsHashes tokenURIs : list string)
| RevokeCredential (tokenId : Z)
| Approve (to : address) (tokenId : Z)
| SetApprovalForAll (operator : address) (approved : bool)
| TransferFrom (from to : address) (tokenId : Z)
| SafeTransferFrom (from to : address) (tokenId : Z) (accepted : bool)
| UpdateRegistry (registryAddress : address)
| TransferOwnership (newOwner : address)
| RenounceOwnership.

(** A transaction, with the state of the registry contract the ledger
    consults while it runs. *)
Record Tx : Type := mkTx {
  sender : address;
  timestamp : Z;
  registryState : Registry.State;
  call : Call
}.

Definition lift721 (st : State) (r : result ERC721.State) : result State :=
  e ← r ; Ok (set_erc721 st e).

Definition exec (tx : Tx) (st : State) : result State :=
  match call tx with
  | IssueCredential r t n e h u =>
      x ← issueCredential (sender tx) (timestamp tx) r t n e h u
                          (registryState tx) st ;
      Ok (snd (fst x))
  | BatchIssueCredentials rs ts n e hs us =>
      x ← batchIssueCredentials (sender tx) (timestamp tx) rs ts n e hs us
                                (registryState tx) st ;
      Ok (snd x)
  | RevokeCredential t => revokeCredential (sender tx) t st
  | Approve to t => lift721 st (ERC721.approve (sender tx) to t (erc721 st))
  | SetApprovalForAll o b =>
      lift721 st (ERC721.setApprovalForAll (sender tx) o b (erc721 st))
  | TransferFrom f to t =>
      lift721 st (ERC721.transferFrom (sender tx) f to t (erc721 st))
  | SafeTransferFrom f to t acc =>
      lift721 st (ERC721.safeTransferFrom (sender tx) f to t acc (erc721 st))
  | UpdateRegistry r => updateRegistry (sender tx) r st
  | TransferOwnership o => transferOwnership (sender tx) o st
  | RenounceOwnership => renounceOwnership (sender tx) st
  end.

Definition step (st : State) (tx : Tx) : State := commit (exec tx st) st.

Definition run (txs : list Tx) (st : State) : State := fold_left step txs st.

(** Token [t] still exists in [st'], with the issuer it had in [st], and
    still revoked if it was. *)
Definition kept (t : Z) (st st' : State) : Prop :=
  _exists st' t = true
  ∧ issuer (credentialAt st' t) = issuer (credentialAt st t)
  ∧ (revoked (credentialAt st t) = true → revoked (credentialAt st' t) = true).

(** The calls that mint. *)
Definition isIssuance (c : Call) : bool :=
  match c with
  | IssueCredential _ _ _ _ _ _ => true
  | BatchIssueCredentials _ _ _ _ _ _ => true
  | _ => false
  end.

(** States the deployed ledger can be in. *)
Definition reachable (st : State) : Prop :=
  ∃ deployer this_ registryAddress txs,
    st = run txs (constructor deployer this_ registryAddress).

(** [st'] has the token ids and the counter of [st]. *)
Definition sameTokens (st st' : State) : Prop :=
  tokenIdCounter st' = tokenIdCounter st ∧ ∀ t, _exists st' t = _exists st t.

(** Token ids are handed out in sequence: the existing ids are those
    below the counter, or, once the counter has wrapped around to 0, all
    of them. *)
Definition sequentialIds (st : State) : Prop :=
  0 ≤ tokenIdCounter st < 2 ^ 256
  ∧ ((∀ t, _exists st t = true ↔ 0 ≤ t < tokenIdCounter st)
     ∨ (tokenIdCounter st = 0 ∧ ∀ t, _exists st t = true ↔ 0 ≤ t < 2 ^ 256)).

End Ledger.

(** ** VerificationContract: the verification aggregator

    The contract holds references to the ledger and the registry; their
    states at the time of the call are the arguments [reg] and [ledger]. *)

Module Verification.

Record VerificationResult : Type := mkResult {
  isValid : bool;
  exists_ : bool;
  expired : bool;
  revoked : bool;
  issuer : address;
  recipient : address;
  credentialType : string;
  institutionName : string;
  issueDate : Z;
  message : string
}.

Record State : Type := mkState {
  verificationCount : gmap Z Z;   (* tokenId => count *)
  verifierCount : gmap Z Z;       (* verifier => count *)
  totalVerifications : Z
}.

Definition constructor : State := mkState ∅ ∅ 0.

Definition getCredentialVerificationCount (st : State) (tokenId : Z) : Z :=
  default 0 (verificationCount st !! tokenId).

Definition getVerifierCount (st : State) (verifier : address) : Z :=
  default 0 (verifierCount st !! verifier).

Definition getTotalVerifications (st : State) : Z := totalVerifications st.

(** The three [++] at the head of [verifyCredentialDetailed]. *)
Definition countVerification (sender : address) (tokenId : Z) (st : State)
    : result State :=
  c ← checked_inc (getCredentialVerificationCount st tokenId) ;
  v ← checked_inc (getVerifierCount st sender) ;
  t ← checked_inc (totalVerifications st) ;
  Ok (mkState (<[tokenId := c]> (verificationCount st))
              (<[sender := v]> (verifierCount st)) t).

(** The result of the [catch] branch. *)
Definition notFound : VerificationResult :=
  mkResult false false false false 0 0 "" "" 0 "Credential does not exist".

(** The body of the [try] branch: message and final validity. *)
Definition judge (reg : Registry.State) (v : Ledger.Verdict) : string * bool :=
  if Ledger.v_revoked v then ("Credential has been revoked by issuer", false)
  else if Ledger.v_expired v then ("Credential has expired", false)
  else if negb (Registry.isAuthorizedIssuer reg (Ledger.v_issuer v))
       then ("Issuer is no longer authorized", false)
  else if Ledger.v_isValid v
       then ("Credential is valid and verified", Ledger.v_isValid v)
  else ("Credential is invalid", Ledger.v_isValid v).

Definition verifyCredentialDetailed (sender : address) (now_ : Z) (tokenId : Z)
    (reg : Registry.State) (ledger : Ledger.State) (st : State)
    : result (State * VerificationResult) :=
  st' ← countVerification sender tokenId st ;
  match Ledger.verifyCredential now_ tokenId ledger with
  | Ok v =>
      let mv := judge reg v in
      Ok (st', mkResult (snd mv) true (Ledger.v_expired v) (Ledger.v_revoked v)
                        (Ledger.v_issuer v) (Ledger.v_recipient v)
                        (Ledger.v_credentialType v) (Ledger.v_institutionName v)
                        (Ledger.v_issueDate v) (fst mv))
  | _ => Ok (st', notFound)
  end.

Fixpoint batchVerifyCredentials (sender : address) (now_ : Z) (tokenIds : list Z)
    (reg : Registry.State) (ledger : Ledger.State) (st : State)
    : result (State * list VerificationResult) :=
  match tokenIds with
  | [] => Ok (st, [])
  | t :: rest =>
      x ← verifyCredentialDetailed sender now_ t reg ledger st ;
      y ← batchVerifyCredentials sender now_ rest reg ledger (fst x) ;
      Ok (fst y, snd x :: snd y)
  end.

Definition quickVerify (now_ : Z) (tokenId : Z)
    (reg : Registry.State) (ledger : Ledger.State) : bool :=
  match Ledger.verifyCredential now_ tokenId ledger with
  | Ok v => Ledger.v_isValid v && Registry.isAuthorizedIssuer reg (Ledger.v_issuer v)
  | _ => false
  end.

Definition quickBatchVerify (now_ : Z) (tokenIds : list Z)
    (reg : Registry.State) (ledger : Ledger.State) : list bool :=
  map (λ t, quickVerify now_ t reg ledger) tokenIds.

Definition verifyOwnership (tokenId : Z) (claimedOwner : address)
    (ledger : Ledger.State) : bool :=
  match ERC721.ownerOf (Ledger.erc721 ledger) tokenId with
  | Ok actualOwner => actualOwner =? claimedOwner
  | _ => false
  end.

Definition verifyIssuer (now_ : Z) (tokenId : Z) (institutionAddress : address)
    (ledger : Ledger.State) : bool :=
  match Ledger.verifyCredential now_ tokenId ledger with
  | Ok v => Ledger.v_issuer v =? institutionAddress
  | _ => false
  end.

(** The tuple [getCredentialInfo] returns. *)
Record CredentialInfo : Type := mkInfo {
  i_exists : bool;
  i_issuer : address;
  i_recipient : address;
  i_credentialType : string;
  i_institutionName : string;
  i_issueDate : Z;
  i_expiryDate : Z;
  i_isValid : bool;
  i_expired : bool;
  i_revoked : bool;
  i_ipfsHash : string;
  i_verifications : Z
}.

(** [getCredentialInfo]: the expiry date and the IPFS hash are returned
    as [0] and [""] ("would need separate call"). *)
Definition getCredentialInfo (now_ : Z) (tokenId : Z)
    (ledger : Ledger.State) (st : State) : CredentialInfo :=
  match Ledger.verifyCredential now_ tokenId ledger with
  | Ok v =>
      mkInfo true (Ledger.v_issuer v) (Ledger.v_recipient v)
             (Ledger.v_credentialType v) (Ledger.v_institutionName v)
             (Ledger.v_issueDate v) 0 (Ledger.v_isValid v) (Ledger.v_expired v)
             (Ledger.v_revoked v) "" (default 0 (verificationCount st !! tokenId))
  | _ => mkInfo false 0 0 "" "" 0 0 false false false "" 0
  end.

End Verification.

(** ** BlockchainController: the off-chain onboarding workflow

    [registerUserOnBlockchain] talks to the chain and to the user store
    through awaited calls. Each awaited call either returns or throws;
    what the collaborators answer during one run is collected in [Env].
    The run yields the list of state-changing actions it performed and
    the HTTP response it sent. *)

Module Onboarding.

Inductive Outcome (A : Type) : Type :=
| Returned (a : A)
| Threw (message : string).
Arguments Returned {A} a.
Arguments Threw {A} message.

Record Receipt : Type := mkReceipt {
  blockNumber : Z;
  gasUsed : option string
}.

(** What one tick of the polling interval observes. *)
Inductive Poll : Type :=
| PollThrew                                      (* logged, polling goes on *)
| PollPending                                    (* no receipt yet *)
| PollReceipt (receipt : Receipt) (currentBlock : Z).

(** [waitForTransactionWithTimeout(txHash, confirmations, timeoutMs)].
    [polls] are the observations of the ticks that complete before the
    deadline timer fires, in order. The first receipt that is deep
    enough resolves the promise; when the ticks are used up the
    deadline timer resolves it with [null]. *)
Fixpoint waitForTransactionWithTimeout (confirmations : Z) (polls : list Poll)
    : option Receipt :=
  match polls with
  | [] => None
  | PollReceipt receipt currentBlock :: rest =>
      if currentBlock - blockNumber receipt >=? confirmations
      then Some receipt
      else waitForTransactionWithTimeout confirmations rest
  | _ :: rest => waitForTransactionWithTimeout confirmations rest
  end.

Record User : Type := mkUser {
  userId : string;
  userType : string;
  walletAddress : string;
  userName : string;
  userEmail : string
}.

Record GasEstimate : Type := mkGas {
  gasLimit : Z;
  gasPrice : Z
}.

Record Env : Type := mkEnv {
  isAuthorizedIssuerCall : Outcome bool;       (* first registry read *)
  getInstitutionCall : Outcome string;         (* the [name] of the record read *)
  registrationGas : Outcome GasEstimate;
  registrationTx : Outcome string;             (* hash of the submitted transaction *)
  registrationPolls : list Poll;
  verificationGas : Outcome GasEstimate;
  verificationTx : Outcome string;
  verificationPolls : list Poll;
  userUpdate : Outcome unit;                   (* User.findByIdAndUpdate *)
  isNowAuthorizedCall : Outcome bool           (* final registry read *)
}.

(** The [$set] document written to the user record. *)
Record BlockchainFields : Type := mkFields {
  f_isRegistered : bool;
  f_registrationTxHash : string;
  f_verificationTxHash : string;
  f_registrationBlockNumber : option Z;
  f_verificationBlockNumber : option Z;
  f_verificationStatus : string
}.

Inductive Action : Type :=
| SubmitRegisterInstitution (wallet name_ website_ email_ documentHash_ : string)
                            (gas : GasEstimate)
| SubmitVerifyInstitution (wallet : string) (gas : GasEstimate)
| UserUpdate (id : string) (fields : BlockchainFields).

Record TxInfo : Type := mkTxInfo {
  hash : string;
  txBlockNumber : option Z;
  txGasUsed : option string
}.

Inductive Body : Type :=
| ErrorBody (error : string) (details : option string)
| PendingBody (success : bool) (message status : string)
              (registration : option TxInfo)
              (verificationHash verificationStatus : string)
| CompletedBody (success : bool) (message : string) (isAuthorizedIssuer : bool)
                (registration : option TxInfo) (verification : TxInfo)
                (note status : string).

Record Response : Type := mkResponse {
  statusCode : Z;
  body : Body
}.

(** Computations that log actions and may throw. *)
Definition M (A : Type) : Type := (list Action * Outcome A)%type.

#[global] Instance M_ret : MRet M := λ A a, ([], Returned a).
#[global] Instance M_bind : MBind M := λ A B f m,
  match snd m with
  | Returned a => ((fst m ++ fst (f a))%list, snd (f a))
  | Threw e => (fst m, Threw e)
  end.

Definition await {A} (o : Outcome A) : M A := ([], o).

(** An awaited call that changes something: logged when it returns. *)
Definition perform {A} (act : A → Action) (o : Outcome A) : M A :=
  match o with
  | Returned a => ([act a], Returned a)
  | Threw e => ([], Threw e)
  end.

Definition throw {A} (e : string) : M A := ([], Threw e).

(** JavaScript's [s || d] on strings. *)
Definition orElse (s : option string) (d : string) : string :=
  match s with
  | Some x => if String.eqb x "" then d else x
  | None => d
  end.

Definition allowedUserType (t : string) : bool :=
  String.eqb t "institution" || String.eqb t "company" || String.eqb t "verifier".

Definition txInfo (h : string) (r : option Receipt) : TxInfo :=
  mkTxInfo h (blockNumber <$> r) (r ≫= gasUsed).

(** Step 1 of the workflow: register when no record is found. Returns the
    registration transaction hash and receipt, when there was one. *)
Definition registrationStep (user : User) (website_ : option string) (env : Env)
    : M (option (string * Receipt)) :=
  gas ← await (registrationGas env) ;
  h ← perform (λ _, SubmitRegisterInstitution (walletAddress user) (userName user)
                      (orElse website_ "") (userEmail user) "" gas)
              (registrationTx env) ;
  match waitForTransactionWithTimeout 2 (registrationPolls env) with
  | None => throw "Registration transaction timed out - please check transaction status manually"
  | Some receipt => mret (Some (h, receipt))
  end.

(** [isRegistered]: the record read has a name; a failed read counts as
    not registered. *)
Definition isRegisteredOnChain (env : Env) : bool :=
  match getInstitutionCall env with
  | Returned n => negb (String.eqb n "")
  | Threw _ => false
  end.

(** The [if (!isRegistered) {..} else {..}] block. *)
Definition registrationPhase (user : User) (website_ : option string) (env : Env)
    : M (option (string * Receipt)) :=
  if isRegisteredOnChain env then mret None
  else registrationStep user website_ env.

Definition workflow (user : User) (website_ : option string) (env : Env)
    : M Response :=
  if negb (allowedUserType (userType user)) then
    mret (mkResponse 400
            (ErrorBody "Only institutions, employers, and verifiers can register on blockchain" None))
  else
  isAuthorized ← await (isAuthorizedIssuerCall env) ;
  if (isAuthorized : bool) then
    mret (mkResponse 400
            (ErrorBody "User is already registered and verified on blockchain" None))
  else
  let isRegistered := isRegisteredOnChain env in
  reg ← registrationPhase user website_ env ;
  vgas ← await (verificationGas env) ;
  vh ← perform (λ _, SubmitVerifyInstitution (walletAddress user) vgas)
               (verificationTx env) ;
  let regHash := orElse (fst <$> reg) "Already registered" in
  let regBlock := (λ x : string * Receipt, blockNumber (snd x)) <$> reg in
  let regInfo := (λ x : string * Receipt, txInfo (fst x) (Some (snd x))) <$> reg in
  match waitForTransactionWithTimeout 2 (verificationPolls env) with
  | None =>
      perform (λ _, UserUpdate (userId user)
                      (mkFields true regHash vh regBlock None "pending"))
              (userUpdate env) ;;
      mret (mkResponse 200
              (PendingBody true
                 "Registration completed and verification transaction submitted"
                 "verification_pending" regInfo vh "pending"))
  | Some vreceipt =>
      perform (λ _, UserUpdate (userId user)
                      (mkFields true regHash vh regBlock
                                (Some (blockNumber vreceipt)) "confirmed"))
              (userUpdate env) ;;
      isNowAuthorized ← await (isNowAuthorizedCall env) ;
      mret (mkResponse 200
              (CompletedBody true
                 "Successfully registered and verified on blockchain"
                 isNowAuthorized regInfo (txInfo vh (Some vreceipt))
                 (if isRegistered
                  then "Institution was already registered, only verification was needed"
                  else "Institution was registered and verified")
                 (if (isNowAuthorized : bool) then "fully_verified"
                  else "verification_pending")))
  end.

(** [registerUserOnBlockchain]: the workflow inside its [try], the
    [catch] turning a thrown error into a 500 response. *)
Definition registerUserOnBlockchain (user : User) (website_ : option string)
    (env : Env) : list Action * Response :=
  match workflow user website_ env with
  | (log, Returned r) => (log, r)
  | (log, Threw e) =>
      (log, mkResponse 500 (ErrorBody "Failed to register on blockchain" (Some e)))
  end.



(** A response that reports success (fully or partially). *)
Definition reportsSuccess (r : Response) : bool :=
  match body r with
  | ErrorBody _ _ => false
  | PendingBody s _ _ _ _ _ => s
  | CompletedBody s _ _ _ _ _ _ => s
  end.

(** A pending response that carries the hash [h]. *)
Definition pendingWith (h : string) (r : Response) : bool :=
  match body r with
  | PendingBody s _ st reg vh vst =>
      s && (String.eqb vh h
            || match reg with Some i => String.eqb (hash i) h | None => false end)
  | _ => false
  end.

(** *** checkVerificationStatus *)













(** *** checkBlockchainRegistration *)

(** [Number(n)] for an integer [n] (a bigint read from the contract): the
    nearest double, ties to even, given as the integer it denotes. Up to
    53 significant bits the value is exact; above, the low bits are
    rounded away. *)
Definition toNumber (n : Z) : Z :=
  let m := Z.abs n in
  let top := Z.log2 m in
  if top <? 53 then n
  else
    let sh := top - 52 in
    let q := Z.shiftr m sh in
    let r := m - Z.shiftl q sh in
    let half := Z.shiftl 1 (sh - 1) in
    let q' := if half <? r then q + 1
              else if r <? half then q
              else if Z.even q then q else q + 1 in
    Z.sgn n * Z.shiftl q' sh.

(** [new Date(Number(seconds) * 1000)]: the time value in milliseconds, or
    [None] for an invalid date (beyond 8.64e15 ms), which JSON renders as
    [null]. *)
Definition dateOfSeconds (seconds : Z) : option Z :=
  let ms := toNumber (toNumber seconds * 1000) in
  if Z.abs ms <=? 8640000000000000 then Some ms else None.

(** The fields of the registry's [Institution] the handler reads. *)
Record InstitutionData : Type := mkInstitutionData {
  d_name : string;
  d_website : string;
  d_email : string;
  d_verified : bool;
  d_registrationDate : Z;
  d_credentialsIssued : Z
}.

(** The [institutionData] object of the response. *)
Record ReportedInstitution : Type := mkReported {
  rep_name : string;
  rep_website : string;
  rep_email : string;
  rep_isVerified : bool;
  rep_registrationDate : option Z;
  rep_credentialsIssued : Z
}.

Definition reportInstitution (d : InstitutionData) : ReportedInstitution :=
  mkReported (d_name d) (d_website d) (d_email d) (d_verified d)
             (dateOfSeconds (d_registrationDate d))
             (toNumber (d_credentialsIssued d)).

Record RegistrationEnv : Type := mkRegistrationEnv {
  isAuthorizedCall : Outcome bool;
  institutionCall : Outcome InstitutionData;
  (** [User.findByWalletAddress]: the user's id and whether its record
      says [blockchain.isRegistered] *)
  findByWalletAddressCall : Outcome (option (string * bool));
  registrationUpdate : Outcome unit
}.

(** The write that marks the local record as registered: its status is
    ['confirmed'], its [registeredAt] the on-chain registration date. The
    transaction hash and block numbers of the [$set] are read from
    properties the registry record does not have and are left out. *)
Inductive RegistrationAction : Type :=
| MarkRegistered (id : string) (verificationStatus : string)
                 (registeredAt : option Z).

Inductive RegistrationBody : Type :=
| RegistrationError (error : string)
| RegistrationReport (success isRegistered isAuthorized : bool)
                     (institutionData : option ReportedInstitution)
                     (status : string).

(** The inner [try] block: the writes made and [isRegistered]; the
    [catch] resets [isRegistered] to false. *)
Definition lookupRegistration (env : RegistrationEnv)
    : list RegistrationAction * bool :=
  match institutionCall env with
  | Threw _ => ([], false)
  | Returned data =>
      let isRegistered := negb (String.eqb (d_name data) "") in
      match findByWalletAddressCall env with
      | Threw _ => ([], false)
      | Returned None => ([], isRegistered)
      | Returned (Some (id, localRegistered)) =>
          if negb localRegistered && isRegistered then
            match registrationUpdate env with
            | Threw _ => ([], false)
            | Returned _ =>
                ([MarkRegistered id "confirmed"
                    (dateOfSeconds (d_registrationDate data))],
                 isRegistered)
            end
          else ([], isRegistered)
      end
  end.

Definition registrationStatus (isAuthorized isRegistered : bool) : string :=
  if isAuthorized then "Fully registered and verified"
  else if isRegistered then "Registered but not verified"
  else "Not registered".

Definition checkBlockchainRegistration (env : RegistrationEnv)
    : list RegistrationAction * (Z * RegistrationBody) :=
  match isAuthorizedCall env with
  | Threw _ =>
      ([], (500, RegistrationError "Failed to check blockchain registration"))
  | Returned isAuthorized =>
      let r := lookupRegistration env in
      (fst r,
       (200, RegistrationReport true (snd r) isAuthorized
               (match institutionCall env with
                | Returned data =>
                    if snd r then Some (reportInstitution data) else None
                | Threw _ => None
                end)
               (registrationStatus isAuthorized (snd r))))
  end.

End Onboarding.

(** ** Concrete scenarios *)

Module Scenario.

(** Deployer 1 registers institution 5 at time 100 and verifies it. *)
Definition registryTxs : list Registry.Tx :=
  [ Registry.mkTx 1 100
      (Registry.RegisterInstitution 5 "Uni" "uni.example" "a@uni.example" "Qm1");
    Registry.mkTx 1 101 (Registry.VerifyInstitution 5) ].

Definition registry : Registry.State :=
  Registry.run registryTxs (Registry.constructor 1).

(** The same registry after one credential was counted for 5. *)
Definition registryCounted : Registry.State :=
  Registry.run
    (registryTxs ++ [Registry.mkTx 9 102 (Registry.IncrementCredentialCount 5)])
    (Registry.constructor 1).

(** The ledger (deployed by 1 at address 50, pointing at the registry at
    60) after issuer 5 issued token 0 to recipient 7 at time 1000, with
    expiry 2000, and 7 passed the token on to 8. *)
Definition issueTx : Ledger.Tx :=
  Ledger.mkTx 5 1000 registry
    (Ledger.IssueCredential 7 "Degree" "Uni" 2000 "QmCred" "ipfs://QmCred").

Definition transferTx : Ledger.Tx :=
  Ledger.mkTx 7 1001 registryCounted (Ledger.TransferFrom 7 8 0).

Definition ledgerIssued : Ledger.State :=
  Ledger.run [issueTx] (Ledger.constructor 1 50 60).

Definition ledger : Ledger.State :=
  Ledger.run [issueTx; transferTx] (Ledger.constructor 1 50 60).

(** The same ledger after issuer 5 revoked token 0. *)
Definition ledgerRevoked : Ledger.State :=
  Ledger.step ledger (Ledger.mkTx 5 1002 registryCounted (Ledger.RevokeCredential 0)).

(** An empty ledger, on which no token was ever minted. *)
Definition ledgerEmpty : Ledger.State := Ledger.constructor 1 50 60.

Definition institutionUser : Onboarding.User :=
  Onboarding.mkUser "u1" "institution" "0xA11CE" "Uni" "a@uni.example".

Definition gas : Onboarding.GasEstimate := Onboarding.mkGas 200000 30.

(** One confirmation only, on every tick before the deadline. *)
Definition shallowPolls : list Onboarding.Poll :=
  [ Onboarding.PollPending;
    Onboarding.PollReceipt (Onboarding.mkReceipt 10 (Some "21000")) 11;
    Onboarding.PollThrew;
    Onboarding.PollReceipt (Onboarding.mkReceipt 10 (Some "21000")) 11 ].

Definition deepPolls : list Onboarding.Poll :=
  [ Onboarding.PollPending;
    Onboarding.PollReceipt (Onboarding.mkReceipt 10 (Some "21000")) 12 ].

(** The caller is not registered; the registration transaction is
    submitted and does not reach two confirmations in time. *)
Definition envRegistrationTimeout : Onboarding.Env :=
  Onboarding.mkEnv (Onboarding.Returned false) (Onboarding.Returned "")
    (Onboarding.Returned gas) (Onboarding.Returned "0xREG") shallowPolls
    (Onboarding.Returned gas) (Onboarding.Returned "0xVER") deepPolls
    (Onboarding.Returned tt) (Onboarding.Returned true).

(** Registration confirms, the verification transaction does not. *)
Definition envVerificationTimeout : Onboarding.Env :=
  Onboarding.mkEnv (Onboarding.Returned false) (Onboarding.Returned "")
    (Onboarding.Returned gas) (Onboarding.Returned "0xREG") deepPolls
    (Onboarding.Returned gas) (Onboarding.Returned "0xVER") shallowPolls
    (Onboarding.Returned tt) (Onboarding.Returned false).


(** Both transactions reach two confirmations. *)
Definition envConfirmed : Onboarding.Env :=
  Onboarding.mkEnv (Onboarding.Returned false) (Onboarding.Returned "")
    (Onboarding.Returned gas) (Onboarding.Returned "0xREG") deepPolls
    (Onboarding.Returned gas) (Onboarding.Returned "0xVER") deepPolls
    (Onboarding.Returned tt) (Onboarding.Returned true).



(** The registry has a record for the wallet, but the user store fails. *)
Definition registrationEnvStoreDown : Onboarding.RegistrationEnv :=
  Onboarding.mkRegistrationEnv (Onboarding.Returned false)
    (Onboarding.Returned
       (Onboarding.mkInstitutionData "Uni" "uni.example" "a@uni.example" false 100 0))
    (Onboarding.Threw "store unreachable")
    (Onboarding.Returned tt).

(** The registry has an unverified record and the local record does not
    know of it yet. *)
Definition registrationEnvUnsynced : Onboarding.RegistrationEnv :=
  Onboarding.mkRegistrationEnv (Onboarding.Returned false)
    (Onboarding.Returned
       (Onboarding.mkInstitutionData "Uni" "uni.example" "a@uni.example" false 100 0))
    (Onboarding.Returned (Some ("u1", false)))
    (Onboarding.Returned tt).

(** Registration confirms, the verification transaction does not, and the
    user store refuses the write. *)
Definition envVerificationTimeoutStoreDown : Onboarding.Env :=
  Onboarding.mkEnv (Onboarding.Returned false) (Onboarding.Returned "")
    (Onboarding.Returned gas) (Onboarding.Returned "0xREG") deepPolls
    (Onboarding.Returned gas) (Onboarding.Returned "0xVER") shallowPolls
    (Onboarding.Threw "store unreachable") (Onboarding.Returned false).

(** Deployer 1 registers and verifies institutions 5, 6 and 7, in that
    order. *)
Definition registryThree : Registry.State :=
  Registry.run
    (registryTxs ++
     [ Registry.mkTx 1 102 (Registry.RegisterInstitution 6 "College" "c" "c@c" "Qm2");
       Registry.mkTx 1 103 (Registry.VerifyInstitution 6);
       Registry.mkTx 1 104 (Registry.RegisterInstitution 7 "School" "s" "s@s" "Qm3");
       Registry.mkTx 1 105 (Registry.VerifyInstitution 7) ])
    (Registry.constructor 1).

(** The registry record carries a counter beyond 53 bits. *)
Definition registrationEnvLargeCounter : Onboarding.RegistrationEnv :=
  Onboarding.mkRegistrationEnv (Onboarding.Returned true)
    (Onboarding.Returned
       (Onboarding.mkInstitutionData "Uni" "uni.example" "a@uni.example" true 100
          (2 ^ 53 + 1)))
    (Onboarding.Returned None)
    (Onboarding.Returned tt).

End Scenario.

(** * Properties *)

(** ** Tactics for calls *)

(** Splits on the condition of the first [require] of the goal. *)
Ltac case_require :=
  match goal with
  | |- context [require ?c ?r] =>
      let E := fresh "Hreq" in destruct c eqn:E; cbn [require mbind result_bind]
  end.

(** The condition of the [require] a sequence of calls starts with. *)
Ltac head_require t :=
  match t with
  | mbind _ ?m => head_require m
  | require ?c _ => c
  end.

Ltac case_require_in H :=
  match type of H with
  | ?l = _ =>
      let c := head_require l in
      let E := fresh "Hreq" in
      destruct c eqn:E; cbn [require mbind result_bind] in H; try discriminate H
  | context [require ?c ?r] =>
      let E := fresh "Hreq" in
      destruct c eqn:E; cbn [require mbind result_bind] in H; try discriminate H
  end.

(** ** The registry *)

Section RegistryFacts.
Import Registry.

Lemma isAuthorizedIssuer_set_institution st a i b :
  isAuthorizedIssuer (set_institution st a i) b = isAuthorizedIssuer st b.
Proof. reflexivity. Qed.

Lemma isAuthorizedIssuer_set_authorized st a v b :
  isAuthorizedIssuer (set_authorized st a v) b
  = if decide (a = b) then v else isAuthorizedIssuer st b.
Proof.
  unfold isAuthorizedIssuer, set_authorized; cbn.
  rewrite lookup_insert. destruct (decide (a = b)); reflexivity.
Qed.

Lemma institutionAt_set_institution st a i b :
  institutionAt (set_institution st a i) b
  = if decide (a = b) then i else institutionAt st b.
Proof.
  unfold institutionAt, set_institution; cbn.
  rewrite lookup_insert. destruct (decide (a = b)); reflexivity.
Qed.

Lemma exec_isAuthorizedIssuer tx st st' a :
  exec tx st = Ok st' →
  isAuthorizedIssuer st' a = authAfter tx a (isAuthorizedIssuer st a).
Proof.
  unfold exec, authAfter. destruct (call tx); intros H.
  - unfold registerInstitution, onlyAdmin in H.
    repeat case_require_in H. by inversion H.
  - unfold verifyInstitution, onlyAdmin in H.
    repeat case_require_in H. inversion H; subst; clear H.
    unfold set_issuerList, isAuthorizedIssuer; cbn.
    rewrite lookup_insert. by destruct (decide (a0 = a)).
  - unfold revokeInstitution, onlyAdmin in H.
    repeat case_require_in H. inversion H; subst; clear H.
    unfold set_issuerList, isAuthorizedIssuer; cbn.
    rewrite lookup_insert. by destruct (decide (a0 = a)).
  - unfold updateInstitutionInfo, onlyAdmin in H.
    repeat case_require_in H. by inversion H.
  - unfold updateInstitutionDocuments, onlyAdmin in H.
    repeat case_require_in H. by inversion H.
  - unfold addAdmin, onlyOwner in H. repeat case_require_in H. by inversion H.
  - unfold removeAdmin, onlyOwner in H. repeat case_require_in H. by inversion H.
  - unfold incrementCredentialCount in H. case_require_in H.
    unfold checked_inc in H.
    destruct (_ <? _); cbn in H; [|discriminate]. by inversion H.
  - unfold transferOwnership, onlyOwner in H.
    repeat case_require_in H. by inversion H.
  - unfold renounceOwnership, onlyOwner in H.
    repeat case_require_in H. by inversion H.
Qed.

Lemma step_isAuthorizedIssuer tx st a :
  isAuthorizedIssuer (step st tx) a
  = if is_ok (exec tx st) then authAfter tx a (isAuthorizedIssuer st a)
    else isAuthorizedIssuer st a.
Proof.
  unfold step. destruct (exec tx st) eqn:E; cbn; try reflexivity.
  eapply exec_isAuthorizedIssuer; eauto.
Qed.

Lemma run_cons tx txs st : run (tx :: txs) st = run txs (step st tx).
Proof. reflexivity. Qed.

Lemma authorized_run_iff a txs : ∀ st,
  isAuthorizedIssuer (run txs st) a = true
  ↔ verifiedSince a (outcomes txs st)
    ∨ (isAuthorizedIssuer st a = true ∧ noRevoke a (outcomes txs st)).
Proof.
  induction txs as [|tx txs IH]; intros st.
  - cbn. split.
    + intros H. right. split; [done|]. intros tx Hin. by apply elem_of_nil in Hin.
    + intros [(h1 & tx & h2 & Heq & _)|[H _]]; [|done].
      by destruct h1.
  - rewrite run_cons, IH. cbn [outcomes].
    pose proof (step_isAuthorizedIssuer tx st a) as Hstep.
    split.
    + intros [(h1 & tx0 & h2 & Heq & Hc & Hno)|[Hauth Hno]].
      * left. exists ((tx, is_ok (exec tx st)) :: h1), tx0, h2.
        rewrite Heq. done.
      * rewrite Hstep in Hauth.
        destruct (is_ok (exec tx st)) eqn:Eok.
        -- unfold authAfter in Hauth.
           destruct (call tx) eqn:Ec;
             try (right; split; [done|]; intros tx' Hin;
                  apply elem_of_cons in Hin as [Hin|Hin];
                  [inversion Hin; subst; congruence | by apply Hno]).
           ++ destruct (decide (a0 = a)) as [->|Hne].
              ** left. exists [], tx, (outcomes txs (step st tx)). done.
              ** right; split; [done|]; intros tx' Hin.
                 apply elem_of_cons in Hin as [Hin|Hin];
                   [inversion Hin; subst; congruence | by apply Hno].
           ++ destruct (decide (a0 = a)) as [->|Hne]; [done|].
              right; split; [done|]; intros tx' Hin.
              apply elem_of_cons in Hin as [Hin|Hin];
                [inversion Hin; subst; congruence | by apply Hno].
        -- right; split; [done|]; intros tx' Hin.
           apply elem_of_cons in Hin as [Hin|Hin];
             [inversion Hin | by apply Hno].
    + intros [(h1 & tx0 & h2 & Heq & Hc & Hno)|[Hauth Hno]].
      * destruct h1 as [|p h1]; cbn in Heq.
        -- injection Heq as -> Hok <-. right. split; [|done].
           rewrite Hstep, Hok. unfold authAfter. rewrite Hc.
           by destruct (decide (a = a)).
        -- injection Heq as _ Hrest. left. by exists h1, tx0, h2.
      * right. split.
        -- rewrite Hstep. destruct (is_ok (exec tx st)) eqn:Eok; [|done].
           assert (call tx ≠ RevokeInstitution a) as Hnr
             by (apply Hno; left).
           unfold authAfter. destruct (call tx) eqn:Ec; try done.
           ++ by destruct (decide (a0 = a)).
           ++ destruct (decide (a0 = a)); [congruence|done].
        -- intros tx' Hin. apply Hno. by right.
Qed.

Lemma isAuthorizedIssuer_constructor deployer a :
  isAuthorizedIssuer (constructor deployer) a = false.
Proof. reflexivity. Qed.

End RegistryFacts.

(** C5. In every state reached from deployment by any sequence of
    registry transactions, [isAuthorizedIssuer(a)] is true exactly when
    some earlier [verifyInstitution(a)] returned and no
    [revokeInstitution(a)] returned after it. *)
Theorem authorized_iff_verified_and_not_revoked_since :
  ∀ (deployer : Z) (txs : list Registry.Tx) (a : Z),
    Registry.isAuthorizedIssuer (Registry.run txs (Registry.constructor deployer)) a = true
    ↔ ∃ h1 tx h2,
        Registry.outcomes txs (Registry.constructor deployer)
          = (h1 ++ (tx, true) :: h2)%list
        ∧ Registry.call tx = Registry.VerifyInstitution a
        ∧ ∀ tx', (tx', true) ∈ h2 →
                 Registry.call tx' ≠ Registry.RevokeInstitution a.
Proof.
  intros deployer txs a.
  rewrite authorized_run_iff, isAuthorizedIssuer_constructor.
  unfold Registry.verifiedSince, Registry.noRevoke. split.
  - intros [H|[H _]]; [exact H | discriminate].
  - intros H. left. exact H.
Qed.

Section RegistryRecords.
Import Registry.

(** The record of [address(0)] is never written: registration refuses
    the zero address and every other write requires a record. *)
Lemma exec_zero_record tx st st' :
  exec tx st = Ok st' →
  name (institutionAt st 0) = "" → name (institutionAt st' 0) = "".
Proof.
  unfold exec. intros H Hz. destruct (call tx).
  - unfold registerInstitution, onlyAdmin in H. repeat case_require_in H.
    inversion H; subst; clear H. rewrite institutionAt_set_institution.
    destruct (decide (a = 0)) as [->|]; [discriminate|done].
  - unfold verifyInstitution, onlyAdmin in H. repeat case_require_in H.
    inversion H; subst; clear H.
    unfold set_issuerList, set_authorized, institutionAt; cbn.
    rewrite lookup_insert. destruct (decide (a = 0)) as [->|]; [|done].
    cbn. exact Hz.
  - unfold revokeInstitution, onlyAdmin in H. repeat case_require_in H.
    inversion H; subst; clear H.
    unfold set_issuerList, set_authorized, institutionAt; cbn.
    rewrite lookup_insert. destruct (decide (a = 0)) as [->|]; [|done].
    cbn. exact Hz.
  - unfold updateInstitutionInfo, onlyAdmin in H. repeat case_require_in H.
    inversion H; subst; clear H. rewrite institutionAt_set_institution.
    destruct (decide (a = 0)) as [->|]; [|done].
    unfold nonempty in *. rewrite Hz in *. discriminate.
  - unfold updateInstitutionDocuments, onlyAdmin in H. repeat case_require_in H.
    inversion H; subst; clear H. rewrite institutionAt_set_institution.
    destruct (decide (a = 0)) as [->|]; [|done]. exact Hz.
  - unfold addAdmin, onlyOwner in H. repeat case_require_in H. by inversion H.
  - unfold removeAdmin, onlyOwner in H. repeat case_require_in H. by inversion H.
  - unfold incrementCredentialCount in H. case_require_in H.
    unfold checked_inc in H.
    destruct (_ <? _); cbn in H; [|discriminate].
    inversion H; subst; clear H. rewrite institutionAt_set_institution.
    destruct (decide (issuer = 0)) as [->|]; [|done]. exact Hz.
  - unfold transferOwnership, onlyOwner in H. repeat case_require_in H.
    by inversion H.
  - unfold renounceOwnership, onlyOwner in H. repeat case_require_in H.
    by inversion H.
Qed.

Lemma run_zero_record txs : ∀ st,
  name (institutionAt st 0) = "" → name (institutionAt (run txs st) 0) = "".
Proof.
  induction txs as [|tx txs IH]; intros st Hz; [done|].
  rewrite run_cons. apply IH. unfold step.
  destruct (exec tx st) eqn:E; cbn; try done.
  eapply exec_zero_record; eauto.
Qed.

Lemma reachable_registered_nonzero st a :
  reachable st → nonempty (name (institutionAt st a)) = true → a ≠ 0.
Proof.
  intros (d & txs & ->) Hn ->.
  rewrite run_zero_record in Hn; [discriminate|reflexivity].
Qed.

Lemma isAdmin_onlyAdmin st a :
  isAdmin st a = true → onlyAdmin a st = Ok tt.
Proof. unfold isAdmin, onlyAdmin. by intros ->. Qed.

End RegistryRecords.

(** C10. For a registered institution [a] (verified or not), once an
    admin has blanked its name with [updateInstitutionInfo(a, "", ..)], an
    admin's [registerInstitution(a, ..)], which would have failed with
    "Institution already registered", returns and overwrites the record:
    [credentialsIssued] is 0 and [verified] is false again, while
    [authorizedIssuers[a]] and the issuer list are as before. *)
Theorem reregistration_after_blank_name :
  ∀ (st : Registry.State) (a admin1 admin2 now_ : Z)
    (website1 email1 name2 website2 email2 doc2 : string),
    Registry.reachable st →
    nonempty (Registry.name (Registry.institutionAt st a)) = true →
    Registry.isAdmin st admin1 = true →
    Registry.isAdmin st admin2 = true →
    nonempty name2 = true →
    Registry.registerInstitution admin2 now_ a name2 website2 email2 doc2 st
      = Revert "Institution already registered"
    ∧ ∃ st1 st2,
        Registry.updateInstitutionInfo admin1 a "" website1 email1 st = Ok st1
        ∧ Registry.registerInstitution admin2 now_ a name2 website2 email2 doc2 st1
          = Ok st2
        ∧ Registry.institutionAt st2 a
          = Registry.mkInstitution name2 website2 email2 a false now_ 0 doc2
        ∧ Registry.isAuthorizedIssuer st2 a = Registry.isAuthorizedIssuer st a
        ∧ Registry.issuerList st2 = Registry.issuerList st.
Proof.
  intros st a admin1 admin2 now_ w1 e1 n2 w2 e2 d2 Hreach Hreg Had1 Had2 Hn2.
  pose proof (reachable_registered_nonzero st a Hreach Hreg) as Hnz.
  assert ((a =? 0) = false) as Hz by (apply Z.eqb_neq; exact Hnz).
  split.
  - unfold Registry.registerInstitution.
    rewrite (isAdmin_onlyAdmin _ _ Had2); cbn [mbind result_bind].
    rewrite Hz, Hn2, Hreg. reflexivity.
  - eexists _, _. split; [|split].
    + unfold Registry.updateInstitutionInfo.
      rewrite (isAdmin_onlyAdmin _ _ Had1); cbn [mbind result_bind].
      rewrite Hreg. reflexivity.
    + unfold Registry.registerInstitution.
      rewrite isAdmin_onlyAdmin by exact Had2. cbn [mbind result_bind].
      rewrite Hz, Hn2. cbn [negb require mbind result_bind].
      rewrite institutionAt_set_institution.
      destruct (decide (a = a)); [|done]. reflexivity.
    + split; [|split]; [|reflexivity|reflexivity].
      rewrite institutionAt_set_institution.
      destruct (decide (a = a)); [|done]. reflexivity.
Qed.

Lemma reregistration_after_blank_name_witness :
  Registry.reachable Scenario.registryCounted
  ∧ Registry.verified (Registry.institutionAt Scenario.registryCounted 5) = true
  ∧ Registry.credentialsIssued (Registry.institutionAt Scenario.registryCounted 5) = 1
  ∧ Registry.registerInstitution 1 200 5 "New" "w" "e" "d" Scenario.registryCounted
    = Revert "Institution already registered"
  ∧ ∃ st1 st2,
      Registry.updateInstitutionInfo 1 5 "" "w0" "e0" Scenario.registryCounted = Ok st1
      ∧ Registry.registerInstitution 1 200 5 "New" "w" "e" "d" st1 = Ok st2
      ∧ Registry.institutionAt st2 5
        = Registry.mkInstitution "New" "w" "e" 5 false 200 0 "d"
      ∧ Registry.isAuthorizedIssuer st2 5
        = Registry.isAuthorizedIssuer Scenario.registryCounted 5
      ∧ Registry.issuerList st2 = Registry.issuerList Scenario.registryCounted.
Proof.
  assert (Registry.reachable Scenario.registryCounted) as Hreach
    by (eexists _, _; reflexivity).
  split; [exact Hreach|].
  split; [vm_compute; reflexivity|].
  split; [vm_compute; reflexivity|].
  apply (reregistration_after_blank_name Scenario.registryCounted 5 1 1 200
           "w0" "e0" "New" "w" "e" "d" Hreach);
    vm_compute; reflexivity.
Defined.

(** C8 as stated fails: a caller that is not an authorized issuer (99)
    increments the counter of the authorized issuer 5. *)
Lemma incrementCredentialCount_open_to_any_caller :
  Registry.isAuthorizedIssuer Scenario.registry 99 = false
  ∧ Registry.isAuthorizedIssuer Scenario.registry 5 = true
  ∧ is_ok (Registry.incrementCredentialCount 99 5 Scenario.registry) = true
  ∧ Registry.credentialsIssued (Registry.institutionAt Scenario.registry 5) = 0
  ∧ Registry.credentialsIssued
      (Registry.institutionAt
         (commit (Registry.incrementCredentialCount 99 5 Scenario.registry)
                 Scenario.registry) 5) = 1.
Proof. repeat split; vm_compute; reflexivity. Qed.

(** C8, amended. [incrementCredentialCount(issuer)] is guarded by its
    argument, not by its caller: whoever calls, it returns only when
    [issuer] is an authorized issuer, a call whose [issuer] is not
    authorized reverts with "Not authorized issuer" and leaves the state
    (so the counter) unchanged, and a call whose [issuer] is authorized
    adds one to that issuer's counter (short of overflow). *)
Theorem incrementCredentialCount_guards_argument :
  ∀ (sender issuer : Z) (st : Registry.State),
    (is_ok (Registry.incrementCredentialCount sender issuer st) = true →
     Registry.isAuthorizedIssuer st issuer = true)
    ∧ (Registry.isAuthorizedIssuer st issuer = false →
       Registry.incrementCredentialCount sender issuer st
         = Revert "Not authorized issuer"
       ∧ commit (Registry.incrementCredentialCount sender issuer st) st = st)
    ∧ (Registry.isAuthorizedIssuer st issuer = true →
       Registry.credentialsIssued (Registry.institutionAt st issuer) < MAX_UINT256 →
       ∃ st', Registry.incrementCredentialCount sender issuer st = Ok st'
              ∧ Registry.credentialsIssued (Registry.institutionAt st' issuer)
                = Registry.credentialsIssued (Registry.institutionAt st issuer) + 1
              ∧ Registry.authorizedIssuers st' = Registry.authorizedIssuers st).
Proof.
  intros sender issuer st. unfold Registry.incrementCredentialCount.
  split; [|split].
  - destruct (Registry.isAuthorizedIssuer st issuer); [done|]. cbn. discriminate.
  - intros ->. cbn. done.
  - intros -> Hlt. cbn [require mbind result_bind]. unfold checked_inc.
    apply Z.ltb_lt in Hlt. rewrite Hlt. cbn [mbind result_bind].
    eexists. split; [reflexivity|]. split; [|reflexivity].
    rewrite institutionAt_set_institution.
    destruct (decide (issuer = issuer)); [|done]. reflexivity.
Qed.

Lemma incrementCredentialCount_guards_argument_witness :
  (is_ok (Registry.incrementCredentialCount 99 5 Scenario.registry) = true →
   Registry.isAuthorizedIssuer Scenario.registry 5 = true)
  ∧ (Registry.isAuthorizedIssuer Scenario.registry 7 = false →
     Registry.incrementCredentialCount 5 7 Scenario.registry
       = Revert "Not authorized issuer"
     ∧ commit (Registry.incrementCredentialCount 5 7 Scenario.registry)
              Scenario.registry = Scenario.registry)
  ∧ ∃ st', Registry.incrementCredentialCount 99 5 Scenario.registry = Ok st'
           ∧ Registry.credentialsIssued (Registry.institutionAt st' 5) = 1.
Proof.
  split; [|split].
  - apply (incrementCredentialCount_guards_argument 99 5 Scenario.registry).
  - apply (incrementCredentialCount_guards_argument 5 7 Scenario.registry).
  - destruct (incrementCredentialCount_guards_argument 99 5 Scenario.registry)
      as (_ & _ & H).
    destruct H as (st' & Hok & Hc & _);
      [vm_compute; reflexivity | vm_compute; reflexivity |].
    exists st'. split; [exact Hok|]. rewrite Hc. vm_compute. reflexivity.
Defined.

(** ** The token base *)

Section ERC721Facts.
Import ERC721.

Lemma exists_insert_owner st tokenId to t bal appr ops uris :
  to ≠ 0 →
  _exists st t = true →
  _exists (mkState (<[tokenId := to]> (owners st)) bal appr ops uris) t = true.
Proof.
  unfold _exists, _ownerOf; cbn. intros Hto H.
  rewrite lookup_insert. destruct (decide (tokenId = t)); [|exact H].
  cbn. apply negb_true_iff, Z.eqb_neq. exact Hto.
Qed.

Lemma mint_exists to tokenId st st' t :
  _mint to tokenId st = Ok st' → _exists st t = true →
  _exists st' t = true ∧ tokenId ≠ t.
Proof.
  unfold _mint. intros H Ht. repeat case_require_in H.
  inversion H; subst; clear H. split.
  - apply exists_insert_owner; [|exact Ht].
    apply negb_true_iff, Z.eqb_neq in Hreq. exact Hreq.
  - intros ->. rewrite Ht in Hreq0. discriminate.
Qed.

Lemma mint_exists_new to tokenId st st' :
  _mint to tokenId st = Ok st' → _exists st' tokenId = true.
Proof.
  unfold _mint. intros H. repeat case_require_in H.
  inversion H; subst; clear H.
  unfold _exists, _ownerOf; cbn. rewrite lookup_insert_eq. cbn. exact Hreq.
Qed.

Lemma setTokenURI_exists tokenId uri st st' t :
  _setTokenURI tokenId uri st = Ok st' → _exists st' t = _exists st t.
Proof.
  unfold _setTokenURI. intros H. case_require_in H. by inversion H.
Qed.

Lemma approve_exists sender to tokenId st st' t :
  approve sender to tokenId st = Ok st' → _exists st' t = _exists st t.
Proof.
  unfold approve, ownerOf. intros H. repeat case_require_in H. by inversion H.
Qed.

Lemma setApprovalForAll_exists sender op b st st' t :
  setApprovalForAll sender op b st = Ok st' → _exists st' t = _exists st t.
Proof.
  unfold setApprovalForAll. intros H. case_require_in H. by inversion H.
Qed.

Lemma transfer_exists from to tokenId st st' t :
  _transfer from to tokenId st = Ok st' → _exists st t = true →
  _exists st' t = true.
Proof.
  unfold _transfer, ownerOf. intros H Ht. repeat case_require_in H.
  inversion H; subst; clear H.
  apply exists_insert_owner; [|exact Ht].
  apply negb_true_iff, Z.eqb_neq in Hreq1. exact Hreq1.
Qed.

Lemma transferFrom_exists sender from to tokenId st st' t :
  transferFrom sender from to tokenId st = Ok st' → _exists st t = true →
  _exists st' t = true.
Proof.
  unfold transferFrom. intros H Ht.
  destruct (_isApprovedOrOwner st sender tokenId) as [ok| |];
    cbn [mbind result_bind] in H; try discriminate.
  case_require_in H. eapply transfer_exists; eauto.
Qed.

Lemma safeTransferFrom_exists sender from to tokenId acc st st' t :
  safeTransferFrom sender from to tokenId acc st = Ok st' →
  _exists st t = true → _exists st' t = true.
Proof.
  unfold safeTransferFrom. intros H Ht.
  destruct (_isApprovedOrOwner st sender tokenId) as [ok| |];
    cbn [mbind result_bind] in H; try discriminate.
  case_require_in H.
  destruct (_transfer from to tokenId st) as [s1| |] eqn:E;
    cbn [mbind result_bind] in H; try discriminate.
  case_require_in H. inversion H; subst. eapply transfer_exists; eauto.
Qed.

End ERC721Facts.

(** ** The ledger *)

Section LedgerFacts.
Import Ledger.

Lemma kept_refl t st : _exists st t = true → kept t st st.
Proof. intros H. split; [exact H|]. split; [reflexivity|tauto]. Qed.

Lemma kept_trans t st1 st2 st3 : kept t st1 st2 → kept t st2 st3 → kept t st1 st3.
Proof.
  intros (E1 & I1 & R1) (E2 & I2 & R2). split; [exact E2|].
  split; [congruence|]. intros H. apply R2, R1, H.
Qed.

(** A change of the token base that keeps [t] alive keeps the credential. *)
Lemma kept_set_erc721 t st e :
  ERC721._exists e t = true → kept t st (set_erc721 st e).
Proof. intros H. split; [exact H|]. split; [reflexivity|tauto]. Qed.

Lemma credentialAt_set_credential st tokenId c t :
  credentialAt (set_credential st tokenId c) t
  = if decide (tokenId = t) then c else credentialAt st t.
Proof.
  unfold credentialAt, set_credential; cbn.
  rewrite lookup_insert. by destruct (decide (tokenId = t)).
Qed.

Lemma issueCredential_kept sender now_ r ct n e h u reg st reg' st' id t :
  issueCredential sender now_ r ct n e h u reg st = Ok (reg', st', id) →
  _exists st t = true → kept t st st' ∧ id ≠ t.
Proof.
  unfold issueCredential, onlyAuthorizedIssuer. intros H Ht.
  case_require_in H. cbn zeta in H.
  destruct (ERC721._mint _ _ _) as [e1| |] eqn:Emint;
    cbn [mbind result_bind] in H; try discriminate.
  destruct (ERC721._setTokenURI _ _ _) as [e2| |] eqn:Euri;
    cbn [mbind result_bind] in H; try discriminate.
  destruct (Registry.incrementCredentialCount _ _ _) as [r2| |] eqn:Einc;
    cbn [mbind result_bind] in H; try discriminate.
  injection H as <- <- <-.
  cbn in Emint. apply (mint_exists _ _ _ _ t) in Emint as [Hex Hne]; [|exact Ht].
  split; [|exact Hne].
  split.
  - unfold _exists; cbn. rewrite (setTokenURI_exists _ _ _ _ t Euri). exact Hex.
  - unfold credentialAt; cbn. rewrite lookup_insert_ne by exact Hne.
    split; [reflexivity|tauto].
Qed.

Lemma issueLoop_kept sender now_ rs cts n e hs us t idxs : ∀ reg st reg' st',
  issueLoop idxs sender now_ rs cts n e hs us (reg, st) = Ok (reg', st') →
  _exists st t = true → kept t st st'.
Proof.
  induction idxs as [|i idxs IH]; intros reg st reg' st' H Ht.
  - cbn in H. injection H as <- <-. by apply kept_refl.
  - cbn [issueLoop] in H.
    destruct (rs !! i), (cts !! i), (hs !! i), (us !! i); try discriminate.
    cbn [fst snd] in H.
    destruct (issueCredential _ _ _ _ _ _ _ _ _ _) as [[[rg1 ls1] id]| |] eqn:E;
      cbn [mbind result_bind fst snd] in H; try discriminate.
    apply (issueCredential_kept _ _ _ _ _ _ _ _ _ _ _ _ _ t) in E as [K _];
      [|exact Ht].
    eapply kept_trans; [exact K|].
    eapply IH; [exact H|]. apply K.
Qed.

Lemma exec_kept tx st st' t :
  exec tx st = Ok st' → _exists st t = true → kept t st st'.
Proof.
  unfold exec, lift721. intros H Ht. destruct (call tx).
  - destruct (issueCredential _ _ _ _ _ _ _ _ _ _) as [[[rg1 ls1] id]| |] eqn:E;
      cbn [mbind result_bind fst snd] in H; try discriminate.
    injection H as <-. eapply issueCredential_kept; eauto.
  - unfold batchIssueCredentials, onlyAuthorizedIssuer in H.
    do 4 case_require_in H.
    destruct (issueLoop _ _ _ _ _ _ _ _ _ _) as [[rg1 ls1]| |] eqn:E;
      cbn [mbind result_bind fst snd] in H; try discriminate.
    injection H as <-. eapply issueLoop_kept; eauto.
  - unfold revokeCredential in H. repeat case_require_in H.
    injection H as <-. split; [exact Ht|].
    rewrite credentialAt_set_credential.
    destruct (decide (tokenId = t)) as [->|]; cbn; tauto.
  - destruct (ERC721.approve _ _ _ _) eqn:E;
      cbn [mbind result_bind] in H; try discriminate.
    injection H as <-. apply kept_set_erc721.
    rewrite (approve_exists _ _ _ _ _ t E). exact Ht.
  - destruct (ERC721.setApprovalForAll _ _ _ _) eqn:E;
      cbn [mbind result_bind] in H; try discriminate.
    injection H as <-. apply kept_set_erc721.
    rewrite (setApprovalForAll_exists _ _ _ _ _ t E). exact Ht.
  - destruct (ERC721.transferFrom _ _ _ _ _) eqn:E;
      cbn [mbind result_bind] in H; try discriminate.
    injection H as <-. apply kept_set_erc721.
    eapply transferFrom_exists; eauto.
  - destruct (ERC721.safeTransferFrom _ _ _ _ _ _) eqn:E;
      cbn [mbind result_bind] in H; try discriminate.
    injection H as <-. apply kept_set_erc721.
    eapply safeTransferFrom_exists; eauto.
  - unfold updateRegistry, onlyOwner in H. case_require_in H.
    injection H as <-. split; [exact Ht|]. split; [reflexivity|tauto].
  - unfold transferOwnership, onlyOwner in H. repeat case_require_in H.
    injection H as <-. split; [exact Ht|]. split; [reflexivity|tauto].
  - unfold renounceOwnership, onlyOwner in H. case_require_in H.
    injection H as <-. split; [exact Ht|]. split; [reflexivity|tauto].
Qed.

Lemma step_kept tx st t : _exists st t = true → kept t st (step st tx).
Proof.
  intros Ht. unfold step. destruct (exec tx st) eqn:E; cbn;
    try (by apply kept_refl).
  eapply exec_kept; eauto.
Qed.

Lemma run_kept txs t : ∀ st, _exists st t = true → kept t st (run txs st).
Proof.
  induction txs as [|tx txs IH]; intros st Ht; [by apply kept_refl|].
  change (run (tx :: txs) st) with (run txs (step st tx)).
  pose proof (step_kept tx st t Ht) as K.
  eapply kept_trans; [exact K|]. apply IH, K.
Qed.

Lemma transfer_exists_eq from to tokenId e e' t :
  ERC721._transfer from to tokenId e = Ok e' →
  ERC721._exists e' t = ERC721._exists e t.
Proof.
  unfold ERC721._transfer, ERC721.ownerOf. intros H. repeat case_require_in H.
  injection H as <-. unfold ERC721._exists, ERC721._ownerOf in *; cbn.
  rewrite lookup_insert. destruct (decide (tokenId = t)) as [->|]; [|done].
  cbn. rewrite Hreq, Hreq1. reflexivity.
Qed.

(** A token that did not exist before a returning transaction and exists
    after it was minted by that transaction: only [issueCredential] and
    [batchIssueCredentials] create tokens, and nothing destroys one. *)
Lemma token_created_only_by_issuance tx st st' t :
  exec tx st = Ok st' → _exists st t = false → _exists st' t = true →
  isIssuance (call tx) = true.
Proof.
  unfold exec, lift721, _exists. intros H Hno Hyes.
  destruct (call tx); try reflexivity; exfalso.
  - unfold revokeCredential in H. repeat case_require_in H.
    injection H as <-. cbn in Hyes. congruence.
  - destruct (ERC721.approve _ _ _ _) eqn:E;
      cbn [mbind result_bind] in H; try discriminate.
    injection H as <-. cbn in Hyes.
    rewrite (approve_exists _ _ _ _ _ t E) in Hyes. congruence.
  - destruct (ERC721.setApprovalForAll _ _ _ _) eqn:E;
      cbn [mbind result_bind] in H; try discriminate.
    injection H as <-. cbn in Hyes.
    rewrite (setApprovalForAll_exists _ _ _ _ _ t E) in Hyes. congruence.
  - destruct (ERC721.transferFrom _ _ _ _ _) eqn:E;
      cbn [mbind result_bind] in H; try discriminate.
    injection H as <-. cbn in Hyes. unfold ERC721.transferFrom in E.
    destruct (ERC721._isApprovedOrOwner _ _ _) as [ok| |];
      cbn [mbind result_bind] in E; try discriminate.
    case_require_in E.
    rewrite (transfer_exists_eq _ _ _ _ _ t E) in Hyes. congruence.
  - destruct (ERC721.safeTransferFrom _ _ _ _ _ _) eqn:E;
      cbn [mbind result_bind] in H; try discriminate.
    injection H as <-. cbn in Hyes. unfold ERC721.safeTransferFrom in E.
    destruct (ERC721._isApprovedOrOwner _ _ _) as [ok| |];
      cbn [mbind result_bind] in E; try discriminate.
    case_require_in E.
    destruct (ERC721._transfer _ _ _ _) as [e1| |] eqn:Et;
      cbn [mbind result_bind] in E; try discriminate.
    case_require_in E. injection E as <-.
    rewrite (transfer_exists_eq _ _ _ _ _ t Et) in Hyes. congruence.
  - unfold updateRegistry, onlyOwner in H. case_require_in H.
    injection H as <-. cbn in Hyes. congruence.
  - unfold transferOwnership, onlyOwner in H. repeat case_require_in H.
    injection H as <-. cbn in Hyes. congruence.
  - unfold renounceOwnership, onlyOwner in H. case_require_in H.
    injection H as <-. cbn in Hyes. congruence.
Qed.

Lemma constructor_has_no_token deployer this_ registryAddress t :
  _exists (constructor deployer this_ registryAddress) t = false.
Proof. reflexivity. Qed.

End LedgerFacts.

(** C6. For a minted credential the ledger's [verifyCredential] computes
    [expired = (expiry != 0 && now > expiry)]: with [expiry = 0] the
    credential is never expired, with [expiry = now] it is not expired
    (and valid unless revoked), and with a non-zero expiry before [now]
    it is expired and invalid. *)
Theorem verifyCredential_expiry_is_strict :
  ∀ (st : Ledger.State) (now_ tokenId : Z),
    Ledger._exists st tokenId = true →
    ∃ v, Ledger.verifyCredential now_ tokenId st = Ok v
         ∧ Ledger.v_expired v
           = negb (Ledger.expiryDate (Ledger.credentialAt st tokenId) =? 0)
             && (now_ >? Ledger.expiryDate (Ledger.credentialAt st tokenId))
         ∧ (Ledger.expiryDate (Ledger.credentialAt st tokenId) = 0 →
            Ledger.v_expired v = false)
         ∧ (Ledger.expiryDate (Ledger.credentialAt st tokenId) = now_ →
            Ledger.v_expired v = false
            ∧ Ledger.v_isValid v
              = negb (Ledger.revoked (Ledger.credentialAt st tokenId)))
         ∧ (Ledger.expiryDate (Ledger.credentialAt st tokenId) ≠ 0 →
            Ledger.expiryDate (Ledger.credentialAt st tokenId) < now_ →
            Ledger.v_expired v = true ∧ Ledger.v_isValid v = false).
Proof.
  intros st now_ tokenId Hex. unfold Ledger.verifyCredential.
  rewrite Hex. cbn [require mbind result_bind].
  eexists. split; [reflexivity|]. cbn [Ledger.v_expired Ledger.v_isValid].
  unfold Ledger.hasExpired.
  set (e := Ledger.expiryDate (Ledger.credentialAt st tokenId)).
  split; [reflexivity|]. split; [|split].
  - intros ->. reflexivity.
  - intros <-. rewrite Z.gtb_ltb, Z.ltb_irrefl, andb_false_r.
    split; [reflexivity|]. apply andb_true_r.
  - intros Hnz Hlt.
    assert ((e =? 0) = false) as -> by (by apply Z.eqb_neq).
    assert ((now_ >? e) = true) as -> by (rewrite Z.gtb_ltb; by apply Z.ltb_lt).
    split; [reflexivity|]. apply andb_false_r.
Qed.

Lemma verifyCredential_expiry_is_strict_witness :
  Ledger._exists Scenario.ledger 0 = true
  ∧ Ledger.expiryDate (Ledger.credentialAt Scenario.ledger 0) = 2000
  ∧ (∃ v, Ledger.verifyCredential 2000 0 Scenario.ledger = Ok v
          ∧ Ledger.v_expired v = false ∧ Ledger.v_isValid v = true)
  ∧ (∃ v, Ledger.verifyCredential 2001 0 Scenario.ledger = Ok v
          ∧ Ledger.v_expired v = true ∧ Ledger.v_isValid v = false).
Proof.
  assert (Ledger._exists Scenario.ledger 0 = true) as Hex
    by (vm_compute; reflexivity).
  assert (Ledger.expiryDate (Ledger.credentialAt Scenario.ledger 0) = 2000) as He
    by (vm_compute; reflexivity).
  split; [exact Hex|]. split; [exact He|]. split.
  - destruct (verifyCredential_expiry_is_strict Scenario.ledger 2000 0 Hex)
      as (v & Hv & _ & _ & Hat & _).
    exists v. split; [exact Hv|]. destruct (Hat He) as [H1 H2].
    split; [exact H1|]. rewrite H2. vm_compute. reflexivity.
  - destruct (verifyCredential_expiry_is_strict Scenario.ledger 2001 0 Hex)
      as (v & Hv & _ & _ & _ & Hpast).
    exists v. split; [exact Hv|]. apply Hpast; rewrite He; lia.
Defined.

(** C7. [revokeCredential(tokenId)] returns exactly when the token was
    minted, the caller is the issuer recorded at mint time and the
    credential is not yet revoked; otherwise it reverts with "Credential
    does not exist", "Only issuer can revoke" or "Already revoked" (in
    that order of checks) and the state is unchanged. On success
    [revoked] is true and stays true through every later sequence of
    ledger transactions; the recorded issuer of a minted token is never
    changed either, in particular not by a transfer of ownership. *)
Theorem revokeCredential_outcomes :
  ∀ (st : Ledger.State) (sender tokenId : Z),
    is_ok (Ledger.revokeCredential sender tokenId st)
    = Ledger._exists st tokenId
      && (Ledger.issuer (Ledger.credentialAt st tokenId) =? sender)
      && negb (Ledger.revoked (Ledger.credentialAt st tokenId))
    ∧ (Ledger._exists st tokenId = false →
       Ledger.revokeCredential sender tokenId st = Revert "Credential does not exist")
    ∧ (Ledger._exists st tokenId = true →
       Ledger.issuer (Ledger.credentialAt st tokenId) ≠ sender →
       Ledger.revokeCredential sender tokenId st = Revert "Only issuer can revoke")
    ∧ (Ledger._exists st tokenId = true →
       Ledger.issuer (Ledger.credentialAt st tokenId) = sender →
       Ledger.revoked (Ledger.credentialAt st tokenId) = true →
       Ledger.revokeCredential sender tokenId st = Revert "Already revoked")
    ∧ (is_ok (Ledger.revokeCredential sender tokenId st) = false →
       commit (Ledger.revokeCredential sender tokenId st) st = st)
    ∧ (∀ st', Ledger.revokeCredential sender tokenId st = Ok st' →
         Ledger.revoked (Ledger.credentialAt st' tokenId) = true
         ∧ ∀ txs, Ledger.revoked
                    (Ledger.credentialAt (Ledger.run txs st') tokenId) = true)
    ∧ (Ledger._exists st tokenId = true →
       ∀ txs, Ledger.issuer (Ledger.credentialAt (Ledger.run txs st) tokenId)
              = Ledger.issuer (Ledger.credentialAt st tokenId)).
Proof.
  intros st sender tokenId. unfold Ledger.revokeCredential.
  split_and!.
  - destruct (Ledger._exists st tokenId); [|reflexivity].
    destruct (_ =? sender); [|reflexivity].
    destruct (Ledger.revoked _); reflexivity.
  - intros ->. reflexivity.
  - intros -> Hne. apply Z.eqb_neq in Hne. rewrite Hne. reflexivity.
  - intros -> <- ->. rewrite Z.eqb_refl. reflexivity.
  - destruct (Ledger._exists st tokenId); [|reflexivity].
    destruct (_ =? sender); [|reflexivity].
    destruct (Ledger.revoked _); [reflexivity|]. cbn. discriminate.
  - intros st' H. repeat case_require_in H. injection H as <-.
    assert (Ledger.revoked
              (Ledger.credentialAt
                 (Ledger.set_credential st tokenId
                    (Ledger.with_revoked (Ledger.credentialAt st tokenId) true))
                 tokenId) = true) as Hrev.
    { rewrite credentialAt_set_credential.
      destruct (decide (tokenId = tokenId)); [|done]. reflexivity. }
    split; [exact Hrev|].
    intros txs. apply (run_kept txs tokenId); [exact Hreq | exact Hrev].
  - intros Hex txs. apply (run_kept txs tokenId). exact Hex.
Qed.

Lemma revokeCredential_outcomes_witness :
  Ledger.revokeCredential 5 1 Scenario.ledger = Revert "Credential does not exist"
  ∧ ERC721.ownerOf (Ledger.erc721 Scenario.ledger) 0 = Ok 8
  ∧ Ledger.revokeCredential 8 0 Scenario.ledger = Revert "Only issuer can revoke"
  ∧ Ledger.revokeCredential 5 0 Scenario.ledgerRevoked = Revert "Already revoked"
  ∧ is_ok (Ledger.revokeCredential 5 0 Scenario.ledger) = true
  ∧ Ledger.revoked (Ledger.credentialAt Scenario.ledgerRevoked 0) = true.
Proof.
  destruct (revokeCredential_outcomes Scenario.ledger 5 1) as (_ & Hnf & _).
  destruct (revokeCredential_outcomes Scenario.ledger 8 0) as (_ & _ & Hni & _).
  destruct (revokeCredential_outcomes Scenario.ledgerRevoked 5 0)
    as (_ & _ & _ & Har & _).
  destruct (revokeCredential_outcomes Scenario.ledger 5 0)
    as (Hok & _ & _ & _ & _ & Hrev & _).
  split; [apply Hnf; vm_compute; reflexivity|].
  split; [vm_compute; reflexivity|].
  split; [apply Hni; [vm_compute; reflexivity | vm_compute; discriminate]|].
  split; [apply Har; vm_compute; reflexivity|].
  split; [rewrite Hok; vm_compute; reflexivity|].
  destruct (Ledger.revokeCredential 5 0 Scenario.ledger) as [st'| |] eqn:E;
    try (vm_compute in E; discriminate).
  unfold Scenario.ledgerRevoked, Ledger.step, Ledger.exec; cbn [Ledger.call Ledger.sender].
  rewrite E. cbn [commit]. apply (Hrev st' eq_refl).
Defined.

(** ** The verification aggregator *)

Section VerificationFacts.
Import Verification.

Lemma checked_inc_ok x : x < MAX_UINT256 → checked_inc x = Ok (x + 1).
Proof. intros H. unfold checked_inc. apply Z.ltb_lt in H. by rewrite H. Qed.

(** Short of an overflow the three counters are each raised by one. *)
Lemma countVerification_ok sender tokenId st :
  getCredentialVerificationCount st tokenId < MAX_UINT256 →
  getVerifierCount st sender < MAX_UINT256 →
  totalVerifications st < MAX_UINT256 →
  ∃ st', countVerification sender tokenId st = Ok st'
         ∧ getCredentialVerificationCount st' tokenId
           = getCredentialVerificationCount st tokenId + 1
         ∧ getVerifierCount st' sender = getVerifierCount st sender + 1
         ∧ getTotalVerifications st' = getTotalVerifications st + 1.
Proof.
  intros H1 H2 H3. unfold countVerification.
  rewrite !checked_inc_ok by assumption. cbn [mbind result_bind].
  eexists. split; [reflexivity|].
  unfold getCredentialVerificationCount, getVerifierCount, getTotalVerifications.
  cbn. rewrite !lookup_insert_eq. done.
Qed.

Lemma verifyCredential_exists now_ tokenId ledger :
  Ledger._exists ledger tokenId = true →
  ∃ v, Ledger.verifyCredential now_ tokenId ledger = Ok v
       ∧ Ledger.v_revoked v = Ledger.revoked (Ledger.credentialAt ledger tokenId)
       ∧ Ledger.v_expired v
         = Ledger.hasExpired now_ (Ledger.credentialAt ledger tokenId)
       ∧ Ledger.v_isValid v = negb (Ledger.v_revoked v) && negb (Ledger.v_expired v).
Proof.
  intros H. unfold Ledger.verifyCredential. rewrite H.
  cbn [require mbind result_bind]. eexists. split; [reflexivity|]. done.
Qed.

Lemma verifyCredential_missing now_ tokenId ledger :
  Ledger._exists ledger tokenId = false →
  Ledger.verifyCredential now_ tokenId ledger = Revert "Credential does not exist".
Proof. intros H. unfold Ledger.verifyCredential. by rewrite H. Qed.

End VerificationFacts.

(** C1. For a minted token [verifyCredentialDetailed] ranks the reasons of
    invalidity, read off the credential record and the registry: revoked
    first (whatever expiry and issuer authorization are), then expired,
    then the record's issuer no longer authorized; otherwise the message
    reports validity and [isValid] is the ledger's own flag. The result
    carries the record's issuer, recipient, type, institution name and
    issue date. *)
Theorem verifyCredentialDetailed_priority :
  ∀ (sender now_ tokenId : Z) (reg : Registry.State) (ledger : Ledger.State)
    (st : Verification.State),
    Ledger._exists ledger tokenId = true →
    Verification.getCredentialVerificationCount st tokenId < MAX_UINT256 →
    Verification.getVerifierCount st sender < MAX_UINT256 →
    Verification.totalVerifications st < MAX_UINT256 →
    ∃ st' res v,
      Verification.verifyCredentialDetailed sender now_ tokenId reg ledger st
        = Ok (st', res)
      ∧ Ledger.verifyCredential now_ tokenId ledger = Ok v
      ∧ Ledger.v_revoked v = Ledger.revoked (Ledger.credentialAt ledger tokenId)
      ∧ Ledger.v_expired v
        = Ledger.hasExpired now_ (Ledger.credentialAt ledger tokenId)
      ∧ Ledger.v_issuer v = Ledger.issuer (Ledger.credentialAt ledger tokenId)
      ∧ Verification.exists_ res = true
      ∧ Verification.revoked res
        = Ledger.revoked (Ledger.credentialAt ledger tokenId)
      ∧ Verification.expired res
        = Ledger.hasExpired now_ (Ledger.credentialAt ledger tokenId)
      ∧ Verification.issuer res = Ledger.issuer (Ledger.credentialAt ledger tokenId)
      ∧ Verification.recipient res
        = Ledger.recipient (Ledger.credentialAt ledger tokenId)
      ∧ Verification.credentialType res
        = Ledger.credentialType (Ledger.credentialAt ledger tokenId)
      ∧ Verification.institutionName res
        = Ledger.institutionName (Ledger.credentialAt ledger tokenId)
      ∧ Verification.issueDate res
        = Ledger.issueDate (Ledger.credentialAt ledger tokenId)
      ∧ (Ledger.revoked (Ledger.credentialAt ledger tokenId) = true →
         Verification.isValid res = false
         ∧ Verification.message res = "Credential has been revoked by issuer")
      ∧ (Ledger.revoked (Ledger.credentialAt ledger tokenId) = false →
         Ledger.hasExpired now_ (Ledger.credentialAt ledger tokenId) = true →
         Verification.isValid res = false
         ∧ Verification.message res = "Credential has expired")
      ∧ (Ledger.revoked (Ledger.credentialAt ledger tokenId) = false →
         Ledger.hasExpired now_ (Ledger.credentialAt ledger tokenId) = false →
         Registry.isAuthorizedIssuer reg
           (Ledger.issuer (Ledger.credentialAt ledger tokenId)) = false →
         Verification.isValid res = false
         ∧ Verification.message res = "Issuer is no longer authorized")
      ∧ (Ledger.revoked (Ledger.credentialAt ledger tokenId) = false →
         Ledger.hasExpired now_ (Ledger.credentialAt ledger tokenId) = false →
         Registry.isAuthorizedIssuer reg
           (Ledger.issuer (Ledger.credentialAt ledger tokenId)) = true →
         Verification.isValid res = Ledger.v_isValid v
         ∧ Verification.isValid res = true
         ∧ Verification.message res = "Credential is valid and verified").
Proof.
  intros sender now_ tokenId reg ledger st Hex H1 H2 H3.
  destruct (countVerification_ok sender tokenId st H1 H2 H3) as (st' & Hc & _).
  unfold Verification.verifyCredentialDetailed.
  rewrite Hc. cbn [mbind result_bind].
  unfold Ledger.verifyCredential. rewrite Hex. cbn [require mbind result_bind].
  eexists st', _, _. split; [reflexivity|]. split; [reflexivity|].
  cbn [Verification.exists_ Verification.isValid Verification.message
       Verification.revoked Verification.expired Verification.issuer
       Verification.recipient Verification.credentialType
       Verification.institutionName Verification.issueDate
       Ledger.v_revoked Ledger.v_expired Ledger.v_issuer Ledger.v_recipient
       Ledger.v_credentialType Ledger.v_institutionName Ledger.v_issueDate
       Ledger.v_isValid].
  unfold Verification.judge.
  cbn [Ledger.v_revoked Ledger.v_expired Ledger.v_issuer Ledger.v_isValid].
  split_and!; try reflexivity.
  - intros ->. done.
  - intros -> ->. done.
  - intros -> -> ->. done.
  - intros -> -> ->. done.
Qed.

Lemma verifyCredentialDetailed_priority_witness :
  Ledger._exists Scenario.ledgerRevoked 0 = true
  ∧ Ledger._exists Scenario.ledger 0 = true
  ∧ Ledger.issuer (Ledger.credentialAt Scenario.ledger 0) = 5
  ∧ Registry.isAuthorizedIssuer (Registry.constructor 1) 5 = false
  ∧ Registry.isAuthorizedIssuer Scenario.registryCounted 5 = true
  ∧ (∃ st' res,
       Verification.verifyCredentialDetailed 3 3000 0 (Registry.constructor 1)
         Scenario.ledgerRevoked Verification.constructor = Ok (st', res)
       ∧ Ledger.hasExpired 3000 (Ledger.credentialAt Scenario.ledgerRevoked 0) = true
       ∧ Verification.isValid res = false
       ∧ Verification.message res = "Credential has been revoked by issuer")
  ∧ (∃ st' res,
       Verification.verifyCredentialDetailed 3 3000 0 (Registry.constructor 1)
         Scenario.ledger Verification.constructor = Ok (st', res)
       ∧ Verification.isValid res = false
       ∧ Verification.message res = "Credential has expired")
  ∧ (∃ st' res,
       Verification.verifyCredentialDetailed 3 1500 0 (Registry.constructor 1)
         Scenario.ledger Verification.constructor = Ok (st', res)
       ∧ Verification.isValid res = false
       ∧ Verification.issuer res = 5
       ∧ Verification.message res = "Issuer is no longer authorized")
  ∧ (∃ st' res,
       Verification.verifyCredentialDetailed 3 1500 0 Scenario.registryCounted
         Scenario.ledger Verification.constructor = Ok (st', res)
       ∧ Verification.isValid res = true
       ∧ Verification.issuer res = 5
       ∧ Verification.message res = "Credential is valid and verified").
Proof.
  assert (Ledger._exists Scenario.ledgerRevoked 0 = true) as HexR
    by (vm_compute; reflexivity).
  assert (Ledger._exists Scenario.ledger 0 = true) as Hex
    by (vm_compute; reflexivity).
  split; [exact HexR|]. split; [exact Hex|].
  split; [vm_compute; reflexivity|]. split; [vm_compute; reflexivity|].
  split; [vm_compute; reflexivity|].
  split; [|split; [|split]].
  - destruct (verifyCredentialDetailed_priority 3 3000 0 (Registry.constructor 1)
                Scenario.ledgerRevoked Verification.constructor HexR)
      as (st' & res & v & Hres & _ & _ & _ & _ & _ & _ & _ & _ & _ & _ & _ & _
          & Hrung & _);
      [vm_compute; reflexivity ..|].
    exists st', res. split; [exact Hres|]. split; [vm_compute; reflexivity|].
    apply Hrung. vm_compute. reflexivity.
  - destruct (verifyCredentialDetailed_priority 3 3000 0 (Registry.constructor 1)
                Scenario.ledger Verification.constructor Hex)
      as (st' & res & v & Hres & _ & _ & _ & _ & _ & _ & _ & _ & _ & _ & _ & _
          & _ & Hrung & _);
      [vm_compute; reflexivity ..|].
    exists st', res. split; [exact Hres|].
    apply Hrung; vm_compute; reflexivity.
  - destruct (verifyCredentialDetailed_priority 3 1500 0 (Registry.constructor 1)
                Scenario.ledger Verification.constructor Hex)
      as (st' & res & v & Hres & _ & _ & _ & _ & _ & _ & _ & Hiss & _ & _ & _ & _
          & _ & _ & Hrung & _);
      [vm_compute; reflexivity ..|].
    exists st', res. split; [exact Hres|].
    destruct Hrung as [Hv Hm]; [vm_compute; reflexivity ..|].
    split; [exact Hv|]. split; [rewrite Hiss; vm_compute; reflexivity|exact Hm].
  - destruct (verifyCredentialDetailed_priority 3 1500 0 Scenario.registryCounted
                Scenario.ledger Verification.constructor Hex)
      as (st' & res & v & Hres & _ & _ & _ & _ & _ & _ & _ & Hiss & _ & _ & _ & _
          & _ & _ & _ & Hrung);
      [vm_compute; reflexivity ..|].
    exists st', res. split; [exact Hres|].
    destruct Hrung as (_ & Hv & Hm); [vm_compute; reflexivity ..|].
    split; [exact Hv|]. split; [rewrite Hiss; vm_compute; reflexivity|exact Hm].
Defined.

(** C2 as stated fails: on the never-minted token 999 the per-credential
    count goes from 0 to 1. *)
Lemma not_found_attempt_counts_for_token :
  Ledger._exists Scenario.ledgerEmpty 999 = false
  ∧ Verification.getCredentialVerificationCount Verification.constructor 999 = 0
  ∧ ∃ st' res,
      Verification.verifyCredentialDetailed 3 1000 999 Scenario.registry
        Scenario.ledgerEmpty Verification.constructor = Ok (st', res)
      ∧ Verification.exists_ res = false
      ∧ Verification.getCredentialVerificationCount st' 999 = 1.
Proof.
  split; [vm_compute; reflexivity|]. split; [vm_compute; reflexivity|].
  eexists _, _. split; [vm_compute; reflexivity|].
  split; vm_compute; reflexivity.
Qed.

(** C2, amended. On a never-minted token [verifyCredentialDetailed] raises
    all three counters by one (the calling verifier's, the global total,
    and the per-credential count of that token id) and returns the "does
    not exist" result, with [exists = false] and [isValid = false]. *)
Theorem verifyCredentialDetailed_not_found :
  ∀ (sender now_ tokenId : Z) (reg : Registry.State) (ledger : Ledger.State)
    (st : Verification.State),
    Ledger._exists ledger tokenId = false →
    Verification.getCredentialVerificationCount st tokenId < MAX_UINT256 →
    Verification.getVerifierCount st sender < MAX_UINT256 →
    Verification.totalVerifications st < MAX_UINT256 →
    ∃ st',
      Verification.verifyCredentialDetailed sender now_ tokenId reg ledger st
        = Ok (st', Verification.notFound)
      ∧ Verification.exists_ Verification.notFound = false
      ∧ Verification.isValid Verification.notFound = false
      ∧ Verification.message Verification.notFound = "Credential does not exist"
      ∧ Verification.getVerifierCount st' sender
        = Verification.getVerifierCount st sender + 1
      ∧ Verification.getTotalVerifications st'
        = Verification.getTotalVerifications st + 1
      ∧ Verification.getCredentialVerificationCount st' tokenId
        = Verification.getCredentialVerificationCount st tokenId + 1.
Proof.
  intros sender now_ tokenId reg ledger st Hex H1 H2 H3.
  destruct (countVerification_ok sender tokenId st H1 H2 H3)
    as (st' & Hc & Hct & Hcv & Htot).
  exists st'. unfold Verification.verifyCredentialDetailed.
  rewrite Hc. cbn [mbind result_bind].
  rewrite (verifyCredential_missing _ _ _ Hex). done.
Qed.

Lemma verifyCredentialDetailed_not_found_witness :
  Ledger._exists Scenario.ledger 999 = false
  ∧ ∃ st',
      Verification.verifyCredentialDetailed 3 1000 999 Scenario.registry
        Scenario.ledger Verification.constructor = Ok (st', Verification.notFound)
      ∧ Verification.getVerifierCount st' 3 = 1
      ∧ Verification.getTotalVerifications st' = 1
      ∧ Verification.getCredentialVerificationCount st' 999 = 1.
Proof.
  assert (Ledger._exists Scenario.ledger 999 = false) as Hex
    by (vm_compute; reflexivity).
  split; [exact Hex|].
  destruct (verifyCredentialDetailed_not_found 3 1000 999 Scenario.registry
              Scenario.ledger Verification.constructor Hex)
    as (st' & Hres & _ & _ & _ & Hv & Ht & Hc); [vm_compute; reflexivity ..|].
  exists st'. split; [exact Hres|]. rewrite Hv, Ht, Hc.
  split_and!; vm_compute; reflexivity.
Defined.

(** ** Issuance followed by verification *)

Section IssueFacts.
Import Ledger.

(** What a successful [issueCredential] leaves behind. *)
Lemma issueCredential_result sender now_ r ct n e h u reg st reg' st' id :
  issueCredential sender now_ r ct n e h u reg st = Ok (reg', st', id) →
  id = tokenIdCounter st
  ∧ _exists st' id = true
  ∧ credentialAt st' id = mkCredential sender r ct n now_ e h false
  ∧ Registry.isAuthorizedIssuer reg sender = true
  ∧ Registry.isAuthorizedIssuer reg' sender = true.
Proof.
  unfold issueCredential, onlyAuthorizedIssuer. intros H.
  case_require_in H. cbn zeta in H.
  destruct (ERC721._mint _ _ _) as [e1| |] eqn:Emint;
    cbn [mbind result_bind] in H; try discriminate.
  destruct (ERC721._setTokenURI _ _ _) as [e2| |] eqn:Euri;
    cbn [mbind result_bind] in H; try discriminate.
  destruct (Registry.incrementCredentialCount _ _ _) as [r2| |] eqn:Einc;
    cbn [mbind result_bind] in H; try discriminate.
  injection H as <- <- <-.
  split; [reflexivity|]. split; [|split; [|split]].
  - unfold _exists; cbn.
    rewrite (setTokenURI_exists _ _ _ _ (tokenIdCounter st) Euri).
    eapply mint_exists_new; eauto.
  - unfold credentialAt; cbn. rewrite lookup_insert_eq. reflexivity.
  - reflexivity.
  - unfold Registry.incrementCredentialCount in Einc. rewrite Hreq in Einc.
    cbn [require mbind result_bind] in Einc. unfold checked_inc in Einc.
    destruct (_ <? _); cbn in Einc; [|discriminate].
    injection Einc as <-. exact Hreq.
Qed.

(** [issueCredential] returns for an authorized issuer, a recipient other
    than the zero address and a fresh token id, short of an overflow of
    the issuer's counter. *)
Lemma issueCredential_returns sender now_ r ct n e h u reg st :
  Registry.isAuthorizedIssuer reg sender = true →
  r ≠ 0 →
  _exists st (tokenIdCounter st) = false →
  Registry.credentialsIssued (Registry.institutionAt reg sender) < MAX_UINT256 →
  ∃ reg' st',
    issueCredential sender now_ r ct n e h u reg st
    = Ok (reg', st', tokenIdCounter st).
Proof.
  intros Hauth Hr Hfresh Hlt. unfold issueCredential, onlyAuthorizedIssuer.
  rewrite Hauth. cbn [require mbind result_bind]. cbn zeta.
  unfold ERC721._mint. cbn [erc721 push_userCredential set_credential set_counter].
  apply Z.eqb_neq in Hr. rewrite Hr. cbn [negb require mbind result_bind].
  unfold _exists in Hfresh. rewrite Hfresh. cbn [negb require mbind result_bind].
  unfold ERC721._setTokenURI.
  assert (ERC721._exists
            (ERC721.mkState (<[tokenIdCounter st := r]> (ERC721.owners (erc721 st)))
               (<[r := unchecked_inc (ERC721.balanceAt (erc721 st) r)]>
                  (ERC721.balances (erc721 st)))
               (ERC721.tokenApprovals (erc721 st))
               (ERC721.operatorApprovals (erc721 st))
               (ERC721.tokenURIs (erc721 st))) (tokenIdCounter st) = true) as ->.
  { unfold ERC721._exists, ERC721._ownerOf; cbn. rewrite lookup_insert_eq. cbn.
    by rewrite Hr. }
  cbn [require mbind result_bind].
  unfold Registry.incrementCredentialCount. rewrite Hauth.
  cbn [require mbind result_bind]. rewrite checked_inc_ok by exact Hlt.
  cbn [mbind result_bind]. eexists _, _. reflexivity.
Qed.

End IssueFacts.

(** C9 as stated fails: a credential issued at time 1000 with an expiry
    (500) that is already past is invalid when verified straight away,
    although nothing happened between issuance and verification. *)
Lemma expired_at_issuance_is_invalid :
  ∃ reg' ledger',
    Ledger.issueCredential 5 1000 7 "Degree" "Uni" 500 "QmCred" "ipfs://QmCred"
      Scenario.registry Scenario.ledgerEmpty = Ok (reg', ledger', 0)
    ∧ ∃ vst' res,
        Verification.verifyCredentialDetailed 3 1000 0 reg' ledger'
          Verification.constructor = Ok (vst', res)
        ∧ Verification.exists_ res = true
        ∧ Verification.revoked res = false
        ∧ Verification.expired res = true
        ∧ Verification.isValid res = false
        ∧ Verification.message res = "Credential has expired".
Proof.
  eexists _, _. split; [vm_compute; reflexivity|].
  eexists _, _. split; [vm_compute; reflexivity|].
  split_and!; vm_compute; reflexivity.
Qed.

(** C9, amended. Issuing a credential whose expiry is 0 or not before the
    time of verification, and verifying the returned token id straight
    away in the state issuance left (no revocation and no issuer
    deauthorization in between), gives [isValid = true], [exists = true],
    [revoked = false] and the issuer, recipient, type and institution
    name given at issuance. *)
Theorem issue_then_verify_roundtrip :
  ∀ (sender now_ recipient_ : Z) (credentialType_ institutionName_ : string)
    (expiryDate_ : Z) (ipfsHash_ tokenURI_ : string)
    (reg reg' : Registry.State) (ledger ledger' : Ledger.State) (tokenId : Z)
    (verifier now' : Z) (vst : Verification.State),
    Ledger.issueCredential sender now_ recipient_ credentialType_ institutionName_
      expiryDate_ ipfsHash_ tokenURI_ reg ledger = Ok (reg', ledger', tokenId) →
    expiryDate_ = 0 ∨ now' ≤ expiryDate_ →
    Verification.getCredentialVerificationCount vst tokenId < MAX_UINT256 →
    Verification.getVerifierCount vst verifier < MAX_UINT256 →
    Verification.totalVerifications vst < MAX_UINT256 →
    ∃ vst' res,
      Verification.verifyCredentialDetailed verifier now' tokenId reg' ledger' vst
        = Ok (vst', res)
      ∧ Verification.isValid res = true
      ∧ Verification.exists_ res = true
      ∧ Verification.revoked res = false
      ∧ Verification.expired res = false
      ∧ Verification.issuer res = sender
      ∧ Verification.recipient res = recipient_
      ∧ Verification.credentialType res = credentialType_
      ∧ Verification.institutionName res = institutionName_
      ∧ Verification.issueDate res = now_
      ∧ Verification.message res = "Credential is valid and verified".
Proof.
  intros sender now_ r ct n e h u reg reg' ledger ledger' tokenId verifier now' vst
         Hissue Hexp H1 H2 H3.
  destruct (issueCredential_result _ _ _ _ _ _ _ _ _ _ _ _ _ Hissue)
    as (_ & Hex & Hcred & _ & Hauth).
  destruct (countVerification_ok verifier tokenId vst H1 H2 H3) as (vst' & Hc & _).
  unfold Verification.verifyCredentialDetailed.
  rewrite Hc. cbn [mbind result_bind].
  unfold Ledger.verifyCredential. rewrite Hex. cbn [require mbind result_bind].
  rewrite Hcred. unfold Ledger.hasExpired. cbn [Ledger.revoked Ledger.expiryDate
    Ledger.issuer Ledger.recipient Ledger.credentialType Ledger.institutionName
    Ledger.issueDate].
  assert (negb (e =? 0) && (now' >? e) = false) as ->.
  { destruct Hexp as [->|Hle]; [reflexivity|].
    rewrite Z.gtb_ltb. apply andb_false_iff. right. apply Z.ltb_ge. exact Hle. }
  eexists vst', _. split; [reflexivity|].
  unfold Verification.judge; cbn. rewrite Hauth. cbn. done.
Qed.

Lemma issue_then_verify_roundtrip_witness :
  ∃ reg' ledger',
    Ledger.issueCredential 5 1000 7 "Degree" "Uni" 2000 "QmCred" "ipfs://QmCred"
      Scenario.registry Scenario.ledgerEmpty = Ok (reg', ledger', 0)
    ∧ ∃ vst' res,
        Verification.verifyCredentialDetailed 3 1000 0 reg' ledger'
          Verification.constructor = Ok (vst', res)
        ∧ Verification.isValid res = true
        ∧ Verification.exists_ res = true
        ∧ Verification.revoked res = false
        ∧ Verification.issuer res = 5
        ∧ Verification.recipient res = 7
        ∧ Verification.credentialType res = "Degree"
        ∧ Verification.institutionName res = "Uni".
Proof.
  destruct (Ledger.issueCredential 5 1000 7 "Degree" "Uni" 2000 "QmCred"
              "ipfs://QmCred" Scenario.registry Scenario.ledgerEmpty)
    as [[[reg' ledger'] tokenId]| |] eqn:E; try (vm_compute in E; discriminate).
  assert (tokenId = 0) as ->.
  { apply issueCredential_result in E as [-> _]. reflexivity. }
  exists reg', ledger'. split; [reflexivity|].
  destruct (issue_then_verify_roundtrip 5 1000 7 "Degree" "Uni" 2000 "QmCred"
              "ipfs://QmCred" Scenario.registry reg' Scenario.ledgerEmpty ledger' 0
              3 1000 Verification.constructor E)
    as (vst' & res & Hres & Hv & Hx & Hr & _ & Hi & Hrc & Hct & Hn & _);
    [right; lia | vm_compute; reflexivity ..|].
  exists vst', res. done.
Defined.

(** ** The onboarding workflow *)

Section OnboardingFacts.
Import Onboarding.

Lemma bind_returned {A B} (m : M A) (f : A → M B) log a :
  m = (log, Returned a) → m ≫= f = ((log ++ fst (f a))%list, snd (f a)).
Proof. intros ->. reflexivity. Qed.

Lemma bind_threw {A B} (m : M A) (f : A → M B) log e :
  m = (log, Threw e) → m ≫= f = (log, Threw e).
Proof. intros ->. reflexivity. Qed.

(** The wait gives up exactly when no tick saw a deep enough receipt. *)
Lemma wait_none_iff confirmations polls :
  waitForTransactionWithTimeout confirmations polls = None
  ↔ ∀ receipt currentBlock,
      PollReceipt receipt currentBlock ∈ polls →
      currentBlock - blockNumber receipt < confirmations.
Proof.
  induction polls as [|p polls IH]; cbn.
  - split; [|done]. intros _ r c Hin. by apply elem_of_nil in Hin.
  - destruct p as [| |r c].
    + rewrite IH. split; intros H r' c' Hin.
      * apply elem_of_cons in Hin as [Hin|Hin]; [discriminate|]. by apply H.
      * apply H. by right.
    + rewrite IH. split; intros H r' c' Hin.
      * apply elem_of_cons in Hin as [Hin|Hin]; [discriminate|]. by apply H.
      * apply H. by right.
    + destruct (c - blockNumber r >=? confirmations) eqn:E.
      * split; [discriminate|]. intros H.
        specialize (H r c (list_elem_of_here _ _)).
        rewrite Z.geb_leb in E. apply Z.leb_le in E. lia.
      * rewrite IH. rewrite Z.geb_leb in E. apply Z.leb_gt in E.
        split; intros H r' c' Hin.
        -- apply elem_of_cons in Hin as [Hin|Hin]; [|by apply H].
           injection Hin as -> ->. exact E.
        -- apply H. by right.
Qed.

End OnboardingFacts.

(** C3 as stated fails: when it is the registration transaction that does
    not reach two confirmations before the deadline, the workflow answers
    with HTTP 500, no pending status and no transaction hash, and writes
    nothing to the user record. *)
Lemma registration_timeout_is_a_hard_failure :
  Onboarding.registrationTx Scenario.envRegistrationTimeout
    = Onboarding.Returned "0xREG"
  ∧ Onboarding.waitForTransactionWithTimeout 2
      (Onboarding.registrationPolls Scenario.envRegistrationTimeout) = None
  ∧ Onboarding.registerUserOnBlockchain Scenario.institutionUser None
      Scenario.envRegistrationTimeout
    = ([Onboarding.SubmitRegisterInstitution "0xA11CE" "Uni" "" "a@uni.example" ""
          Scenario.gas],
       Onboarding.mkResponse 500
         (Onboarding.ErrorBody "Failed to register on blockchain"
            (Some "Registration transaction timed out - please check transaction status manually")))
  ∧ Onboarding.pendingWith "0xREG"
      (snd (Onboarding.registerUserOnBlockchain Scenario.institutionUser None
              Scenario.envRegistrationTimeout)) = false.
Proof. split_and!; vm_compute; reflexivity. Qed.

(** C3, amended. When the verification transaction the workflow
    submitted does not reach the required confirmation depth before the
    deadline, the workflow does not hang: if the write of the pending
    status to the user record returns, it persists
    [verificationStatus = "pending"] and answers with a partial success,
    status "verification_pending", carrying the verification transaction
    hash; if that write throws, it answers with an HTTP 500 error and
    nothing is persisted. When it is the registration transaction that
    does not reach the depth, the workflow ends with an HTTP 500 error
    response too. *)
Theorem onboarding_confirmation_timeouts :
  ∀ (user : Onboarding.User) (website_ : option string) (env : Onboarding.Env),
    Onboarding.allowedUserType (Onboarding.userType user) = true →
    Onboarding.isAuthorizedIssuerCall env = Onboarding.Returned false →
    (∀ prelog reg vgas vh,
       Onboarding.registrationPhase user website_ env
         = (prelog, Onboarding.Returned reg) →
       Onboarding.verificationGas env = Onboarding.Returned vgas →
       Onboarding.verificationTx env = Onboarding.Returned vh →
       (∀ receipt currentBlock,
          Onboarding.PollReceipt receipt currentBlock
            ∈ Onboarding.verificationPolls env →
          currentBlock - Onboarding.blockNumber receipt < 2) →
       Onboarding.userUpdate env = Onboarding.Returned tt →
       Onboarding.registerUserOnBlockchain user website_ env
       = ((prelog ++
           [ Onboarding.SubmitVerifyInstitution (Onboarding.walletAddress user) vgas;
             Onboarding.UserUpdate (Onboarding.userId user)
               (Onboarding.mkFields true
                  (Onboarding.orElse (fst <$> reg) "Already registered") vh
                  ((λ x, Onboarding.blockNumber (snd x)) <$> reg) None "pending") ])%list,
          Onboarding.mkResponse 200
            (Onboarding.PendingBody true
               "Registration completed and verification transaction submitted"
               "verification_pending"
               ((λ x, Onboarding.txInfo (fst x) (Some (snd x))) <$> reg)
               vh "pending"))
       ∧ Onboarding.pendingWith vh
           (snd (Onboarding.registerUserOnBlockchain user website_ env)) = true)
    ∧ (∀ prelog reg vgas vh e,
         Onboarding.registrationPhase user website_ env
           = (prelog, Onboarding.Returned reg) →
         Onboarding.verificationGas env = Onboarding.Returned vgas →
         Onboarding.verificationTx env = Onboarding.Returned vh →
         (∀ receipt currentBlock,
            Onboarding.PollReceipt receipt currentBlock
              ∈ Onboarding.verificationPolls env →
            currentBlock - Onboarding.blockNumber receipt < 2) →
         Onboarding.userUpdate env = Onboarding.Threw e →
         Onboarding.registerUserOnBlockchain user website_ env
         = ((prelog ++
             [ Onboarding.SubmitVerifyInstitution (Onboarding.walletAddress user)
                 vgas ])%list,
            Onboarding.mkResponse 500
              (Onboarding.ErrorBody "Failed to register on blockchain" (Some e))))
    ∧ (∀ rgas rh,
         Onboarding.isRegisteredOnChain env = false →
         Onboarding.registrationGas env = Onboarding.Returned rgas →
         Onboarding.registrationTx env = Onboarding.Returned rh →
         (∀ receipt currentBlock,
            Onboarding.PollReceipt receipt currentBlock
              ∈ Onboarding.registrationPolls env →
            currentBlock - Onboarding.blockNumber receipt < 2) →
         Onboarding.registerUserOnBlockchain user website_ env
         = ([ Onboarding.SubmitRegisterInstitution (Onboarding.walletAddress user)
                (Onboarding.userName user) (Onboarding.orElse website_ "")
                (Onboarding.userEmail user) "" rgas ],
            Onboarding.mkResponse 500
              (Onboarding.ErrorBody "Failed to register on blockchain"
                 (Some "Registration transaction timed out - please check transaction status manually")))).
Proof.
  intros user website_ env Hallowed Hauth. split; [|split].
  - intros prelog reg vgas vh Hreg Hgas Htx Hwait Hupd.
    apply wait_none_iff in Hwait.
    assert (Onboarding.registerUserOnBlockchain user website_ env
            = ((prelog ++
                [ Onboarding.SubmitVerifyInstitution (Onboarding.walletAddress user) vgas;
                  Onboarding.UserUpdate (Onboarding.userId user)
                    (Onboarding.mkFields true
                       (Onboarding.orElse (fst <$> reg) "Already registered") vh
                       ((λ x, Onboarding.blockNumber (snd x)) <$> reg) None "pending") ])%list,
               Onboarding.mkResponse 200
                 (Onboarding.PendingBody true
                    "Registration completed and verification transaction submitted"
                    "verification_pending"
                    ((λ x, Onboarding.txInfo (fst x) (Some (snd x))) <$> reg)
                    vh "pending"))) as Heq.
    { unfold Onboarding.registerUserOnBlockchain, Onboarding.workflow.
      rewrite Hallowed, Hauth. cbn [negb].
      unfold Onboarding.await at 1.
      rewrite (bind_returned _ _ [] false eq_refl). cbn [app].
      rewrite Hreg, Hgas, Htx, Hwait, Hupd. reflexivity. }
    split; [exact Heq|]. rewrite Heq. cbn.
    rewrite String.eqb_refl. reflexivity.
  - intros prelog reg vgas vh e Hreg Hgas Htx Hwait Hupd.
    apply wait_none_iff in Hwait.
    unfold Onboarding.registerUserOnBlockchain, Onboarding.workflow.
    rewrite Hallowed, Hauth. cbn [negb].
    unfold Onboarding.await at 1.
    rewrite (bind_returned _ _ [] false eq_refl). cbn [app].
    rewrite Hreg, Hgas, Htx, Hwait, Hupd. reflexivity.
  - intros rgas rh Hnot Hgas Htx Hwait. apply wait_none_iff in Hwait.
    unfold Onboarding.registerUserOnBlockchain, Onboarding.workflow.
    rewrite Hallowed, Hauth. cbn [negb].
    unfold Onboarding.registrationPhase, Onboarding.registrationStep.
    rewrite Hnot, Hgas, Htx, Hwait. reflexivity.
Qed.

Lemma onboarding_confirmation_timeouts_witness :
  Onboarding.waitForTransactionWithTimeout 2
    (Onboarding.verificationPolls Scenario.envVerificationTimeout) = None
  ∧ Onboarding.pendingWith "0xVER"
      (snd (Onboarding.registerUserOnBlockchain Scenario.institutionUser (Some "w")
              Scenario.envVerificationTimeout)) = true
  ∧ Onboarding.registerUserOnBlockchain Scenario.institutionUser (Some "w")
      Scenario.envVerificationTimeoutStoreDown
    = ([ Onboarding.SubmitRegisterInstitution "0xA11CE" "Uni" "w" "a@uni.example" ""
           Scenario.gas;
         Onboarding.SubmitVerifyInstitution "0xA11CE" Scenario.gas ],
       Onboarding.mkResponse 500
         (Onboarding.ErrorBody "Failed to register on blockchain"
            (Some "store unreachable")))
  ∧ Onboarding.statusCode
      (snd (Onboarding.registerUserOnBlockchain Scenario.institutionUser None
              Scenario.envRegistrationTimeout)) = 500.
Proof.
  assert (Onboarding.waitForTransactionWithTimeout 2
            (Onboarding.verificationPolls Scenario.envVerificationTimeout) = None)
    as Hwait by (vm_compute; reflexivity).
  split; [exact Hwait|]. split; [|split].
  - destruct (onboarding_confirmation_timeouts Scenario.institutionUser (Some "w")
                Scenario.envVerificationTimeout eq_refl eq_refl) as [Hver _].
    apply (Hver
             [Onboarding.SubmitRegisterInstitution "0xA11CE" "Uni" "w"
                "a@uni.example" "" Scenario.gas]
             (Some ("0xREG", Onboarding.mkReceipt 10 (Some "21000")))
             Scenario.gas "0xVER");
      [vm_compute; reflexivity | reflexivity | reflexivity
       | apply wait_none_iff; exact Hwait | reflexivity].
  - destruct (onboarding_confirmation_timeouts Scenario.institutionUser (Some "w")
                Scenario.envVerificationTimeoutStoreDown eq_refl eq_refl)
      as (_ & Hdown & _).
    apply (Hdown
             [Onboarding.SubmitRegisterInstitution "0xA11CE" "Uni" "w"
                "a@uni.example" "" Scenario.gas]
             (Some ("0xREG", Onboarding.mkReceipt 10 (Some "21000")))
             Scenario.gas "0xVER" "store unreachable");
      [vm_compute; reflexivity | reflexivity | reflexivity
       | apply wait_none_iff; vm_compute; reflexivity | reflexivity].
  - destruct (onboarding_confirmation_timeouts Scenario.institutionUser None
                Scenario.envRegistrationTimeout eq_refl eq_refl) as (_ & _ & Hreg).
    rewrite (Hreg Scenario.gas "0xREG");
      [reflexivity | vm_compute; reflexivity | reflexivity | reflexivity
       | apply wait_none_iff; vm_compute; reflexivity].
Defined.




(** * Further properties of the contracts and the controller *)

(** ** Registry: invariants of reachable states *)

(** Runs [exec] apart into the ten calls, each reduced to the state it
    returns. *)
Ltac registry_cases H :=
  unfold Registry.exec in H;
  match type of H with
  | context [Registry.call ?tx] => destruct (Registry.call tx) eqn:Hcall
  end;
  [ unfold Registry.registerInstitution, Registry.onlyAdmin in H
  | unfold Registry.verifyInstitution, Registry.onlyAdmin in H
  | unfold Registry.revokeInstitution, Registry.onlyAdmin in H
  | unfold Registry.updateInstitutionInfo, Registry.onlyAdmin in H
  | unfold Registry.updateInstitutionDocuments, Registry.onlyAdmin in H
  | unfold Registry.addAdmin, Registry.onlyOwner in H
  | unfold Registry.removeAdmin, Registry.onlyOwner in H
  | unfold Registry.incrementCredentialCount, checked_inc in H
  | unfold Registry.transferOwnership, Registry.onlyOwner in H
  | unfold Registry.renounceOwnership, Registry.onlyOwner in H ];
  repeat case_require_in H;
  try (match type of H with
       | context [if ?c then _ else _] =>
           destruct c eqn:Hlt; cbn [mbind result_bind] in H; try discriminate H
       end);
  injection H as <-.

Section RegistryInvariants.
Import Registry.

Lemma reachable_ind (P : State → Prop) :
  (∀ deployer, P (constructor deployer)) →
  (∀ tx st st', P st → exec tx st = Ok st' → P st') →
  ∀ st, reachable st → P st.
Proof.
  intros Hinit Hstep st (d & txs & ->).
  generalize (Hinit d). generalize (constructor d).
  induction txs as [|tx txs IH]; intros st0 H0; [exact H0|].
  rewrite run_cons. apply IH. unfold step.
  destruct (exec tx st0) eqn:E; cbn; try exact H0.
  eapply Hstep; eauto.
Qed.

Lemma firstIndex_none a l : ∀ k, firstIndex a l k = None ↔ a ∉ l.
Proof.
  induction l as [|x l IH]; intros k; cbn.
  - split; [intros _ H; by apply elem_of_nil in H | done].
  - destruct (x =? a) eqn:E.
    + apply Z.eqb_eq in E as ->. split; [discriminate|].
      intros H. exfalso. apply H. left.
    + apply Z.eqb_neq in E. rewrite IH. rewrite elem_of_cons. split.
      * intros Hn [Heq|Hin]; [congruence|tauto].
      * intros Hn Hin. apply Hn. by right.
Qed.

Lemma firstIndex_some a l : ∀ k i,
  firstIndex a l k = Some i →
  ∃ l1 l2, l = (l1 ++ a :: l2)%list ∧ (a ∉ l1) ∧ i = (k + length l1)%nat.
Proof.
  induction l as [|x l IH]; intros k i H; cbn in H; [discriminate|].
  destruct (x =? a) eqn:E.
  - apply Z.eqb_eq in E as ->. injection H as <-.
    exists [], l. split; [reflexivity|]. split; [apply not_elem_of_nil|].
    cbn. lia.
  - apply Z.eqb_neq in E. destruct (IH _ _ H) as (l1 & l2 & -> & Hn & ->).
    exists (x :: l1), l2. split; [reflexivity|]. split.
    + rewrite not_elem_of_cons. split; [congruence|exact Hn].
    + cbn. lia.
Qed.

Lemma swapPop_split a l1 l2 :
  a ∉ l1 →
  swapPop a (l1 ++ a :: l2)
  = match reverse l2 with
    | [] => l1
    | z :: r => (l1 ++ z :: reverse r)%list
    end.
Proof.
  intros Hn. unfold swapPop.
  destruct (firstIndex a (l1 ++ a :: l2) 0) as [i|] eqn:E.
  2:{ apply firstIndex_none in E. exfalso. apply E.
      apply elem_of_app. right. left. }
  apply firstIndex_some in E as (m1 & m2 & Heq & Hm & ->).
  assert (m1 = l1) as ->.
  { clear -Heq Hn Hm. revert m1 Heq Hm.
    induction l1 as [|x l1 IH]; intros [|y m1] Heq Hm; cbn in Heq.
    - reflexivity.
    - injection Heq as <- _. exfalso. apply Hm. left.
    - injection Heq as -> _. exfalso. apply Hn. left.
    - injection Heq as <- Heq. f_equal.
      apply not_elem_of_cons in Hn as [_ Hn].
      apply not_elem_of_cons in Hm as [_ Hm]. by apply IH. }
  cbn [Nat.add].
  destruct (reverse l2) as [|z r] eqn:Er.
  - assert (l2 = []) as ->.
    { apply (f_equal reverse) in Er. by rewrite reverse_involutive in Er. }
    rewrite last_last.
    rewrite insert_app_r_alt by lia. rewrite Nat.sub_diag. cbn.
    by rewrite removelast_last.
  - assert (l2 = (reverse r ++ [z])%list) as ->.
    { apply (f_equal reverse) in Er. rewrite reverse_involutive in Er.
      by rewrite Er, reverse_cons. }
    replace (l1 ++ a :: reverse r ++ [z])%list
      with ((l1 ++ a :: reverse r) ++ [z])%list by (by rewrite <- app_assoc).
    rewrite last_last.
    rewrite <- (app_assoc l1 (a :: reverse r) [z]).
    rewrite insert_app_r_alt by lia. rewrite Nat.sub_diag. cbn.
    replace (l1 ++ z :: reverse r ++ [z])%list
      with ((l1 ++ z :: reverse r) ++ [z])%list by (by rewrite <- app_assoc).
    by rewrite removelast_last.
Qed.

Lemma swapPop_absent a l : a ∉ l → swapPop a l = l.
Proof.
  intros H. unfold swapPop.
  by rewrite (proj2 (firstIndex_none a l 0) H).
Qed.

Lemma swapPop_present a l : a ∈ l → a :: swapPop a l ≡ₚ l.
Proof.
  intros H. apply list_elem_of_split_l in H as (l1 & l2 & -> & Hn).
  rewrite swapPop_split by exact Hn.
  destruct (reverse l2) as [|z r] eqn:Er.
  - assert (l2 = []) as ->.
    { apply (f_equal reverse) in Er. by rewrite reverse_involutive in Er. }
    apply Permutation_cons_append.
  - assert (l2 = (reverse r ++ [z])%list) as ->.
    { apply (f_equal reverse) in Er. rewrite reverse_involutive in Er.
      by rewrite Er, reverse_cons. }
    rewrite <- (Permutation_middle l1 (reverse r ++ [z]) a).
    apply Permutation_cons; [reflexivity|].
    apply Permutation_app_head. apply Permutation_cons_append.
Qed.

Lemma swapPop_keeps_others a b l : b ≠ a → b ∈ l → b ∈ swapPop a l.
Proof.
  intros Hne Hin. destruct (decide (a ∈ l)) as [Ha|Ha].
  - rewrite <- (swapPop_present a l Ha) in Hin.
    apply elem_of_cons in Hin as [->|Hin]; [done|exact Hin].
  - by rewrite swapPop_absent.
Qed.

Lemma authorized_listed_step tx st st' :
  (∀ a, isAuthorizedIssuer st a = true → a ∈ issuerList st) →
  exec tx st = Ok st' →
  ∀ a, isAuthorizedIssuer st' a = true → a ∈ issuerList st'.
Proof.
  intros Hinv H a. registry_cases H; try (by apply Hinv).
  - unfold set_issuerList, isAuthorizedIssuer; cbn.
    rewrite lookup_insert. destruct (decide (a0 = a)) as [->|Hne]; intros Ha.
    + apply elem_of_app. right. left.
    + apply elem_of_app. left. by apply Hinv.
  - unfold set_issuerList, isAuthorizedIssuer; cbn.
    rewrite lookup_insert. destruct (decide (a0 = a)) as [->|Hne]; intros Ha.
    + discriminate.
    + apply swapPop_keeps_others; [congruence|]. by apply Hinv.
Qed.

Lemma verified_authorized_step tx st st' :
  (∀ a, verified (institutionAt st a) = true → isAuthorizedIssuer st a = true) →
  exec tx st = Ok st' →
  ∀ a, verified (institutionAt st' a) = true → isAuthorizedIssuer st' a = true.
Proof.
  intros Hinv H a. registry_cases H; try (by apply Hinv).
  - rewrite institutionAt_set_institution, isAuthorizedIssuer_set_institution.
    destruct (decide (a0 = a)); [discriminate|]. by apply Hinv.
  - unfold set_issuerList, set_authorized, isAuthorizedIssuer, institutionAt; cbn.
    rewrite !lookup_insert. destruct (decide (a0 = a)); [done|]. by apply Hinv.
  - unfold set_issuerList, set_authorized, isAuthorizedIssuer, institutionAt; cbn.
    rewrite !lookup_insert. destruct (decide (a0 = a)); [discriminate|].
    by apply Hinv.
  - rewrite institutionAt_set_institution, isAuthorizedIssuer_set_institution.
    destruct (decide (a0 = a)) as [->|]; by apply Hinv.
  - rewrite institutionAt_set_institution, isAuthorizedIssuer_set_institution.
    destruct (decide (a0 = a)) as [->|]; by apply Hinv.
  - rewrite institutionAt_set_institution, isAuthorizedIssuer_set_institution.
    destruct (decide (issuer = a)) as [->|]; by apply Hinv.
Qed.

End RegistryInvariants.

(** X1. In every reachable registry state an authorized issuer appears in
    the issuer enumeration [getAllIssuers]. *)
Theorem authorized_issuers_are_listed :
  ∀ (st : Registry.State) (a : Z),
    Registry.reachable st →
    Registry.isAuthorizedIssuer st a = true →
    a ∈ Registry.getAllIssuers st.
Proof.
  intros st a Hreach. revert a.
  apply (reachable_ind
           (λ st, ∀ a, Registry.isAuthorizedIssuer st a = true
                       → a ∈ Registry.issuerList st)); [| |exact Hreach].
  - intros d a H. discriminate.
  - intros tx s s' Hinv H. by apply (authorized_listed_step tx s s').
Qed.

Lemma authorized_issuers_are_listed_witness :
  Registry.reachable Scenario.registry
  ∧ Registry.isAuthorizedIssuer Scenario.registry 5 = true
  ∧ 5 ∈ Registry.getAllIssuers Scenario.registry.
Proof.
  assert (Registry.reachable Scenario.registry) as Hreach
    by (eexists _, _; reflexivity).
  split; [exact Hreach|]. split; [vm_compute; reflexivity|].
  apply (authorized_issuers_are_listed Scenario.registry 5 Hreach).
  vm_compute. reflexivity.
Defined.

(** X2. In every reachable registry state an institution whose record
    says [verified] is an authorized issuer. *)
Theorem verified_implies_authorized :
  ∀ (st : Registry.State) (a : Z),
    Registry.reachable st →
    Registry.verified (Registry.getInstitution st a) = true →
    Registry.isAuthorizedIssuer st a = true.
Proof.
  intros st a Hreach. revert a.
  apply (reachable_ind
           (λ st, ∀ a, Registry.verified (Registry.institutionAt st a) = true
                       → Registry.isAuthorizedIssuer st a = true));
    [| |exact Hreach].
  - intros d a H. discriminate.
  - intros tx s s' Hinv H. by apply (verified_authorized_step tx s s').
Qed.

Lemma verified_implies_authorized_witness :
  Registry.reachable Scenario.registryCounted
  ∧ Registry.verified (Registry.getInstitution Scenario.registryCounted 5) = true
  ∧ Registry.isAuthorizedIssuer Scenario.registryCounted 5 = true.
Proof.
  assert (Registry.reachable Scenario.registryCounted) as Hreach
    by (eexists _, _; reflexivity).
  split; [exact Hreach|]. split; [vm_compute; reflexivity|].
  apply (verified_implies_authorized Scenario.registryCounted 5 Hreach).
  vm_compute. reflexivity.
Defined.

(** X3. A returning [revokeInstitution(a)] on a reachable state removes
    the first entry [a] of the issuer list by swap-with-last-and-pop: the
    last entry of the list takes the place of that entry and the list
    loses its last slot, so the order of the entries after [a] is not
    kept. The other entries stay (as a multiset), the count drops by
    one, [a] is no longer authorized and its record is no longer
    verified. *)
Theorem revokeInstitution_removes_one_entry :
  ∀ (st st' : Registry.State) (sender a : Z),
    Registry.reachable st →
    Registry.revokeInstitution sender a st = Ok st' →
    (∃ before after,
       Registry.getAllIssuers st = (before ++ a :: after)%list
       ∧ (a ∉ before)
       ∧ (after = [] → Registry.getAllIssuers st' = before)
       ∧ (∀ middle z, after = (middle ++ [z])%list →
            Registry.getAllIssuers st' = (before ++ z :: middle)%list))
    ∧ a :: Registry.getAllIssuers st' ≡ₚ Registry.getAllIssuers st
    ∧ Registry.getVerifiedInstitutionsCount st'
      = Registry.getVerifiedInstitutionsCount st - 1
    ∧ Registry.isAuthorizedIssuer st' a = false
    ∧ Registry.verified (Registry.getInstitution st' a) = false.
Proof.
  intros st st' sender a Hreach H.
  unfold Registry.revokeInstitution, Registry.onlyAdmin in H.
  repeat case_require_in H. injection H as <-.
  pose proof (authorized_issuers_are_listed st a Hreach Hreq0) as Hin.
  pose proof (swapPop_present a _ Hin) as Hperm.
  unfold Registry.getAllIssuers, Registry.getVerifiedInstitutionsCount,
    Registry.getInstitution in *.
  cbn [Registry.issuerList Registry.set_issuerList Registry.set_institution
       Registry.set_authorized].
  split; [|split; [exact Hperm|split]].
  - apply list_elem_of_split_l in Hin as (before & after & Heq & Hn).
    exists before, after. split; [exact Heq|]. split; [exact Hn|].
    rewrite Heq, (swapPop_split a before after Hn). split.
    + intros ->. reflexivity.
    + intros middle z ->. rewrite reverse_snoc, reverse_involutive. reflexivity.
  - apply Permutation_length in Hperm. cbn in Hperm |- *. lia.
  - unfold Registry.isAuthorizedIssuer, Registry.institutionAt; cbn.
    rewrite !lookup_insert_eq. done.
Qed.

Lemma revokeInstitution_removes_one_entry_witness :
  Registry.reachable Scenario.registryThree
  ∧ Registry.getAllIssuers Scenario.registryThree = [5; 6; 7]
  ∧ ∃ st',
      Registry.revokeInstitution 1 5 Scenario.registryThree = Ok st'
      ∧ Registry.getAllIssuers st' = [7; 6]
      ∧ Registry.isAuthorizedIssuer st' 5 = false.
Proof.
  assert (Registry.reachable Scenario.registryThree) as Hreach
    by (eexists _, _; reflexivity).
  assert (Registry.getAllIssuers Scenario.registryThree = [5; 6; 7]) as Hl
    by (vm_compute; reflexivity).
  split; [exact Hreach|]. split; [exact Hl|].
  destruct (Registry.revokeInstitution 1 5 Scenario.registryThree)
    as [st'| |] eqn:E; try (vm_compute in E; discriminate).
  exists st'. split; [reflexivity|].
  destruct (revokeInstitution_removes_one_entry Scenario.registryThree st' 1 5
              Hreach E) as ((before & after & Heq & Hn & _ & Hswap) & _ & _ & Ha & _).
  split; [|exact Ha].
  rewrite Hl in Heq. destruct before as [|b before].
  - injection Heq as <-. apply (Hswap [6] 7). reflexivity.
  - injection Heq as <- _. exfalso. apply Hn. left.
Defined.

(** X4. A caller that is neither an admin nor the owner is turned away
    by every gated function of the registry: [registerInstitution],
    [verifyInstitution], [revokeInstitution], [updateInstitutionInfo] and
    [updateInstitutionDocuments] revert with "Not authorized admin";
    [addAdmin], [removeAdmin], [transferOwnership] and
    [renounceOwnership] revert with "Ownable: caller is not the owner". *)
Theorem non_admin_calls_revert :
  ∀ (st : Registry.State) (sender : Z),
    Registry.isAdmin st sender = false →
    (∀ now_ a n w e d,
       Registry.registerInstitution sender now_ a n w e d st
       = Revert "Not authorized admin")
    ∧ (∀ a, Registry.verifyInstitution sender a st = Revert "Not authorized admin")
    ∧ (∀ a, Registry.revokeInstitution sender a st = Revert "Not authorized admin")
    ∧ (∀ a n w e,
         Registry.updateInstitutionInfo sender a n w e st
         = Revert "Not authorized admin")
    ∧ (∀ a d,
         Registry.updateInstitutionDocuments sender a d st
         = Revert "Not authorized admin")
    ∧ (∀ a, Registry.addAdmin sender a st
            = Revert "Ownable: caller is not the owner")
    ∧ (∀ a, Registry.removeAdmin sender a st
            = Revert "Ownable: caller is not the owner")
    ∧ (∀ o, Registry.transferOwnership sender o st
            = Revert "Ownable: caller is not the owner")
    ∧ Registry.renounceOwnership sender st
      = Revert "Ownable: caller is not the owner".
Proof.
  intros st sender Hadm.
  assert (Registry.onlyAdmin sender st = Revert "Not authorized admin") as HA.
  { unfold Registry.onlyAdmin. unfold Registry.isAdmin in Hadm. by rewrite Hadm. }
  assert (Registry.onlyOwner sender st
          = Revert "Ownable: caller is not the owner") as HO.
  { unfold Registry.onlyOwner. unfold Registry.isAdmin in Hadm.
    apply orb_false_iff in Hadm as [_ Hne].
    rewrite Z.eqb_sym, Hne. reflexivity. }
  unfold Registry.registerInstitution, Registry.verifyInstitution,
    Registry.revokeInstitution, Registry.updateInstitutionInfo,
    Registry.updateInstitutionDocuments, Registry.addAdmin,
    Registry.removeAdmin, Registry.transferOwnership,
    Registry.renounceOwnership.
  rewrite HA, HO. split_and!; intros; reflexivity.
Qed.

Lemma non_admin_calls_revert_witness :
  Registry.isAdmin Scenario.registry 5 = false
  ∧ Registry.registerInstitution 5 300 6 "College" "c" "c@c" "Qm2" Scenario.registry
    = Revert "Not authorized admin"
  ∧ Registry.verifyInstitution 5 6 Scenario.registry = Revert "Not authorized admin"
  ∧ Registry.addAdmin 5 5 Scenario.registry
    = Revert "Ownable: caller is not the owner".
Proof.
  assert (Registry.isAdmin Scenario.registry 5 = false) as Hadm
    by (vm_compute; reflexivity).
  destruct (non_admin_calls_revert Scenario.registry 5 Hadm)
    as (Hreg & Hver & _ & _ & _ & Hadd & _).
  split; [exact Hadm|]. split; [apply Hreg|]. split; [apply Hver | apply Hadd].
Defined.

(** X5. Onboarding an institution in two steps: an admin's
    [registerInstitution] for a fresh, non-zero address with a non-empty
    name creates an unverified record and leaves the address as
    unauthorized as it was; the admin's [verifyInstitution] that follows
    makes it an authorized issuer, marks the record verified and appends
    the address to the issuer list. *)
Theorem register_then_verify :
  ∀ (st : Registry.State) (admin now_ a : Z) (n w e d : string),
    Registry.isAdmin st admin = true →
    a ≠ 0 →
    nonempty n = true →
    Registry.name (Registry.getInstitution st a) = "" →
    ∃ st1 st2,
      Registry.registerInstitution admin now_ a n w e d st = Ok st1
      ∧ Registry.getInstitution st1 a = Registry.mkInstitution n w e a false now_ 0 d
      ∧ Registry.isAuthorizedIssuer st1 a = Registry.isAuthorizedIssuer st a
      ∧ Registry.verifyInstitution admin a st1 = Ok st2
      ∧ Registry.getInstitution st2 a = Registry.mkInstitution n w e a true now_ 0 d
      ∧ Registry.isAuthorizedIssuer st2 a = true
      ∧ Registry.getAllIssuers st2 = (Registry.getAllIssuers st ++ [a])%list.
Proof.
  intros st admin now_ a n w e d Hadm Hnz Hn Hfresh.
  unfold Registry.getInstitution in *.
  apply Z.eqb_neq in Hnz.
  eexists _, _. split_and!.
  - unfold Registry.registerInstitution.
    rewrite (isAdmin_onlyAdmin _ _ Hadm). cbn [mbind result_bind].
    rewrite Hnz, Hn, Hfresh. reflexivity.
  - rewrite institutionAt_set_institution.
    destruct (decide (a = a)); [reflexivity|done].
  - reflexivity.
  - unfold Registry.verifyInstitution.
    rewrite isAdmin_onlyAdmin by exact Hadm. cbn [mbind result_bind].
    rewrite institutionAt_set_institution.
    destruct (decide (a = a)); [|done]. cbn [Registry.name Registry.verified].
    rewrite Hn. reflexivity.
  - unfold Registry.institutionAt; cbn. rewrite !lookup_insert_eq. reflexivity.
  - unfold Registry.isAuthorizedIssuer; cbn. by rewrite lookup_insert_eq.
  - reflexivity.
Qed.

Lemma register_then_verify_witness :
  ∃ st1 st2,
    Registry.registerInstitution 1 500 6 "College" "c.example" "c@c.example" "Qm2"
      Scenario.registry = Ok st1
    ∧ Registry.isAuthorizedIssuer st1 6 = false
    ∧ Registry.verifyInstitution 1 6 st1 = Ok st2
    ∧ Registry.isAuthorizedIssuer st2 6 = true
    ∧ Registry.getAllIssuers st2 = [5; 6].
Proof.
  destruct (register_then_verify Scenario.registry 1 500 6 "College" "c.example"
              "c@c.example" "Qm2")
    as (st1 & st2 & Hr & _ & Ha1 & Hv & _ & Ha2 & Hl);
    [vm_compute; reflexivity | discriminate | reflexivity | vm_compute; reflexivity |].
  exists st1, st2. split; [exact Hr|]. split; [rewrite Ha1; vm_compute; reflexivity|].
  split; [exact Hv|]. split; [exact Ha2|]. rewrite Hl. vm_compute. reflexivity.
Defined.

(** X6. Verification and revocation of an institution do not repeat:
    after a returning [verifyInstitution(a)] an admin's second
    [verifyInstitution(a)] reverts with "Already verified", and after a
    returning [revokeInstitution(a)] an admin's second
    [revokeInstitution(a)] reverts with "Institution not authorized". *)
Theorem verify_and_revoke_do_not_repeat :
  ∀ (st st' : Registry.State) (sender admin a : Z),
    Registry.isAdmin st admin = true →
    (Registry.verifyInstitution sender a st = Ok st' →
     Registry.verifyInstitution admin a st' = Revert "Already verified")
    ∧ (Registry.revokeInstitution sender a st = Ok st' →
       Registry.revokeInstitution admin a st' = Revert "Institution not authorized").
Proof.
  intros st st' sender admin a Hadm. split; intros H.
  - unfold Registry.verifyInstitution, Registry.onlyAdmin in H.
    repeat case_require_in H. injection H as <-.
    unfold Registry.verifyInstitution.
    rewrite isAdmin_onlyAdmin by exact Hadm. cbn [mbind result_bind].
    unfold Registry.institutionAt in *; cbn. rewrite !lookup_insert_eq. cbn.
    rewrite Hreq0. reflexivity.
  - unfold Registry.revokeInstitution, Registry.onlyAdmin in H.
    repeat case_require_in H. injection H as <-.
    unfold Registry.revokeInstitution.
    rewrite isAdmin_onlyAdmin by exact Hadm. cbn [mbind result_bind].
    unfold Registry.isAuthorizedIssuer at 1; cbn. rewrite lookup_insert_eq.
    reflexivity.
Qed.

Lemma verify_and_revoke_do_not_repeat_witness :
  Registry.isAdmin Scenario.registry 1 = true
  ∧ ∃ st',
      Registry.revokeInstitution 1 5 Scenario.registry = Ok st'
      ∧ Registry.revokeInstitution 1 5 st' = Revert "Institution not authorized".
Proof.
  assert (Registry.isAdmin Scenario.registry 1 = true) as Hadm
    by (vm_compute; reflexivity).
  split; [exact Hadm|].
  destruct (Registry.revokeInstitution 1 5 Scenario.registry) as [st'| |] eqn:E;
    try (vm_compute in E; discriminate).
  exists st'. split; [reflexivity|].
  apply (verify_and_revoke_do_not_repeat Scenario.registry st' 1 1 5 Hadm). exact E.
Defined.

(** ** Ledger: issuance, batches and token ids *)

Section LedgerIssuance.
Import Ledger.

(** Everything a returning [issueCredential] did. *)
Lemma issueCredential_inv sender now_ r ct n e h u reg st reg' st' id :
  issueCredential sender now_ r ct n e h u reg st = Ok (reg', st', id) →
  id = tokenIdCounter st
  ∧ Registry.isAuthorizedIssuer reg sender = true
  ∧ r ≠ 0
  ∧ _exists st id = false
  ∧ Registry.credentialsIssued (Registry.institutionAt reg sender) < MAX_UINT256
  ∧ tokenIdCounter st' = unchecked_inc (tokenIdCounter st)
  ∧ credentials st'
    = <[id := mkCredential sender r ct n now_ e h false]> (credentials st)
  ∧ userCredentials st'
    = <[r := (userCredentialsAt st r ++ [id])%list]> (userCredentials st)
  ∧ ERC721.owners (erc721 st') = <[id := r]> (ERC721.owners (erc721 st))
  ∧ owner st' = owner st ∧ self st' = self st ∧ registry st' = registry st
  ∧ reg' = Registry.set_institution reg sender
             (Registry.with_credentialsIssued (Registry.institutionAt reg sender)
                (Registry.credentialsIssued (Registry.institutionAt reg sender) + 1)).
Proof.
  unfold issueCredential, onlyAuthorizedIssuer. intros H.
  destruct (Registry.isAuthorizedIssuer reg sender) eqn:Hauth;
    cbn [require mbind result_bind] in H; [|discriminate].
  cbn zeta in H.
  cbn [erc721 push_userCredential set_credential set_counter] in H.
  unfold ERC721._mint in H.
  destruct (r =? 0) eqn:Hr; cbn [negb require mbind result_bind] in H;
    [discriminate|].
  destruct (ERC721._exists (erc721 st) (tokenIdCounter st)) eqn:Hex;
    cbn [negb require mbind result_bind] in H; [discriminate|].
  unfold ERC721._setTokenURI in H.
  destruct (ERC721._exists _ _) eqn:Hex2 in H;
    cbn [require mbind result_bind] in H; [|discriminate].
  unfold Registry.incrementCredentialCount in H. rewrite Hauth in H.
  cbn [require mbind result_bind] in H. unfold checked_inc in H.
  destruct (_ <? MAX_UINT256) eqn:Hlt in H; cbn [mbind result_bind] in H;
    [|discriminate].
  injection H as <- <- <-.
  apply Z.eqb_neq in Hr. apply Z.ltb_lt in Hlt.
  split_and!; try reflexivity; try assumption.
Qed.

Lemma exists_after_issue sender now_ r ct n e h u reg st reg' st' id t :
  issueCredential sender now_ r ct n e h u reg st = Ok (reg', st', id) →
  _exists st' t = if decide (id = t) then true else _exists st t.
Proof.
  intros H. apply issueCredential_inv in H
    as (_ & _ & Hr & _ & _ & _ & _ & _ & Ho & _).
  unfold _exists, ERC721._exists, ERC721._ownerOf. rewrite Ho.
  rewrite lookup_insert. destruct (decide (id = t)); [|reflexivity].
  cbn. apply negb_true_iff, Z.eqb_neq. exact Hr.
Qed.

Lemma unchecked_inc_range x : 0 ≤ unchecked_inc x < 2 ^ 256.
Proof. unfold unchecked_inc. apply Z.mod_pos_bound. lia. Qed.

Lemma issueCredential_sequential sender now_ r ct n e h u reg st reg' st' id :
  issueCredential sender now_ r ct n e h u reg st = Ok (reg', st', id) →
  sequentialIds st → sequentialIds st'.
Proof.
  intros H [Hrange Hseq].
  pose proof (λ t, exists_after_issue _ _ _ _ _ _ _ _ _ _ _ _ _ t H) as Hex.
  apply issueCredential_inv in H
    as (-> & _ & _ & Hfresh & _ & Hc & _).
  split; [rewrite Hc; apply unchecked_inc_range|].
  destruct Hseq as [Hseq|[Hz Hall]].
  2:{ exfalso. rewrite Hz in Hfresh.
      assert (_exists st 0 = true) as Ht by (apply Hall; lia). congruence. }
  rewrite Hc. unfold unchecked_inc.
  destruct (decide (tokenIdCounter st + 1 < 2 ^ 256)) as [Hlt|Hge].
  - left. rewrite Z.mod_small by lia. intros t. rewrite Hex.
    destruct (decide (tokenIdCounter st = t)) as [<-|Hne].
    + split; [lia|done].
    + rewrite Hseq. lia.
  - right. assert (tokenIdCounter st + 1 = 2 ^ 256) as -> by lia.
    split; [apply Z_mod_same_full|]. intros t. rewrite Hex.
    destruct (decide (tokenIdCounter st = t)) as [<-|Hne].
    + split; [lia|done].
    + rewrite Hseq. lia.
Qed.

Lemma issueLoop_sequential sender now_ rs cts n e hs us idxs : ∀ reg st reg' st',
  issueLoop idxs sender now_ rs cts n e hs us (reg, st) = Ok (reg', st') →
  sequentialIds st → sequentialIds st'.
Proof.
  induction idxs as [|i idxs IH]; intros reg st reg' st' H Hs.
  - cbn in H. by injection H as <- <-.
  - cbn [issueLoop] in H.
    destruct (rs !! i), (cts !! i), (hs !! i), (us !! i); try discriminate.
    cbn [fst snd] in H.
    destruct (issueCredential _ _ _ _ _ _ _ _ _ _) as [[[rg1 ls1] id]| |] eqn:E;
      cbn [mbind result_bind fst snd] in H; try discriminate.
    eapply IH; [exact H|]. eapply issueCredential_sequential; eauto.
Qed.

Lemma sameTokens_sequential st st' :
  sameTokens st st' → sequentialIds st → sequentialIds st'.
Proof.
  intros [Hc Hex] [Hrange Hseq]. unfold sequentialIds. rewrite Hc.
  split; [exact Hrange|].
  destruct Hseq as [Hseq|[Hz Hall]]; [left|right; split; [exact Hz|]];
    intros t; rewrite Hex; auto.
Qed.

Lemma exec_sequential tx st st' :
  exec tx st = Ok st' → sequentialIds st → sequentialIds st'.
Proof.
  unfold exec, lift721. intros H Hs. destruct (call tx).
  - destruct (issueCredential _ _ _ _ _ _ _ _ _ _) as [[[rg1 ls1] id]| |] eqn:E;
      cbn [mbind result_bind fst snd] in H; try discriminate.
    injection H as <-. eapply issueCredential_sequential; eauto.
  - unfold batchIssueCredentials, onlyAuthorizedIssuer in H.
    do 4 case_require_in H.
    destruct (issueLoop _ _ _ _ _ _ _ _ _ _) as [[rg1 ls1]| |] eqn:E;
      cbn [mbind result_bind fst snd] in H; try discriminate.
    injection H as <-. eapply issueLoop_sequential; eauto.
  - unfold revokeCredential in H. repeat case_require_in H.
    injection H as <-. by apply (sameTokens_sequential st).
  - destruct (ERC721.approve _ _ _ _) eqn:E;
      cbn [mbind result_bind] in H; try discriminate.
    injection H as <-. apply (sameTokens_sequential st); [|exact Hs].
    split; [reflexivity|]. intros t. apply (approve_exists _ _ _ _ _ t E).
  - destruct (ERC721.setApprovalForAll _ _ _ _) eqn:E;
      cbn [mbind result_bind] in H; try discriminate.
    injection H as <-. apply (sameTokens_sequential st); [|exact Hs].
    split; [reflexivity|]. intros t.
    apply (setApprovalForAll_exists _ _ _ _ _ t E).
  - destruct (ERC721.transferFrom _ _ _ _ _) eqn:E;
      cbn [mbind result_bind] in H; try discriminate.
    injection H as <-. apply (sameTokens_sequential st); [|exact Hs].
    split; [reflexivity|]. intros t. unfold ERC721.transferFrom in E.
    destruct (ERC721._isApprovedOrOwner _ _ _) as [ok| |];
      cbn [mbind result_bind] in E; try discriminate.
    case_require_in E. apply (transfer_exists_eq _ _ _ _ _ t E).
  - destruct (ERC721.safeTransferFrom _ _ _ _ _ _) eqn:E;
      cbn [mbind result_bind] in H; try discriminate.
    injection H as <-. apply (sameTokens_sequential st); [|exact Hs].
    split; [reflexivity|]. intros t. unfold ERC721.safeTransferFrom in E.
    destruct (ERC721._isApprovedOrOwner _ _ _) as [ok| |];
      cbn [mbind result_bind] in E; try discriminate.
    case_require_in E.
    destruct (ERC721._transfer _ _ _ _) as [e1| |] eqn:Et;
      cbn [mbind result_bind] in E; try discriminate.
    case_require_in E. injection E as <-.
    apply (transfer_exists_eq _ _ _ _ _ t Et).
  - unfold updateRegistry, onlyOwner in H. case_require_in H.
    injection H as <-. by apply (sameTokens_sequential st).
  - unfold transferOwnership, onlyOwner in H. repeat case_require_in H.
    injection H as <-. by apply (sameTokens_sequential st).
  - unfold renounceOwnership, onlyOwner in H. case_require_in H.
    injection H as <-. by apply (sameTokens_sequential st).
Qed.

Lemma ledger_reachable_ind (P : State → Prop) :
  (∀ d t r, P (constructor d t r)) →
  (∀ tx st st', P st → exec tx st = Ok st' → P st') →
  ∀ st, reachable st → P st.
Proof.
  intros Hinit Hstep st (d & t & r & txs & ->).
  generalize (Hinit d t r). generalize (constructor d t r).
  induction txs as [|tx txs IH]; intros st0 H0; [exact H0|].
  change (run (tx :: txs) st0) with (run txs (step st0 tx)).
  apply IH. unfold step.
  destruct (exec tx st0) eqn:E; cbn; try exact H0.
  eapply Hstep; eauto.
Qed.

Lemma issueCredential_keeps_record sender now_ r ct n e h u reg st reg' st' id t :
  issueCredential sender now_ r ct n e h u reg st = Ok (reg', st', id) →
  _exists st t = true →
  _exists st' t = true ∧ credentialAt st' t = credentialAt st t.
Proof.
  intros H Ht.
  pose proof (exists_after_issue _ _ _ _ _ _ _ _ _ _ _ _ _ t H) as Hex.
  apply issueCredential_inv in H as (-> & _ & _ & Hfresh & _ & _ & Hc & _).
  assert (tokenIdCounter st ≠ t) as Hne by (intros <-; congruence).
  split.
  - rewrite Hex. destruct (decide (tokenIdCounter st = t)); [done|exact Ht].
  - unfold credentialAt. rewrite Hc. by rewrite lookup_insert_ne.
Qed.

Lemma issueLoop_keeps_record sender now_ rs cts n e hs us t idxs : ∀ reg st reg' st',
  issueLoop idxs sender now_ rs cts n e hs us (reg, st) = Ok (reg', st') →
  _exists st t = true →
  _exists st' t = true ∧ credentialAt st' t = credentialAt st t.
Proof.
  induction idxs as [|i idxs IH]; intros reg st reg' st' H Ht.
  - cbn in H. injection H as <- <-. done.
  - cbn [issueLoop] in H.
    destruct (rs !! i), (cts !! i), (hs !! i), (us !! i); try discriminate.
    cbn [fst snd] in H.
    destruct (issueCredential _ _ _ _ _ _ _ _ _ _) as [[[rg1 ls1] id]| |] eqn:E;
      cbn [mbind result_bind fst snd] in H; try discriminate.
    destruct (issueCredential_keeps_record _ _ _ _ _ _ _ _ _ _ _ _ _ t E Ht)
      as [Ht1 Hc1].
    destruct (IH _ _ _ _ H Ht1) as [Ht2 Hc2]. split; [exact Ht2|congruence].
Qed.

(** The counter does not wrap in front of a further issuance. *)
Lemma no_wrap_before_issue st :
  sequentialIds st → _exists st (tokenIdCounter st) = false →
  ∀ sender now_ r ct n e h u reg reg1 st1 id,
    issueCredential sender now_ r ct n e h u reg st = Ok (reg1, st1, id) →
    _exists st1 (tokenIdCounter st1) = false →
    tokenIdCounter st1 = tokenIdCounter st + 1.
Proof.
  intros [Hrange Hseq] Hfresh sender now_ r ct n e h u reg reg1 st1 id H Hfresh1.
  pose proof (λ t, exists_after_issue _ _ _ _ _ _ _ _ _ _ _ _ _ t H) as Hex.
  apply issueCredential_inv in H as (-> & _ & _ & _ & _ & Hc & _).
  rewrite Hc in *. unfold unchecked_inc in *.
  destruct (decide (tokenIdCounter st + 1 < 2 ^ 256)) as [Hlt|Hge].
  - apply Z.mod_small. lia.
  - exfalso. assert (tokenIdCounter st + 1 = 2 ^ 256) as Heq by lia.
    rewrite Heq, Z_mod_same_full in Hfresh1. rewrite Hex in Hfresh1.
    destruct (decide (tokenIdCounter st = 0)) as [Hz|Hnz]; [done|].
    destruct Hseq as [Hseq|[Hz _]]; [|done].
    assert (_exists st 0 = true) as H0 by (apply Hseq; lia). congruence.
Qed.

Lemma issueLoop_seq sender now_ rs cts n e hs us : ∀ m k reg st reg' st',
  sequentialIds st →
  issueLoop (seq k m) sender now_ rs cts n e hs us (reg, st) = Ok (reg', st') →
  tokenIdCounter st' = (tokenIdCounter st + Z.of_nat m) mod 2 ^ 256
  ∧ Registry.credentialsIssued (Registry.institutionAt reg' sender)
    = Registry.credentialsIssued (Registry.institutionAt reg sender) + Z.of_nat m
  ∧ (0 < m → _exists st (tokenIdCounter st) = false)%nat
  ∧ ∀ j r ct h,
      (j < m)%nat →
      rs !! (k + j)%nat = Some r → cts !! (k + j)%nat = Some ct →
      hs !! (k + j)%nat = Some h →
      _exists st' (tokenIdCounter st + Z.of_nat j) = true
      ∧ credentialAt st' (tokenIdCounter st + Z.of_nat j)
        = mkCredential sender r ct n now_ e h false.
Proof.
  induction m as [|m IH]; intros k reg st reg' st' Hs H.
  - cbn in H. injection H as <- <-. destruct Hs as [Hrange _].
    split_and!.
    + rewrite Z.add_0_r, Z.mod_small; [reflexivity|exact Hrange].
    + lia.
    + lia.
    + intros j r ct h Hj. lia.
  - cbn [seq issueLoop] in H.
    destruct (rs !! k) as [r0|] eqn:Er; [|discriminate].
    destruct (cts !! k) as [ct0|] eqn:Ec; [|discriminate].
    destruct (hs !! k) as [h0|] eqn:Eh; [|discriminate].
    destruct (us !! k) as [u0|] eqn:Eu; [|discriminate].
    cbn [fst snd] in H.
    destruct (issueCredential _ _ _ _ _ _ _ _ _ _) as [[[rg1 ls1] id]| |] eqn:E;
      cbn [mbind result_bind fst snd] in H; try discriminate.
    pose proof (issueCredential_sequential _ _ _ _ _ _ _ _ _ _ _ _ _ E Hs) as Hs1.
    pose proof (λ t, exists_after_issue _ _ _ _ _ _ _ _ _ _ _ _ _ t E) as Hex.
    pose proof (issueCredential_inv _ _ _ _ _ _ _ _ _ _ _ _ _ E)
      as (-> & _ & _ & Hfresh & _ & Hc & Hcred & _ & _ & _ & _ & _ & ->).
    destruct (IH (S k) _ _ _ _ Hs1 H) as (IHc & IHn & IHf & IHr).
    split_and!.
    + rewrite IHc, Hc. unfold unchecked_inc. rewrite Zplus_mod_idemp_l.
      f_equal. lia.
    + rewrite IHn. rewrite institutionAt_set_institution.
      destruct (decide (sender = sender)); [|done]. cbn. lia.
    + intros _. exact Hfresh.
    + intros j r ct h Hj Hr Hct Hh. destruct j as [|j].
      * rewrite Nat.add_0_r in Hr, Hct, Hh. rewrite Z.add_0_r.
        assert (r = r0) as -> by congruence.
        assert (ct = ct0) as -> by congruence.
        assert (h = h0) as -> by congruence.
        assert (_exists ls1 (tokenIdCounter st) = true) as Hex1.
        { rewrite Hex. by destruct (decide (tokenIdCounter st = tokenIdCounter st)). }
        destruct (issueLoop_keeps_record _ _ _ _ _ _ _ _ (tokenIdCounter st)
                    _ _ _ _ _ H Hex1) as [Hx Hk].
        split; [exact Hx|]. rewrite Hk. unfold credentialAt. rewrite Hcred.
        by rewrite lookup_insert_eq.
      * assert (tokenIdCounter ls1 = tokenIdCounter st + 1) as Hnw.
        { eapply (no_wrap_before_issue st Hs Hfresh); [exact E|].
          apply IHf. lia. }
        replace (tokenIdCounter st + Z.of_nat (S j))
          with (tokenIdCounter ls1 + Z.of_nat j) by lia.
        apply IHr; [lia|..].
        -- by replace (S k + j)%nat with (k + S j)%nat by lia.
        -- by replace (S k + j)%nat with (k + S j)%nat by lia.
        -- by replace (S k + j)%nat with (k + S j)%nat by lia.
Qed.

(** A returning transfer made [to] the owner, and [from] was the owner. *)
Lemma transfer_inv from to tokenId e e' :
  ERC721._transfer from to tokenId e = Ok e' →
  ERC721._ownerOf e tokenId = from ∧ from ≠ 0 ∧ to ≠ 0
  ∧ ERC721.owners e' = <[tokenId := to]> (ERC721.owners e).
Proof.
  unfold ERC721._transfer, ERC721.ownerOf. intros H. repeat case_require_in H.
  injection H as <-.
  apply negb_true_iff, Z.eqb_neq in Hreq, Hreq1. apply Z.eqb_eq in Hreq0.
  split_and!; try done. congruence.
Qed.

End LedgerIssuance.

(** X7. [issueCredential] returns exactly when the caller is an
    authorized issuer, the recipient is not the zero address, the next
    token id is unused and the issuer's counter in the registry is not
    at its maximum. *)
Theorem issueCredential_succeeds_iff :
  ∀ (sender now_ r : Z) (ct n : string) (e : Z) (h u : string)
    (reg : Registry.State) (st : Ledger.State),
    is_ok (Ledger.issueCredential sender now_ r ct n e h u reg st) = true
    ↔ Registry.isAuthorizedIssuer reg sender = true
      ∧ r ≠ 0
      ∧ Ledger._exists st (Ledger.getTotalCredentials st) = false
      ∧ Registry.credentialsIssued (Registry.getInstitution reg sender)
        < MAX_UINT256.
Proof.
  intros sender now_ r ct n e h u reg st. split.
  - destruct (Ledger.issueCredential sender now_ r ct n e h u reg st)
      as [[[reg' st'] id]| |] eqn:E; try discriminate.
    intros _. apply issueCredential_inv in E as (-> & Ha & Hr & Hf & Hlt & _).
    done.
  - intros (Ha & Hr & Hf & Hlt).
    destruct (issueCredential_returns sender now_ r ct n e h u reg st Ha Hr Hf Hlt)
      as (reg' & st' & ->). reflexivity.
Qed.

(** X8. What a returning [issueCredential] leaves behind: the token id is
    the old total, the total grows by one (modulo 2^256), the recipient
    owns the token and has it appended to its credential index, the
    indices of other users and the verdicts on other tokens are
    untouched, and the issuer's counter in the registry grew by one. *)
Theorem issueCredential_effects :
  ∀ (sender now_ r : Z) (ct n : string) (e : Z) (h u : string)
    (reg reg' : Registry.State) (st st' : Ledger.State) (id : Z),
    Ledger.issueCredential sender now_ r ct n e h u reg st = Ok (reg', st', id) →
    id = Ledger.getTotalCredentials st
    ∧ Ledger.getTotalCredentials st' = (Ledger.getTotalCredentials st + 1) mod 2 ^ 256
    ∧ Verification.verifyOwnership id r st' = true
    ∧ Verification.verifyIssuer now_ id sender st' = true
    ∧ Ledger.getUserCredentials st' r = (Ledger.getUserCredentials st r ++ [id])%list
    ∧ (∀ user, user ≠ r →
         Ledger.getUserCredentials st' user = Ledger.getUserCredentials st user)
    ∧ (∀ t now', t ≠ id →
         Ledger.verifyCredential now' t st' = Ledger.verifyCredential now' t st)
    ∧ Registry.credentialsIssued (Registry.getInstitution reg' sender)
      = Registry.credentialsIssued (Registry.getInstitution reg sender) + 1.
Proof.
  intros sender now_ r ct n e h u reg reg' st st' id H.
  pose proof (λ t, exists_after_issue _ _ _ _ _ _ _ _ _ _ _ _ _ t H) as Hex.
  pose proof (issueCredential_inv _ _ _ _ _ _ _ _ _ _ _ _ _ H)
    as (-> & _ & Hr & Hfresh & _ & Hc & Hcred & Hu & Ho & _ & _ & _ & ->).
  unfold Ledger.getTotalCredentials, Ledger.getUserCredentials,
    Registry.getInstitution.
  split_and!.
  - reflexivity.
  - exact Hc.
  - unfold Verification.verifyOwnership, ERC721.ownerOf, ERC721._ownerOf.
    rewrite Ho, lookup_insert_eq. cbn.
    apply Z.eqb_neq in Hr. rewrite Hr. cbn. apply Z.eqb_refl.
  - unfold Verification.verifyIssuer, Ledger.verifyCredential.
    rewrite Hex. destruct (decide (_ = _)); [|done].
    cbn [require mbind result_bind]. unfold Ledger.credentialAt.
    rewrite Hcred, lookup_insert_eq. cbn. apply Z.eqb_refl.
  - unfold Ledger.userCredentialsAt. rewrite Hu, lookup_insert_eq. reflexivity.
  - intros user Hne. unfold Ledger.userCredentialsAt. rewrite Hu.
    by rewrite lookup_insert_ne.
  - intros t now' Hne. unfold Ledger.verifyCredential. rewrite Hex.
    destruct (decide (Ledger.tokenIdCounter st = t)); [congruence|].
    unfold Ledger.credentialAt. rewrite Hcred.
    by rewrite lookup_insert_ne.
  - rewrite institutionAt_set_institution.
    destruct (decide (sender = sender)); [|done]. reflexivity.
Qed.

Lemma issueCredential_effects_witness :
  ∃ reg' st',
    Ledger.issueCredential 5 1000 7 "Degree" "Uni" 2000 "QmCred" "ipfs://QmCred"
      Scenario.registry Scenario.ledgerEmpty = Ok (reg', st', 0)
    ∧ Ledger.getTotalCredentials st' = 1
    ∧ Verification.verifyOwnership 0 7 st' = true
    ∧ Ledger.getUserCredentials st' 7 = [0]
    ∧ Registry.credentialsIssued (Registry.getInstitution reg' 5) = 1.
Proof.
  destruct (Ledger.issueCredential 5 1000 7 "Degree" "Uni" 2000 "QmCred"
              "ipfs://QmCred" Scenario.registry Scenario.ledgerEmpty)
    as [[[reg' st'] id]| |] eqn:E; try (vm_compute in E; discriminate).
  destruct (issueCredential_effects _ _ _ _ _ _ _ _ _ _ _ _ _ E)
    as (-> & Hc & Ho & _ & Hu & _ & _ & Hn).
  exists reg', st'. split; [reflexivity|]. split; [rewrite Hc; reflexivity|].
  split; [exact Ho|]. split; [rewrite Hu; reflexivity|]. rewrite Hn. reflexivity.
Defined.

(** X9. [batchIssueCredentials] checks its caller and its array lengths
    before it issues anything: a caller that is not an authorized issuer
    gets "Not authorized issuer", and an authorized caller whose arrays
    of types, hashes or URIs differ in length from the recipients gets
    "Array length mismatch". *)
Theorem batchIssueCredentials_rejects :
  ∀ (sender now_ : Z) (rs : list Z) (cts : list string) (n : string) (e : Z)
    (hs us : list string) (reg : Registry.State) (st : Ledger.State),
    (Registry.isAuthorizedIssuer reg sender = false →
     Ledger.batchIssueCredentials sender now_ rs cts n e hs us reg st
     = Revert "Not authorized issuer")
    ∧ (Registry.isAuthorizedIssuer reg sender = true →
       length rs ≠ length cts ∨ length rs ≠ length hs ∨ length rs ≠ length us →
       Ledger.batchIssueCredentials sender now_ rs cts n e hs us reg st
       = Revert "Array length mismatch").
Proof.
  intros sender now_ rs cts n e hs us reg st.
  unfold Ledger.batchIssueCredentials, Ledger.onlyAuthorizedIssuer. split.
  - intros ->. reflexivity.
  - intros -> Hlen. cbn [require mbind result_bind].
    destruct (length rs =? length cts)%nat eqn:E1; [|reflexivity].
    destruct (length rs =? length hs)%nat eqn:E2; [|reflexivity].
    destruct (length rs =? length us)%nat eqn:E3; [|reflexivity].
    apply Nat.eqb_eq in E1, E2, E3. exfalso. destruct Hlen as [H|[H|H]]; lia.
Qed.

Lemma batchIssueCredentials_rejects_witness :
  Ledger.batchIssueCredentials 9 1000 [7; 8] ["Degree"; "Course"] "Uni" 0
    ["Qa"; "Qb"] ["ua"; "ub"] Scenario.registry Scenario.ledgerEmpty
  = Revert "Not authorized issuer"
  ∧ Ledger.batchIssueCredentials 5 1000 [7; 8] ["Degree"] "Uni" 0
      ["Qa"; "Qb"] ["ua"; "ub"] Scenario.registry Scenario.ledgerEmpty
    = Revert "Array length mismatch".
Proof.
  split.
  - apply (batchIssueCredentials_rejects 9 1000 [7; 8] ["Degree"; "Course"] "Uni" 0
             ["Qa"; "Qb"] ["ua"; "ub"] Scenario.registry Scenario.ledgerEmpty).
    vm_compute. reflexivity.
  - apply (batchIssueCredentials_rejects 5 1000 [7; 8] ["Degree"] "Uni" 0
             ["Qa"; "Qb"] ["ua"; "ub"] Scenario.registry Scenario.ledgerEmpty).
    + vm_compute. reflexivity.
    + left. cbn. lia.
Defined.

(** X10. In every reachable ledger state token ids are sequential: the
    existing tokens are exactly those with an id below
    [getTotalCredentials], unless the counter has wrapped around to 0
    after 2^256 issuances, in which case every id exists. *)
Theorem token_ids_are_sequential :
  ∀ (st : Ledger.State),
    Ledger.reachable st →
    0 ≤ Ledger.getTotalCredentials st < 2 ^ 256
    ∧ ((∀ t, Ledger._exists st t = true ↔ 0 ≤ t < Ledger.getTotalCredentials st)
       ∨ (Ledger.getTotalCredentials st = 0
          ∧ ∀ t, Ledger._exists st t = true ↔ 0 ≤ t < 2 ^ 256)).
Proof.
  intros st Hreach.
  apply (ledger_reachable_ind Ledger.sequentialIds); [| |exact Hreach].
  - intros d t r. split; [cbn; lia|]. left. intros t0.
    rewrite constructor_has_no_token. cbn. split; [discriminate|lia].
  - intros tx s s' Hs H. eapply exec_sequential; eauto.
Qed.

Lemma token_ids_are_sequential_witness :
  Ledger.reachable Scenario.ledger
  ∧ Ledger.getTotalCredentials Scenario.ledger = 1
  ∧ Ledger._exists Scenario.ledger 0 = true
  ∧ Ledger._exists Scenario.ledger 1 = false.
Proof.
  assert (Ledger.reachable Scenario.ledger) as Hreach
    by (eexists _, _, _, _; reflexivity).
  assert (Ledger.getTotalCredentials Scenario.ledger = 1) as Hc
    by (vm_compute; reflexivity).
  split; [exact Hreach|]. split; [exact Hc|].
  destruct (token_ids_are_sequential Scenario.ledger Hreach) as [_ [Hseq|[Hz _]]];
    [|rewrite Hc in Hz; discriminate].
  split.
  - apply Hseq. rewrite Hc. lia.
  - apply not_true_is_false. intros H. apply Hseq in H. rewrite Hc in H. lia.
Defined.

(** X11. A returning [batchIssueCredentials] on a reachable ledger issued
    one credential per entry, in order: entry [i] got token id
    [total + i] with the caller as issuer and the entry's recipient,
    type and hash; the total grew by the number of entries (modulo
    2^256) and so did the issuer's counter in the registry. *)
Theorem batchIssueCredentials_issues_in_order :
  ∀ (sender now_ : Z) (rs : list Z) (cts : list string) (n : string) (e : Z)
    (hs us : list string) (reg reg' : Registry.State) (st st' : Ledger.State),
    Ledger.reachable st →
    Ledger.batchIssueCredentials sender now_ rs cts n e hs us reg st
      = Ok (reg', st') →
    Ledger.getTotalCredentials st'
      = (Ledger.getTotalCredentials st + Z.of_nat (length rs)) mod 2 ^ 256
    ∧ Registry.credentialsIssued (Registry.getInstitution reg' sender)
      = Registry.credentialsIssued (Registry.getInstitution reg sender)
        + Z.of_nat (length rs)
    ∧ ∀ (i : nat) r ct h,
        rs !! i = Some r → cts !! i = Some ct → hs !! i = Some h →
        Ledger.getCredential (Ledger.getTotalCredentials st + Z.of_nat i) st'
        = Ok (Ledger.mkCredential sender r ct n now_ e h false).
Proof.
  intros sender now_ rs cts n e hs us reg reg' st st' Hreach H.
  destruct (token_ids_are_sequential st Hreach) as [Hrange Hseq].
  unfold Ledger.batchIssueCredentials, Ledger.onlyAuthorizedIssuer in H.
  do 4 case_require_in H.
  destruct (issueLoop_seq sender now_ rs cts n e hs us (length rs) 0%nat
              reg st reg' st' (conj Hrange Hseq) H) as (Hc & Hn & _ & Hrec).
  unfold Ledger.getTotalCredentials, Registry.getInstitution.
  split; [exact Hc|]. split; [exact Hn|].
  intros i r ct h Hr Hct Hh.
  destruct (Hrec i r ct h) as [Hex Hcred]; try assumption.
  - by apply lookup_lt_Some in Hr.
  - unfold Ledger.getCredential. rewrite Hex, Hcred. reflexivity.
Qed.

Lemma batchIssueCredentials_issues_in_order_witness :
  Ledger.reachable Scenario.ledgerIssued
  ∧ ∃ reg' st',
      Ledger.batchIssueCredentials 5 3000 [8; 9] ["Course"; "License"] "Uni" 0
        ["Qa"; "Qb"] ["ua"; "ub"] Scenario.registryCounted Scenario.ledgerIssued
      = Ok (reg', st')
      ∧ Ledger.getTotalCredentials st' = 3
      ∧ Ledger.getCredential 2 st'
        = Ok (Ledger.mkCredential 5 9 "License" "Uni" 3000 0 "Qb" false).
Proof.
  assert (Ledger.reachable Scenario.ledgerIssued) as Hreach
    by (eexists _, _, _, _; reflexivity).
  split; [exact Hreach|].
  destruct (Ledger.batchIssueCredentials 5 3000 [8; 9] ["Course"; "License"] "Uni" 0
              ["Qa"; "Qb"] ["ua"; "ub"] Scenario.registryCounted
              Scenario.ledgerIssued) as [[reg' st']| |] eqn:E;
    try (vm_compute in E; discriminate).
  destruct (batchIssueCredentials_issues_in_order _ _ _ _ _ _ _ _ _ _ _ _ Hreach E)
    as (Hc & _ & Hrec).
  exists reg', st'. split; [reflexivity|]. split.
  - rewrite Hc. vm_compute. reflexivity.
  - apply (Hrec 1%nat 9 "License" "Qb"); reflexivity.
Defined.

(** X12. A returning [transferFrom] changes who owns the token and
    nothing else the ledger reports about credentials: [to] is the owner
    afterwards and [from] was it before, while every verdict of
    [verifyCredential], every issuer, every user's credential index and
    the total are as they were. *)
Theorem transferFrom_changes_owner_only :
  ∀ (tx : Ledger.Tx) (st st' : Ledger.State) (from to tokenId : Z),
    Ledger.call tx = Ledger.TransferFrom from to tokenId →
    Ledger.exec tx st = Ok st' →
    Verification.verifyOwnership tokenId from st = true
    ∧ Verification.verifyOwnership tokenId to st' = true
    ∧ (from ≠ to → Verification.verifyOwnership tokenId from st' = false)
    ∧ (∀ t now_, Ledger.verifyCredential now_ t st' = Ledger.verifyCredential now_ t st)
    ∧ (∀ t now_ a, Verification.verifyIssuer now_ t a st'
                   = Verification.verifyIssuer now_ t a st)
    ∧ (∀ user, Ledger.getUserCredentials st' user = Ledger.getUserCredentials st user)
    ∧ Ledger.getTotalCredentials st' = Ledger.getTotalCredentials st.
Proof.
  intros tx st st' from to tokenId Hcall H.
  unfold Ledger.exec in H. rewrite Hcall in H. unfold Ledger.lift721 in H.
  destruct (ERC721.transferFrom _ _ _ _ _) as [e'| |] eqn:E;
    cbn [mbind result_bind] in H; try discriminate.
  injection H as <-. unfold ERC721.transferFrom in E.
  destruct (ERC721._isApprovedOrOwner _ _ _) as [ok| |];
    cbn [mbind result_bind] in E; try discriminate.
  case_require_in E.
  pose proof (λ t, transfer_exists_eq _ _ _ _ _ t E) as Hex.
  apply transfer_inv in E as (Hfrom & Hfnz & Htnz & Ho).
  assert (∀ t now_, Ledger.verifyCredential now_ t
                      (Ledger.set_erc721 st e')
                    = Ledger.verifyCredential now_ t st) as Hv.
  { intros t now_. unfold Ledger.verifyCredential, Ledger._exists. cbn.
    rewrite Hex. reflexivity. }
  split_and!.
  - unfold Verification.verifyOwnership, ERC721.ownerOf. rewrite Hfrom.
    apply Z.eqb_neq in Hfnz. rewrite Hfnz. cbn. apply Z.eqb_refl.
  - unfold Verification.verifyOwnership, ERC721.ownerOf, ERC721._ownerOf. cbn.
    rewrite Ho, lookup_insert_eq. cbn.
    apply Z.eqb_neq in Htnz. rewrite Htnz. cbn. apply Z.eqb_refl.
  - intros Hne.
    unfold Verification.verifyOwnership, ERC721.ownerOf, ERC721._ownerOf. cbn.
    rewrite Ho, lookup_insert_eq. cbn.
    apply Z.eqb_neq in Htnz. rewrite Htnz. cbn. apply Z.eqb_neq. congruence.
  - exact Hv.
  - intros t now_ a. unfold Verification.verifyIssuer. by rewrite Hv.
  - reflexivity.
  - reflexivity.
Qed.

Lemma transferFrom_changes_owner_only_witness :
  Ledger.exec Scenario.transferTx Scenario.ledgerIssued = Ok Scenario.ledger
  ∧ Verification.verifyOwnership 0 7 Scenario.ledgerIssued = true
  ∧ Verification.verifyOwnership 0 8 Scenario.ledger = true
  ∧ Verification.verifyOwnership 0 7 Scenario.ledger = false
  ∧ Verification.verifyIssuer 1500 0 5 Scenario.ledger = true
  ∧ Ledger.getUserCredentials Scenario.ledger 8 = [].
Proof.
  assert (Ledger.exec Scenario.transferTx Scenario.ledgerIssued = Ok Scenario.ledger)
    as E by (vm_compute; reflexivity).
  destruct (transferFrom_changes_owner_only Scenario.transferTx
              Scenario.ledgerIssued Scenario.ledger 7 8 0 eq_refl E)
    as (H1 & H2 & H3 & _ & H5 & H6 & _).
  split; [exact E|]. split; [exact H1|]. split; [exact H2|].
  split; [apply H3; lia|].
  split; [rewrite H5; vm_compute; reflexivity|].
  rewrite H6. vm_compute. reflexivity.
Defined.

(** ** Verification: the quick path, batches and statistics *)

Section VerificationMore.
Import Verification.

Lemma countVerification_inv sender tokenId st st' :
  countVerification sender tokenId st = Ok st' →
  (∀ t, getCredentialVerificationCount st' t
        = getCredentialVerificationCount st t
          + (if decide (tokenId = t) then 1 else 0))
  ∧ (∀ v, getVerifierCount st' v
          = getVerifierCount st v + (if decide (sender = v) then 1 else 0))
  ∧ getTotalVerifications st' = getTotalVerifications st + 1.
Proof.
  unfold countVerification, checked_inc. intros H.
  destruct (getCredentialVerificationCount st tokenId <? MAX_UINT256);
    cbn [mbind result_bind] in H; [|discriminate].
  destruct (getVerifierCount st sender <? MAX_UINT256);
    cbn [mbind result_bind] in H; [|discriminate].
  destruct (totalVerifications st <? MAX_UINT256);
    cbn [mbind result_bind] in H; [|discriminate].
  injection H as <-.
  unfold getCredentialVerificationCount, getVerifierCount, getTotalVerifications.
  cbn. split_and!; [| |reflexivity].
  - intros t. rewrite lookup_insert.
    destruct (decide (tokenId = t)) as [->|]; cbn; lia.
  - intros v. rewrite lookup_insert.
    destruct (decide (sender = v)) as [->|]; cbn; lia.
Qed.

(** The verdict of the detailed path is the answer of the quick path. *)
Lemma detailed_inv sender now_ tokenId reg ledger st st' res :
  verifyCredentialDetailed sender now_ tokenId reg ledger st = Ok (st', res) →
  countVerification sender tokenId st = Ok st'
  ∧ isValid res = quickVerify now_ tokenId reg ledger
  ∧ exists_ res = Ledger._exists ledger tokenId.
Proof.
  unfold verifyCredentialDetailed, quickVerify. intros H.
  destruct (countVerification sender tokenId st) as [s1| |];
    cbn [mbind result_bind] in H; try discriminate.
  unfold Ledger.verifyCredential in *.
  destruct (Ledger._exists ledger tokenId) eqn:Hex;
    cbn [require mbind result_bind] in *.
  - injection H as <- <-. split; [reflexivity|]. split; [|reflexivity].
    cbn. unfold judge; cbn.
    destruct (Ledger.revoked _); cbn; [reflexivity|].
    destruct (Ledger.hasExpired _ _); cbn; [reflexivity|].
    destruct (Registry.isAuthorizedIssuer _ _); reflexivity.
  - injection H as <- <-. done.
Qed.

End VerificationMore.

(** X13. The detailed and the quick verification agree: short of a
    counter overflow [verifyCredentialDetailed] returns, its [isValid] is
    the answer of [quickVerify] for the same token, registry and time,
    and its [exists] tells whether the token was minted. *)
Theorem quickVerify_agrees_with_detailed :
  ∀ (sender now_ tokenId : Z) (reg : Registry.State) (ledger : Ledger.State)
    (st : Verification.State),
    Verification.getCredentialVerificationCount st tokenId < MAX_UINT256 →
    Verification.getVerifierCount st sender < MAX_UINT256 →
    Verification.totalVerifications st < MAX_UINT256 →
    ∃ st' res,
      Verification.verifyCredentialDetailed sender now_ tokenId reg ledger st
        = Ok (st', res)
      ∧ Verification.isValid res = Verification.quickVerify now_ tokenId reg ledger
      ∧ Verification.exists_ res = Ledger._exists ledger tokenId.
Proof.
  intros sender now_ tokenId reg ledger st H1 H2 H3.
  destruct (countVerification_ok sender tokenId st H1 H2 H3) as (s1 & Hc & _).
  destruct (Verification.verifyCredentialDetailed sender now_ tokenId reg ledger st)
    as [[st' res]| |] eqn:E.
  - exists st', res. split; [reflexivity|].
    by destruct (detailed_inv _ _ _ _ _ _ _ _ E) as (_ & Hv & Hx).
  - unfold Verification.verifyCredentialDetailed in E. rewrite Hc in E.
    cbn [mbind result_bind] in E.
    destruct (Ledger.verifyCredential now_ tokenId ledger); discriminate.
  - unfold Verification.verifyCredentialDetailed in E. rewrite Hc in E.
    cbn [mbind result_bind] in E.
    destruct (Ledger.verifyCredential now_ tokenId ledger); discriminate.
Qed.

Lemma quickVerify_agrees_with_detailed_witness :
  Verification.quickVerify 1500 0 Scenario.registryCounted Scenario.ledger = true
  ∧ Verification.quickVerify 2500 0 Scenario.registryCounted Scenario.ledger = false
  ∧ ∃ st' res,
      Verification.verifyCredentialDetailed 3 2500 0 Scenario.registryCounted
        Scenario.ledger Verification.constructor = Ok (st', res)
      ∧ Verification.isValid res = false
      ∧ Verification.exists_ res = true.
Proof.
  split; [vm_compute; reflexivity|]. split; [vm_compute; reflexivity|].
  destruct (quickVerify_agrees_with_detailed 3 2500 0 Scenario.registryCounted
              Scenario.ledger Verification.constructor)
    as (st' & res & Hres & Hv & Hx); [vm_compute; reflexivity ..|].
  exists st', res. split; [exact Hres|].
  split; [rewrite Hv | rewrite Hx]; vm_compute; reflexivity.
Defined.

(** X14. One [verifyCredentialDetailed] call touches only its own
    statistics: the count of the verified token id, the count of the
    calling verifier and the total each grow by one, and the counts of
    every other token id and every other verifier stay as they were. *)
Theorem verification_counts_only_its_own :
  ∀ (sender now_ tokenId : Z) (reg : Registry.State) (ledger : Ledger.State)
    (st st' : Verification.State) (res : Verification.VerificationResult),
    Verification.verifyCredentialDetailed sender now_ tokenId reg ledger st
      = Ok (st', res) →
    Verification.getCredentialVerificationCount st' tokenId
      = Verification.getCredentialVerificationCount st tokenId + 1
    ∧ Verification.getVerifierCount st' sender
      = Verification.getVerifierCount st sender + 1
    ∧ Verification.getTotalVerifications st'
      = Verification.getTotalVerifications st + 1
    ∧ (∀ t, t ≠ tokenId →
         Verification.getCredentialVerificationCount st' t
         = Verification.getCredentialVerificationCount st t)
    ∧ (∀ v, v ≠ sender →
         Verification.getVerifierCount st' v = Verification.getVerifierCount st v).
Proof.
  intros sender now_ tokenId reg ledger st st' res H.
  destruct (detailed_inv _ _ _ _ _ _ _ _ H) as (Hc & _).
  destruct (countVerification_inv _ _ _ _ Hc) as (Ht & Hv & Htot).
  split_and!.
  - rewrite Ht. by destruct (decide (tokenId = tokenId)).
  - rewrite Hv. by destruct (decide (sender = sender)).
  - exact Htot.
  - intros t Hne. rewrite Ht. destruct (decide (tokenId = t)); [congruence|lia].
  - intros v Hne. rewrite Hv. destruct (decide (sender = v)); [congruence|lia].
Qed.

Lemma verification_counts_only_its_own_witness :
  ∃ st' res,
    Verification.verifyCredentialDetailed 3 1500 0 Scenario.registryCounted
      Scenario.ledger Verification.constructor = Ok (st', res)
    ∧ Verification.getCredentialVerificationCount st' 0 = 1
    ∧ Verification.getCredentialVerificationCount st' 1 = 0
    ∧ Verification.getVerifierCount st' 4 = 0.
Proof.
  destruct (Verification.verifyCredentialDetailed 3 1500 0 Scenario.registryCounted
              Scenario.ledger Verification.constructor)
    as [[st' res]| |] eqn:E; try (vm_compute in E; discriminate).
  destruct (verification_counts_only_its_own _ _ _ _ _ _ _ _ E)
    as (Ht & _ & _ & Hot & Hov).
  exists st', res. split; [reflexivity|].
  split; [rewrite Ht; reflexivity|].
  split; [rewrite Hot by lia; reflexivity|]. rewrite Hov by lia. reflexivity.
Defined.

Section BatchVerification.
Import Verification.

Lemma batchVerifyCredentials_spec sender now_ reg ledger : ∀ tokenIds st,
  (∀ t, getCredentialVerificationCount st t + Z.of_nat (length tokenIds)
        ≤ MAX_UINT256) →
  getVerifierCount st sender + Z.of_nat (length tokenIds) ≤ MAX_UINT256 →
  getTotalVerifications st + Z.of_nat (length tokenIds) ≤ MAX_UINT256 →
  ∃ st' results,
    batchVerifyCredentials sender now_ tokenIds reg ledger st = Ok (st', results)
    ∧ map isValid results = quickBatchVerify now_ tokenIds reg ledger
    ∧ map exists_ results = map (Ledger._exists ledger) tokenIds
    ∧ getTotalVerifications st'
      = getTotalVerifications st + Z.of_nat (length tokenIds)
    ∧ getVerifierCount st' sender
      = getVerifierCount st sender + Z.of_nat (length tokenIds)
    ∧ (∀ v, v ≠ sender → getVerifierCount st' v = getVerifierCount st v)
    ∧ (∀ t, getCredentialVerificationCount st' t
            = getCredentialVerificationCount st t
              + Z.of_nat (length (filter (λ x, x = t) tokenIds))).
Proof.
  induction tokenIds as [|t0 rest IH]; intros st Hc Hv Ht.
  - exists st, []. cbn. split_and!; try reflexivity; try lia; try done;
      intros; lia.
  - cbn [length] in Hc, Hv, Ht. cbn [batchVerifyCredentials].
    destruct (verifyCredentialDetailed sender now_ t0 reg ledger st)
      as [[s1 r1]| |] eqn:E.
    2,3: exfalso; unfold verifyCredentialDetailed in E;
      destruct (countVerification_ok sender t0 st) as (s1 & Hc1 & _);
      [specialize (Hc t0); lia | lia | unfold getTotalVerifications in Ht; lia |];
      rewrite Hc1 in E; cbn [mbind result_bind] in E;
      destruct (Ledger.verifyCredential now_ t0 ledger); discriminate.
    destruct (detailed_inv _ _ _ _ _ _ _ _ E) as (Hcv & Hval & Hex).
    destruct (countVerification_inv _ _ _ _ Hcv) as (Hct & Hcver & Htot).
    destruct (IH s1) as (st' & results & Hb & Hm & Hx & Ht' & Hv' & Hov & Hc').
    { intros t. rewrite Hct. specialize (Hc t).
      destruct (decide (t0 = t)); lia. }
    { rewrite Hcver. destruct (decide (sender = sender)); lia. }
    { rewrite Htot. lia. }
    cbn [mbind result_bind fst snd]. rewrite Hb. cbn [mbind result_bind fst snd].
    exists st', (r1 :: results). split; [reflexivity|].
    split_and!.
    + cbn. rewrite Hval, Hm. reflexivity.
    + cbn. rewrite Hex, Hx. reflexivity.
    + rewrite Ht', Htot. cbn [length]. lia.
    + rewrite Hv', Hcver. destruct (decide (sender = sender)); [|done].
      cbn [length]. lia.
    + intros v Hne. rewrite Hov by exact Hne. rewrite Hcver.
      destruct (decide (sender = v)); [congruence|lia].
    + intros t. rewrite Hc', Hct. rewrite filter_cons.
      destruct (decide (t0 = t)); cbn [length]; lia.
Qed.

End BatchVerification.

(** X15. [batchVerifyCredentials] attempts every id, in order, missing
    tokens included: short of a counter overflow it returns one result
    per id, whose [isValid] flags are the answers of [quickBatchVerify]
    and whose [exists] flags tell which ids were minted; the total and
    the caller's count grow by the number of ids, and the count of a
    token id by the number of times it occurs in the batch. *)
Theorem batchVerifyCredentials_verifies_each :
  ∀ (sender now_ : Z) (tokenIds : list Z) (reg : Registry.State)
    (ledger : Ledger.State) (st : Verification.State),
    (∀ t, Verification.getCredentialVerificationCount st t
          + Z.of_nat (length tokenIds) ≤ MAX_UINT256) →
    Verification.getVerifierCount st sender + Z.of_nat (length tokenIds)
      ≤ MAX_UINT256 →
    Verification.getTotalVerifications st + Z.of_nat (length tokenIds)
      ≤ MAX_UINT256 →
    ∃ st' results,
      Verification.batchVerifyCredentials sender now_ tokenIds reg ledger st
        = Ok (st', results)
      ∧ length results = length tokenIds
      ∧ map Verification.isValid results
        = Verification.quickBatchVerify now_ tokenIds reg ledger
      ∧ map Verification.exists_ results = map (Ledger._exists ledger) tokenIds
      ∧ Verification.getTotalVerifications st'
        = Verification.getTotalVerifications st + Z.of_nat (length tokenIds)
      ∧ Verification.getVerifierCount st' sender
        = Verification.getVerifierCount st sender + Z.of_nat (length tokenIds)
      ∧ (∀ t, Verification.getCredentialVerificationCount st' t
              = Verification.getCredentialVerificationCount st t
                + Z.of_nat (length (filter (λ x, x = t) tokenIds))).
Proof.
  intros sender now_ tokenIds reg ledger st Hc Hv Ht.
  destruct (batchVerifyCredentials_spec sender now_ reg ledger tokenIds st Hc Hv Ht)
    as (st' & results & Hb & Hm & Hx & Ht' & Hv' & _ & Hc').
  exists st', results. split_and!; try assumption.
  apply (f_equal length) in Hx. by rewrite !length_map in Hx.
Qed.

Lemma batchVerifyCredentials_verifies_each_witness :
  ∃ st' results,
    Verification.batchVerifyCredentials 3 1500 [0; 999; 0] Scenario.registryCounted
      Scenario.ledger Verification.constructor = Ok (st', results)
    ∧ map Verification.isValid results = [true; false; true]
    ∧ map Verification.exists_ results = [true; false; true]
    ∧ Verification.getTotalVerifications st' = 3
    ∧ Verification.getCredentialVerificationCount st' 0 = 2.
Proof.
  destruct (batchVerifyCredentials_verifies_each 3 1500 [0; 999; 0]
              Scenario.registryCounted Scenario.ledger Verification.constructor)
    as (st' & results & Hb & _ & Hm & Hx & Ht & _ & Hc).
  - intros t. vm_compute. discriminate.
  - vm_compute. discriminate.
  - vm_compute. discriminate.
  - exists st', results. split; [exact Hb|].
    split; [rewrite Hm; vm_compute; reflexivity|].
    split; [rewrite Hx; vm_compute; reflexivity|].
    split; [rewrite Ht; reflexivity|]. rewrite Hc. reflexivity.
Defined.

(** X16. [getCredentialInfo] reports the ledger's local view: its
    [exists] flag tells whether the token was minted, and [quickVerify]
    is its [isValid] together with the registry's authorization of its
    issuer. For a token that was never minted it reports zero
    verifications, although a detailed verification attempt on that id
    has just been counted. *)
Theorem getCredentialInfo_is_local_view :
  ∀ (sender now_ tokenId : Z) (reg : Registry.State) (ledger : Ledger.State)
    (st : Verification.State),
    Verification.i_exists (Verification.getCredentialInfo now_ tokenId ledger st)
      = Ledger._exists ledger tokenId
    ∧ Verification.quickVerify now_ tokenId reg ledger
      = Verification.i_isValid (Verification.getCredentialInfo now_ tokenId ledger st)
        && Registry.isAuthorizedIssuer reg
             (Verification.i_issuer
                (Verification.getCredentialInfo now_ tokenId ledger st))
    ∧ (Ledger._exists ledger tokenId = true →
       Verification.i_verifications
         (Verification.getCredentialInfo now_ tokenId ledger st)
       = Verification.getCredentialVerificationCount st tokenId)
    ∧ (Ledger._exists ledger tokenId = false →
       ∀ st' res,
         Verification.verifyCredentialDetailed sender now_ tokenId reg ledger st
           = Ok (st', res) →
         Verification.getCredentialVerificationCount st' tokenId
           = Verification.getCredentialVerificationCount st tokenId + 1
         ∧ Verification.i_verifications
             (Verification.getCredentialInfo now_ tokenId ledger st') = 0).
Proof.
  intros sender now_ tokenId reg ledger st.
  unfold Verification.getCredentialInfo, Verification.quickVerify,
    Ledger.verifyCredential.
  destruct (Ledger._exists ledger tokenId) eqn:Hex;
    cbn [require mbind result_bind]; cbn.
  - split_and!; try reflexivity; try discriminate.
  - split_and!; try reflexivity; try discriminate.
    intros _ st' res H.
    destruct (detailed_inv _ _ _ _ _ _ _ _ H) as (Hc & _).
    destruct (countVerification_inv _ _ _ _ Hc) as (Ht & _).
    split; [|reflexivity].
    rewrite Ht. by destruct (decide (tokenId = tokenId)).
Qed.

Lemma getCredentialInfo_is_local_view_witness :
  Ledger._exists Scenario.ledger 999 = false
  ∧ ∃ st' res,
      Verification.verifyCredentialDetailed 3 1500 999 Scenario.registryCounted
        Scenario.ledger Verification.constructor = Ok (st', res)
      ∧ Verification.getCredentialVerificationCount st' 999 = 1
      ∧ Verification.i_verifications
          (Verification.getCredentialInfo 1500 999 Scenario.ledger st') = 0.
Proof.
  assert (Ledger._exists Scenario.ledger 999 = false) as Hex
    by (vm_compute; reflexivity).
  split; [exact Hex|].
  destruct (Verification.verifyCredentialDetailed 3 1500 999 Scenario.registryCounted
              Scenario.ledger Verification.constructor)
    as [[st' res]| |] eqn:E; try (vm_compute in E; discriminate).
  destruct (getCredentialInfo_is_local_view 3 1500 999 Scenario.registryCounted
              Scenario.ledger Verification.constructor) as (_ & _ & _ & Hnf).
  destruct (Hnf Hex st' res E) as [Hc Hi].
  exists st', res. split; [reflexivity|]. split; [rewrite Hc; reflexivity|exact Hi].
Defined.

(** ** Controller: waiting, ordering and the local record *)

(** X17. [waitForTransactionWithTimeout] returns a receipt exactly when
    some tick before the deadline saw it with at least the required
    number of confirmations, and it returns the first such receipt:
    every earlier tick failed, saw no receipt or saw too few
    confirmations. *)
Theorem wait_returns_first_deep_receipt :
  ∀ (confirmations : Z) (polls : list Onboarding.Poll) (receipt : Onboarding.Receipt),
    Onboarding.waitForTransactionWithTimeout confirmations polls = Some receipt
    ↔ ∃ before currentBlock after,
        polls = (before ++ Onboarding.PollReceipt receipt currentBlock :: after)%list
        ∧ confirmations ≤ currentBlock - Onboarding.blockNumber receipt
        ∧ ∀ r c, Onboarding.PollReceipt r c ∈ before →
                 c - Onboarding.blockNumber r < confirmations.
Proof.
  intros confirmations polls receipt. split.
  - induction polls as [|p polls IH]; cbn; [discriminate|].
    destruct p as [| |r c].
    + intros H. destruct (IH H) as (b & cb & a & -> & Hd & Hb).
      exists (Onboarding.PollThrew :: b), cb, a. split; [reflexivity|].
      split; [exact Hd|]. intros r' c' Hin.
      apply elem_of_cons in Hin as [Hin|Hin]; [discriminate|]. by apply (Hb r').
    + intros H. destruct (IH H) as (b & cb & a & -> & Hd & Hb).
      exists (Onboarding.PollPending :: b), cb, a. split; [reflexivity|].
      split; [exact Hd|]. intros r' c' Hin.
      apply elem_of_cons in Hin as [Hin|Hin]; [discriminate|]. by apply (Hb r').
    + destruct (c - Onboarding.blockNumber r >=? confirmations) eqn:E.
      * intros [= ->]. exists [], c, polls. split; [reflexivity|].
        rewrite Z.geb_leb in E. apply Z.leb_le in E. split; [exact E|].
        intros r' c' Hin. by apply elem_of_nil in Hin.
      * intros H. destruct (IH H) as (b & cb & a & -> & Hd & Hb).
        exists (Onboarding.PollReceipt r c :: b), cb, a. split; [reflexivity|].
        split; [exact Hd|]. intros r' c' Hin.
        apply elem_of_cons in Hin as [Hin|Hin]; [|by apply (Hb r')].
        injection Hin as -> ->. rewrite Z.geb_leb in E. by apply Z.leb_gt in E.
  - intros (before & cb & after & -> & Hd & Hb).
    induction before as [|p before IH]; cbn.
    + assert ((cb - Onboarding.blockNumber receipt >=? confirmations) = true) as ->
        by (rewrite Z.geb_leb; by apply Z.leb_le).
      reflexivity.
    + assert (∀ r c, Onboarding.PollReceipt r c ∈ before →
                     c - Onboarding.blockNumber r < confirmations) as Hb'
        by (intros r c Hin; apply Hb; by right).
      destruct p as [| |r c]; try (by apply IH).
      assert ((c - Onboarding.blockNumber r >=? confirmations) = false) as ->.
      { rewrite Z.geb_leb. apply Z.leb_gt. apply Hb. left. }
      by apply IH.
Qed.

Section OnboardingRuns.
Import Onboarding.

(** Splits a run of [registerUserOnBlockchain] along the answers of its
    collaborators, in the order the workflow asks for them. *)
Ltac run_cases H :=
  unfold registerUserOnBlockchain, workflow, registrationPhase, registrationStep,
    await, perform, throw in H;
  repeat (match type of H with
          | context [allowedUserType ?t] =>
              destruct (allowedUserType t) eqn:Hallowed
          | context [isAuthorizedIssuerCall ?e] =>
              destruct (isAuthorizedIssuerCall e) as [[|]|] eqn:Hauth
          | context [isRegisteredOnChain ?e] =>
              destruct (isRegisteredOnChain e) eqn:Hregistered
          | context [registrationGas ?e] =>
              destruct (registrationGas e) eqn:Hrgas
          | context [registrationTx ?e] =>
              destruct (registrationTx e) eqn:Hrtx
          | context [waitForTransactionWithTimeout _ (registrationPolls ?e)] =>
              destruct (waitForTransactionWithTimeout 2 (registrationPolls e))
                eqn:Hrwait
          | context [verificationGas ?e] =>
              destruct (verificationGas e) eqn:Hvgas
          | context [verificationTx ?e] =>
              destruct (verificationTx e) eqn:Hvtx
          | context [waitForTransactionWithTimeout _ (verificationPolls ?e)] =>
              destruct (waitForTransactionWithTimeout 2 (verificationPolls e))
                eqn:Hvwait
          | context [userUpdate ?e] =>
              destruct (userUpdate e) eqn:Hupd
          | context [isNowAuthorizedCall ?e] =>
              destruct (isNowAuthorizedCall e) eqn:Hnow
          end; cbn in H);
  injection H as <- <-.

(** Decides membership in a list that is written out. *)
Ltac elem_cases H :=
  repeat (apply elem_of_cons in H as [H|H]; [try discriminate H|]);
  try (by apply elem_of_nil in H).

Lemma run_verify_after_registration user website_ env log resp w g :
  registerUserOnBlockchain user website_ env = (log, resp) →
  SubmitVerifyInstitution w g ∈ log →
  isAuthorizedIssuerCall env = Returned false
  ∧ (isRegisteredOnChain env = true
     ∨ ∃ receipt,
         waitForTransactionWithTimeout 2 (registrationPolls env) = Some receipt).
Proof.
  intros H Hin. run_cases H; elem_cases Hin; eauto.
Qed.

Lemma run_update_inv user website_ env log resp id fields :
  registerUserOnBlockchain user website_ env = (log, resp) →
  UserUpdate id fields ∈ log →
  id = userId user
  ∧ verificationTx env = Returned (f_verificationTxHash fields)
  ∧ SubmitVerifyInstitution (walletAddress user)
      (match verificationGas env with Returned g => g | Threw _ => mkGas 0 0 end)
    ∈ log
  ∧ match waitForTransactionWithTimeout 2 (verificationPolls env) with
    | Some receipt =>
        f_verificationStatus fields = "confirmed"
        ∧ f_verificationBlockNumber fields = Some (blockNumber receipt)
    | None =>
        f_verificationStatus fields = "pending"
        ∧ f_verificationBlockNumber fields = None
    end.
Proof.
  intros H Hin. run_cases H; elem_cases Hin;
    injection Hin as -> ->; cbn; split_and!; try reflexivity;
    repeat first [apply list_elem_of_here | apply list_elem_of_further].
Qed.

Lemma run_success_inv user website_ env log resp :
  registerUserOnBlockchain user website_ env = (log, resp) →
  reportsSuccess resp = true →
  statusCode resp = 200
  ∧ ∃ g fields, (SubmitVerifyInstitution (walletAddress user) g ∈ log)
                ∧ UserUpdate (userId user) fields ∈ log.
Proof.
  intros H Hs. run_cases H; cbn in Hs; try discriminate Hs;
    (split; [reflexivity|]); eexists _, _; split;
    repeat first [apply list_elem_of_here | apply list_elem_of_further].
Qed.

End OnboardingRuns.

(** X18. The workflow never submits [verifyInstitution] ahead of the
    registration: a run that submitted it had found the caller not yet
    authorized, and had either read an on-chain record for the caller or
    waited until its own registration transaction had two
    confirmations. *)
Theorem verify_submitted_only_after_registration :
  ∀ (user : Onboarding.User) (website_ : option string) (env : Onboarding.Env)
    (wallet : string) (gas : Onboarding.GasEstimate),
    Onboarding.SubmitVerifyInstitution wallet gas
      ∈ fst (Onboarding.registerUserOnBlockchain user website_ env) →
    Onboarding.isAuthorizedIssuerCall env = Onboarding.Returned false
    ∧ (Onboarding.isRegisteredOnChain env = true
       ∨ ∃ receipt,
           Onboarding.waitForTransactionWithTimeout 2
             (Onboarding.registrationPolls env) = Some receipt).
Proof.
  intros user website_ env wallet gas Hin.
  destruct (Onboarding.registerUserOnBlockchain user website_ env)
    as [log resp] eqn:E.
  eapply run_verify_after_registration; eauto.
Qed.

Lemma verify_submitted_only_after_registration_witness :
  Onboarding.SubmitVerifyInstitution "0xA11CE" Scenario.gas
    ∈ fst (Onboarding.registerUserOnBlockchain Scenario.institutionUser None
             Scenario.envVerificationTimeout)
  ∧ Onboarding.waitForTransactionWithTimeout 2
      (Onboarding.registrationPolls Scenario.envVerificationTimeout)
    = Some (Onboarding.mkReceipt 10 (Some "21000")).
Proof.
  assert (Onboarding.SubmitVerifyInstitution "0xA11CE" Scenario.gas
            ∈ fst (Onboarding.registerUserOnBlockchain Scenario.institutionUser None
                     Scenario.envVerificationTimeout)) as Hin.
  { vm_compute. apply list_elem_of_further, list_elem_of_here. }
  split; [exact Hin|].
  destruct (verify_submitted_only_after_registration _ _ _ _ _ Hin)
    as [_ [Hreg|[receipt Hw]]]; [vm_compute in Hreg; discriminate|].
  vm_compute. reflexivity.
Defined.

(** X19. The user record is never marked stronger than what the wait
    observed: every write of a run carries the hash of the submitted
    verification transaction; its status is "confirmed", with the
    receipt's block number, when the verification wait returned a
    receipt, and "pending", with no block number, when the wait timed
    out. *)
Theorem user_record_follows_the_wait :
  ∀ (user : Onboarding.User) (website_ : option string) (env : Onboarding.Env)
    (id : string) (fields : Onboarding.BlockchainFields),
    Onboarding.UserUpdate id fields
      ∈ fst (Onboarding.registerUserOnBlockchain user website_ env) →
    id = Onboarding.userId user
    ∧ Onboarding.verificationTx env
      = Onboarding.Returned (Onboarding.f_verificationTxHash fields)
    ∧ match Onboarding.waitForTransactionWithTimeout 2
              (Onboarding.verificationPolls env) with
      | Some receipt =>
          Onboarding.f_verificationStatus fields = "confirmed"
          ∧ Onboarding.f_verificationBlockNumber fields
            = Some (Onboarding.blockNumber receipt)
      | None =>
          Onboarding.f_verificationStatus fields = "pending"
          ∧ Onboarding.f_verificationBlockNumber fields = None
      end.
Proof.
  intros user website_ env id fields Hin.
  destruct (Onboarding.registerUserOnBlockchain user website_ env)
    as [log resp] eqn:E.
  destruct (run_update_inv _ _ _ _ _ _ _ E Hin) as (H1 & H2 & _ & H4).
  done.
Qed.

Lemma user_record_follows_the_wait_witness :
  Onboarding.UserUpdate "u1"
    (Onboarding.mkFields true "0xREG" "0xVER" (Some 10) (Some 10) "confirmed")
    ∈ fst (Onboarding.registerUserOnBlockchain Scenario.institutionUser None
             Scenario.envConfirmed)
  ∧ Onboarding.verificationTx Scenario.envConfirmed = Onboarding.Returned "0xVER"
  ∧ Onboarding.waitForTransactionWithTimeout 2
      (Onboarding.verificationPolls Scenario.envConfirmed)
    = Some (Onboarding.mkReceipt 10 (Some "21000")).
Proof.
  assert (Onboarding.UserUpdate "u1"
            (Onboarding.mkFields true "0xREG" "0xVER" (Some 10) (Some 10) "confirmed")
            ∈ fst (Onboarding.registerUserOnBlockchain Scenario.institutionUser None
                     Scenario.envConfirmed)) as Hin.
  { vm_compute. do 2 apply list_elem_of_further. apply list_elem_of_here. }
  split; [exact Hin|].
  destruct (user_record_follows_the_wait _ _ _ _ _ Hin) as (_ & Htx & _).
  split; [exact Htx|]. vm_compute. reflexivity.
Defined.

(** X20. A response that reports success, fully or partially, is sent
    with HTTP 200 and only by a run that submitted [verifyInstitution]
    and wrote the user record. *)
Theorem success_only_after_submission :
  ∀ (user : Onboarding.User) (website_ : option string) (env : Onboarding.Env),
    Onboarding.reportsSuccess
      (snd (Onboarding.registerUserOnBlockchain user website_ env)) = true →
    Onboarding.statusCode
      (snd (Onboarding.registerUserOnBlockchain user website_ env)) = 200
    ∧ ∃ gas fields,
        Onboarding.SubmitVerifyInstitution (Onboarding.walletAddress user) gas
          ∈ fst (Onboarding.registerUserOnBlockchain user website_ env)
        ∧ Onboarding.UserUpdate (Onboarding.userId user) fields
          ∈ fst (Onboarding.registerUserOnBlockchain user website_ env).
Proof.
  intros user website_ env Hs.
  destruct (Onboarding.registerUserOnBlockchain user website_ env)
    as [log resp] eqn:E.
  eapply run_success_inv; eauto.
Qed.

Lemma success_only_after_submission_witness :
  Onboarding.reportsSuccess
    (snd (Onboarding.registerUserOnBlockchain Scenario.institutionUser None
            Scenario.envConfirmed)) = true
  ∧ Onboarding.statusCode
      (snd (Onboarding.registerUserOnBlockchain Scenario.institutionUser None
              Scenario.envConfirmed)) = 200.
Proof.
  assert (Onboarding.reportsSuccess
            (snd (Onboarding.registerUserOnBlockchain Scenario.institutionUser None
                    Scenario.envConfirmed)) = true) as Hs
    by (vm_compute; reflexivity).
  split; [exact Hs|].
  apply (success_only_after_submission _ _ _ Hs).
Defined.

(** X21. Full completion: when the registration phase completed, the
    verification transaction reached two confirmations and the user
    store accepted the write, the workflow records "confirmed" with the
    receipt's block number and answers with the final registry read:
    status "fully_verified" when the caller now is an authorized
    issuer, "verification_pending" when it is not. *)
Theorem onboarding_full_completion :
  ∀ (user : Onboarding.User) (website_ : option string) (env : Onboarding.Env)
    prelog reg vgas vh vreceipt (isNow : bool),
    Onboarding.allowedUserType (Onboarding.userType user) = true →
    Onboarding.isAuthorizedIssuerCall env = Onboarding.Returned false →
    Onboarding.registrationPhase user website_ env
      = (prelog, Onboarding.Returned reg) →
    Onboarding.verificationGas env = Onboarding.Returned vgas →
    Onboarding.verificationTx env = Onboarding.Returned vh →
    Onboarding.waitForTransactionWithTimeout 2 (Onboarding.verificationPolls env)
      = Some vreceipt →
    Onboarding.userUpdate env = Onboarding.Returned tt →
    Onboarding.isNowAuthorizedCall env = Onboarding.Returned isNow →
    Onboarding.registerUserOnBlockchain user website_ env
    = ((prelog ++
        [ Onboarding.SubmitVerifyInstitution (Onboarding.walletAddress user) vgas;
          Onboarding.UserUpdate (Onboarding.userId user)
            (Onboarding.mkFields true
               (Onboarding.orElse (fst <$> reg) "Already registered") vh
               ((λ x, Onboarding.blockNumber (snd x)) <$> reg)
               (Some (Onboarding.blockNumber vreceipt)) "confirmed") ])%list,
       Onboarding.mkResponse 200
         (Onboarding.CompletedBody true
            "Successfully registered and verified on blockchain" isNow
            ((λ x, Onboarding.txInfo (fst x) (Some (snd x))) <$> reg)
            (Onboarding.txInfo vh (Some vreceipt))
            (if Onboarding.isRegisteredOnChain env
             then "Institution was already registered, only verification was needed"
             else "Institution was registered and verified")
            (if isNow then "fully_verified" else "verification_pending"))).
Proof.
  intros user website_ env prelog reg vgas vh vreceipt isNow
         Hallowed Hauth Hreg Hgas Htx Hwait Hupd Hnow.
  unfold Onboarding.registerUserOnBlockchain, Onboarding.workflow.
  rewrite Hallowed, Hauth. cbn [negb].
  unfold Onboarding.await at 1.
  rewrite (bind_returned _ _ [] false eq_refl). cbn [app].
  rewrite Hreg, Hgas, Htx, Hwait, Hupd, Hnow. reflexivity.
Qed.

Lemma onboarding_full_completion_witness :
  Onboarding.registerUserOnBlockchain Scenario.institutionUser None
    Scenario.envConfirmed
  = ([ Onboarding.SubmitRegisterInstitution "0xA11CE" "Uni" "" "a@uni.example" ""
         Scenario.gas;
       Onboarding.SubmitVerifyInstitution "0xA11CE" Scenario.gas;
       Onboarding.UserUpdate "u1"
         (Onboarding.mkFields true "0xREG" "0xVER" (Some 10) (Some 10) "confirmed") ],
     Onboarding.mkResponse 200
       (Onboarding.CompletedBody true
          "Successfully registered and verified on blockchain" true
          (Some (Onboarding.mkTxInfo "0xREG" (Some 10) (Some "21000")))
          (Onboarding.mkTxInfo "0xVER" (Some 10) (Some "21000"))
          "Institution was registered and verified" "fully_verified")).
Proof.
  apply (onboarding_full_completion Scenario.institutionUser None
           Scenario.envConfirmed
           [Onboarding.SubmitRegisterInstitution "0xA11CE" "Uni" "" "a@uni.example" ""
              Scenario.gas]
           (Some ("0xREG", Onboarding.mkReceipt 10 (Some "21000")))
           Scenario.gas "0xVER" (Onboarding.mkReceipt 10 (Some "21000")) true);
    vm_compute; reflexivity.
Defined.



Section NumberFacts.
Import Onboarding.

(** Integers of up to 53 bits are doubles. *)
Lemma toNumber_exact n : 0 ≤ n < 2 ^ 53 → toNumber n = n.
Proof.
  intros [H0 H1]. unfold toNumber. rewrite Z.abs_eq by exact H0.
  destruct (decide (n = 0)) as [->|Hnz]; [reflexivity|].
  assert (Z.log2 n < 53) as Hlog by (apply Z.log2_lt_pow2; lia).
  apply Z.ltb_lt in Hlog. by rewrite Hlog.
Qed.

Lemma dateOfSeconds_exact seconds :
  0 ≤ seconds ≤ 8640000000000 → dateOfSeconds seconds = Some (seconds * 1000).
Proof.
  intros H. unfold dateOfSeconds.
  rewrite (toNumber_exact seconds) by lia.
  rewrite (toNumber_exact (seconds * 1000)) by lia.
  rewrite Z.abs_eq by lia.
  assert ((seconds * 1000 <=? 8640000000000000) = true) as ->
    by (apply Z.leb_le; lia).
  reflexivity.
Qed.

End NumberFacts.

(** X23. [checkBlockchainRegistration] fails (HTTP 500) only when the
    authorization read fails; otherwise it answers 200 with the
    authorization flag as read and a status text that follows it. It
    reports [isRegistered] only when the registry returned a record with
    a name, and then sends that record with the counter passed through
    [Number] and the date through [Date] (both exact for a counter below
    2^53 and a date within the range of [Date]); it reports
    [isRegistered] as false, with no institution data and no write,
    whenever the record read or the user lookup throws. The only write
    it makes marks a local record that did not know of the registration,
    with status "confirmed". *)
Theorem checkBlockchainRegistration_report :
  ∀ (env : Onboarding.RegistrationEnv) (isAuthorized : bool),
    Onboarding.isAuthorizedCall env = Onboarding.Returned isAuthorized →
    ∃ log isRegistered data,
      Onboarding.checkBlockchainRegistration env
      = (log, (200, Onboarding.RegistrationReport true isRegistered isAuthorized data
                      (Onboarding.registrationStatus isAuthorized isRegistered)))
      ∧ (isRegistered = true →
         ∃ d, Onboarding.institutionCall env = Onboarding.Returned d
              ∧ Onboarding.d_name d ≠ ""
              ∧ data = Some (Onboarding.reportInstitution d)
              ∧ (0 ≤ Onboarding.d_credentialsIssued d < 2 ^ 53 →
                 Onboarding.rep_credentialsIssued (Onboarding.reportInstitution d)
                 = Onboarding.d_credentialsIssued d)
              ∧ (0 ≤ Onboarding.d_registrationDate d ≤ 8640000000000 →
                 Onboarding.rep_registrationDate (Onboarding.reportInstitution d)
                 = Some (Onboarding.d_registrationDate d * 1000)))
      ∧ (isRegistered = false → data = None ∧ log = [])
      ∧ ((∃ e, Onboarding.institutionCall env = Onboarding.Threw e)
         ∨ (∃ e, Onboarding.findByWalletAddressCall env = Onboarding.Threw e) →
         isRegistered = false)
      ∧ (∀ id status date,
           Onboarding.MarkRegistered id status date ∈ log →
           status = "confirmed"
           ∧ Onboarding.findByWalletAddressCall env
             = Onboarding.Returned (Some (id, false))).
Proof.
  intros env isAuthorized Ha.
  assert (∀ d, Onboarding.d_name d ≠ "" →
            ∃ d', Onboarding.Returned d = Onboarding.Returned d'
                  ∧ Onboarding.d_name d' ≠ ""
                  ∧ Some (Onboarding.reportInstitution d)
                    = Some (Onboarding.reportInstitution d')
                  ∧ (0 ≤ Onboarding.d_credentialsIssued d' < 2 ^ 53 →
                     Onboarding.rep_credentialsIssued (Onboarding.reportInstitution d')
                     = Onboarding.d_credentialsIssued d')
                  ∧ (0 ≤ Onboarding.d_registrationDate d' ≤ 8640000000000 →
                     Onboarding.rep_registrationDate (Onboarding.reportInstitution d')
                     = Some (Onboarding.d_registrationDate d' * 1000))) as Hrep.
  { intros d Hne. exists d. split_and!; try done.
    - intros Hr. cbn. by apply toNumber_exact.
    - intros Hr. cbn. by apply dateOfSeconds_exact. }
  unfold Onboarding.checkBlockchainRegistration, Onboarding.lookupRegistration.
  rewrite Ha.
  destruct (Onboarding.institutionCall env) as [d|e1] eqn:Hi.
  2:{ eexists _, _, _. split; [reflexivity|]. cbn.
      split_and!; try done. intros id s dt Hin. by apply elem_of_nil in Hin. }
  destruct (String.eqb (Onboarding.d_name d) "") eqn:Hn; cbn [negb].
  - destruct (Onboarding.findByWalletAddressCall env) as [[[id0 loc]|]|e2] eqn:Hf;
      [rewrite andb_false_r|..]; cbn;
      (eexists _, _, _; split; [reflexivity|]); cbn;
      (split_and!; try done; intros id s dt Hin; by apply elem_of_nil in Hin).
  - assert (Onboarding.d_name d ≠ "") as Hne by (by apply String.eqb_neq).
    destruct (Onboarding.findByWalletAddressCall env) as [[[id0 loc]|]|e2] eqn:Hf.
    + destruct loc; cbn [negb andb].
      * eexists _, _, _. split; [reflexivity|]. cbn. split_and!; try done.
        -- intros _. by apply Hrep.
        -- intros [[e He]|[e He]]; discriminate.
        -- intros id s dt Hin. by apply elem_of_nil in Hin.
      * destruct (Onboarding.registrationUpdate env) eqn:Hu.
        -- eexists _, _, _. split; [reflexivity|]. cbn. split_and!; try done.
           ++ intros _. by apply Hrep.
           ++ intros [[e He]|[e He]]; discriminate.
           ++ intros id s dt Hin. apply list_elem_of_singleton in Hin.
              by injection Hin as -> -> ->.
        -- eexists _, _, _. split; [reflexivity|]. cbn. split_and!; try done.
           intros id s dt Hin. by apply elem_of_nil in Hin.
    + eexists _, _, _. split; [reflexivity|]. cbn. split_and!; try done.
      * intros _. by apply Hrep.
      * intros [[e He]|[e He]]; discriminate.
      * intros id s dt Hin. by apply elem_of_nil in Hin.
    + eexists _, _, _. split; [reflexivity|]. cbn. split_and!; try done.
      intros id s dt Hin. by apply elem_of_nil in Hin.
Qed.

Lemma checkBlockchainRegistration_report_witness :
  Onboarding.checkBlockchainRegistration Scenario.registrationEnvStoreDown
  = ([], (200, Onboarding.RegistrationReport true false false None "Not registered"))
  ∧ fst (Onboarding.checkBlockchainRegistration Scenario.registrationEnvUnsynced)
    = [Onboarding.MarkRegistered "u1" "confirmed" (Some 100000)]
  ∧ snd (Onboarding.checkBlockchainRegistration Scenario.registrationEnvLargeCounter)
    = (200, Onboarding.RegistrationReport true true true
              (Some (Onboarding.mkReported "Uni" "uni.example" "a@uni.example" true
                       (Some 100000) (2 ^ 53)))
              "Fully registered and verified").
Proof.
  split; [|split; vm_compute; reflexivity].
  destruct (checkBlockchainRegistration_report Scenario.registrationEnvStoreDown
              false eq_refl) as (log & isReg & data & Heq & _ & Hfalse & Hthrow & _).
  assert (isReg = false) as -> by (apply Hthrow; right; by eexists).
  destruct (Hfalse eq_refl) as [-> ->]. exact Heq.
Defined.
